(** * lpt2pdf: lineprinter data to PDF

    A shallow embedding of the PDF engine of [lpt2pdf.c] (parser, line
    buffer, page writer, session open / checkpoint / close and the LZW
    encoder), followed by the properties of the engine's specification
    that were checked against it.

    Conventions of the embedding.
    - C integers are [Z]; where the C type wraps, the wrap-around is
      written out ([u8], [u16], [u32]).
    - Bytes and the 16-bit characters of the parse and line buffers are
      [Z]; a byte string is a [list Z].
    - [double] configuration values are exact rationals ([Q]); the casts
      to integer types truncate toward zero as in C.
    - Functions that can leave through [ABORT] (longjmp) return a
      [result] that carries the context as it is at the jump.
    - Memory allocation and the C library's file operations are taken
      not to fail; buffer capacities ([formsize], [xsize], [pbsize],
      ...) are not part of the model. *)

From Stdlib Require Import ZArith QArith Qabs List Lia Bool String Ascii.
From Stdlib Require Import DecimalString.
From Stdlib Require DecimalFacts DecimalPos DecimalN.
Import ListNotations.
Open Scope Z_scope.

(** ** Bytes, text and printf conversions *)

Definition u8 (x : Z) : Z := x mod 256.
Definition u16 (x : Z) : Z := x mod 65536.
Definition u32 (x : Z) : Z := x mod 4294967296.

(** Conversion to plain [char] (signed on the usual targets). *)
Definition to_char (c : Z) : Z :=
  let b := u8 c in if 128 <=? b then b - 256 else b.

Definition str (s : string) : list Z :=
  map (fun a => Z.of_nat (nat_of_ascii a)) (list_ascii_of_string s).

Definition text (l : list Z) : string :=
  string_of_list_ascii (map (fun b => ascii_of_nat (Z.to_nat b)) l).

Definition nl : list Z := [10].

(** [%u] and [%lu]. *)
Definition fmt_u (n : Z) : list Z :=
  str (NilZero.string_of_uint (N.to_uint (Z.to_N n))).

(** [%0wu]: at least [w] digits, padded with zeros on the left. *)
Definition fmt_u0 (w : nat) (n : Z) : list Z :=
  let d := fmt_u n in repeat 48 (w - List.length d) ++ d.

(** [%wu]: at least [w] characters, padded with spaces on the left. *)
Definition fmt_uw (w : nat) (n : Z) : list Z :=
  let d := fmt_u n in repeat 32 (w - List.length d) ++ d.

(** C's conversion of a [double] to an integer type: truncation. *)
Definition trunc (q : Q) : Z := Z.quot (Qnum q) (Zpos (Qden q)).

(** Round to the nearest integer, ties to even (printf's rounding). *)
Definition round_even (q : Q) : Z :=
  let n := Qnum q in
  let d := Zpos (Qden q) in
  let fl := n / d in
  let r2 := 2 * (n mod d) in
  if r2 <? d then fl
  else if d <? r2 then fl + 1
  else if Z.even fl then fl else fl + 1.

(** [%f]: six digits after the point. *)
Definition fmt_f (q : Q) : list Z :=
  let neg := Qnum q <? 0 in
  let m := round_even (Qabs q * 1000000) in
  (if neg then [45] else []) ++ fmt_u (m / 1000000) ++ [46]
    ++ fmt_u0 6 (m mod 1000000).

(** [%02X] of one byte. *)
Definition hexdigit (n : Z) : Z := if n <? 10 then 48 + n else 55 + n.
Definition fmt_02X (b : Z) : list Z := [hexdigit (b / 16 mod 16); hexdigit (b mod 16)].

Definition tolower (c : Z) : Z := if (65 <=? c) && (c <=? 90) then c + 32 else c.
Definition toupper (c : Z) : Z := if (97 <=? c) && (c <=? 122) then c - 32 else c.
Definition islower (c : Z) : bool := (97 <=? c) && (c <=? 122).
Definition isdigit (c : Z) : bool := (48 <=? c) && (c <=? 57).
Definition isspace (c : Z) : bool := (c =? 32) || ((9 <=? c) && (c <=? 13)).

(** [a[i]] and [a[i] = v] on a C array held as a list. *)
Definition aget {A} (d : A) (l : list A) (i : Z) : A := nth (Z.to_nat i) l d.

Fixpoint upd_nth {A} (l : list A) (n : nat) (v : A) : list A :=
  match l, n with
  | [], _ => []
  | _ :: r, O => v :: r
  | x :: r, S k => x :: upd_nth r k v
  end.

Definition aset {A} (l : list A) (i : Z) (v : A) : list A :=
  upd_nth l (Z.to_nat i) v.

(** ** LZW encoder *)

Module LZW.

Definition LZW_CLRCODE : Z := 256.
Definition LZW_EODCODE : Z := 257.
Definition LZW_IDCODES : Z := 258.
Definition LZW_MINBITS : Z := 9.
Definition LZW_MAXBITS : Z := 12.
Definition LZW_DSIZE : Z := Z.shiftl 1 LZW_MAXBITS.
Definition TREE_NULL : Z := u16 (-1).

Record t_lzwNode := mkNode {
  prev : Z;
  first : Z;
  next : Z;
  ch : Z }.

(** The encoding context.  [out] is the output buffer
    ([*outbuf] with [*outused] bytes); only buffer mode is used by the
    library, so the file handle [fh] is left out. *)
Record t_lzw := mkLzw {
  out : list Z;
  bitbuf : Z;
  nbits : Z;
  dict : list t_lzwNode;
  assigned : Z;
  codesize : Z }.

Inductive lzw_mode := LZW_BUFFER | LZW_REINIT.

Definition zero_node : t_lzwNode := mkNode 0 0 0 0.

Definition zero_lzw : t_lzw :=
  mkLzw [] 0 0 (repeat zero_node (Z.to_nat LZW_DSIZE)) 0 0.

(** The loop of [lzw_init] over the identity codes [i = k .. 257]. *)
Fixpoint init_ids (n : nat) (i : Z) (d : list t_lzwNode) : list t_lzwNode :=
  match n with
  | O => d
  | S n' => init_ids n' (i + 1) (aset d i (mkNode TREE_NULL TREE_NULL TREE_NULL i))
  end.

Definition lzw_init (mode : lzw_mode) (lzw : t_lzw) : t_lzw :=
  let l := match mode with LZW_REINIT => lzw | LZW_BUFFER => zero_lzw end in
  mkLzw (out l) (bitbuf l) (nbits l)
        (init_ids (Z.to_nat LZW_IDCODES) 0 (dict l))
        (LZW_IDCODES - 1) LZW_MINBITS.

(** The [while (nbits >= 8)] loop of [lzw_writebits]; it runs
    [nbits / 8] times. *)
Fixpoint drain (k : nat) (bb nb : Z) (o : list Z) : Z * list Z :=
  match k with
  | O => (nb, o)
  | S k' =>
    let nb' := nb - 8 in
    drain k' bb nb' (o ++ [Z.land (Z.shiftr bb nb') 255])
  end.

Definition lzw_writebits (lzw : t_lzw) (bits n : Z) : t_lzw :=
  let bb := Z.lor (u32 (Z.shiftl (bitbuf lzw) n))
                  (Z.land bits (Z.shiftl 1 n - 1)) in
  let tot := n + nbits lzw in
  let '(nb, o) := drain (Z.to_nat (tot / 8)) bb tot (out lzw) in
  mkLzw o bb nb (dict lzw) (assigned lzw) (codesize lzw).

Definition lzw_flushbits (lzw : t_lzw) : t_lzw :=
  if nbits lzw =? 0 then lzw else lzw_writebits lzw 0 (8 - nbits lzw).

(** The sibling walk of [lzw_lookup_str].  A chain never holds more
    than [LZW_DSIZE] nodes, which bounds the walk. *)
Fixpoint lookup_walk (fuel : nat) (d : list t_lzwNode) (code c nc : Z) : Z :=
  match fuel with
  | O => TREE_NULL
  | S f =>
    if nc =? TREE_NULL then TREE_NULL
    else
      let n := aget zero_node d nc in
      if (code =? prev n) && (c =? ch n) then nc
      else lookup_walk f d code c (next n)
  end.

Definition lzw_lookup_str (lzw : t_lzw) (code c : Z) : Z :=
  lookup_walk (Z.to_nat LZW_DSIZE) (dict lzw) code (to_char c)
              (first (aget zero_node (dict lzw) code)).

Definition lzw_add_str (lzw : t_lzw) (code c : Z) : Z * t_lzw :=
  let nc := u16 (assigned lzw + 1) in
  if LZW_DSIZE <=? nc then
    (TREE_NULL,
     mkLzw (out lzw) (bitbuf lzw) (nbits lzw) (dict lzw) nc (codesize lzw))
  else
    let cs :=
      if (nc =? Z.shiftl 1 (codesize lzw) - 1)
         && negb (codesize lzw =? LZW_MAXBITS)
      then codesize lzw + 1 else codesize lzw in
    let d := dict lzw in
    let d1 := aset d nc
                (mkNode code TREE_NULL (first (aget zero_node d code)) (to_char c)) in
    let p := aget zero_node d1 code in
    let d2 := aset d1 code (mkNode (prev p) nc (next p) (ch p)) in
    (nc, mkLzw (out lzw) (bitbuf lzw) (nbits lzw) d2 nc cs).

(** The [while (len--)] loop of [lzw_encode]. *)
Fixpoint encode_loop (lzw : t_lzw) (code : Z) (stream : list Z) : t_lzw * Z :=
  match stream with
  | [] => (lzw, code)
  | b :: rest =>
    let c := Z.land 255 b in
    let nc := lzw_lookup_str lzw code c in
    if nc =? TREE_NULL then
      let l1 := lzw_writebits lzw code (codesize lzw) in
      let '(tmp, l2) := lzw_add_str l1 code c in
      let l3 :=
        if tmp =? TREE_NULL
        then lzw_init LZW_REINIT (lzw_writebits l2 LZW_CLRCODE (codesize l2))
        else l2 in
      encode_loop l3 c rest
    else encode_loop lzw nc rest
  end.

Definition lzw_encode (lzw : t_lzw) (stream : list Z) : t_lzw :=
  let l0 := lzw_writebits lzw LZW_CLRCODE (codesize lzw) in
  match stream with
  | [] => lzw_flushbits (lzw_writebits l0 LZW_EODCODE (codesize l0))
  | b :: rest =>
    let '(l1, code) := encode_loop l0 (Z.land 255 b) rest in
    let l2 := lzw_writebits l1 code (codesize l1) in
    let l3 := lzw_writebits l2 LZW_EODCODE (codesize l2) in
    lzw_flushbits l3
  end.

(** [encstm]: the encoded stream and the "do not use it" flag
    ([lzwused >= len]). *)
Definition encstm (stream : list Z) : list Z * bool :=
  let lzw := lzw_encode (lzw_init LZW_BUFFER zero_lzw) stream in
  (out lzw, Z.of_nat (List.length stream) <=? Z.of_nat (List.length (out lzw))).

(** *** The reader's side: the LZWDecode filter

    Modelled from the spec: the decoder of the PDF [/LZWDecode] filter
    with its [/EarlyChange] parameter.  No decoder is part of the
    repository; the encoder's output is read by PDF viewers.  The model
    follows the filter as the PDF reference defines it: codes are read
    most significant bit first, starting at 9 bits; 256 clears the
    table, 257 ends the data; every code after the first that follows
    a clear adds one table entry (from 258 on); the code length becomes
    10, 11 and 12 bits when the number of the next free entry plus
    [EarlyChange] reaches 512, 1024 and 2048. *)

Fixpoint byte_bits (k : nat) (b : Z) : list bool :=
  match k with
  | O => []
  | S k' => Z.testbit b (Z.of_nat k') :: byte_bits k' b
  end.

Definition bits_of_bytes (l : list Z) : list bool := flat_map (byte_bits 8) l.

Fixpoint take_code (n : nat) (acc : Z) (bs : list bool) : option (Z * list bool) :=
  match n with
  | O => Some (acc, bs)
  | S n' =>
    match bs with
    | [] => None
    | b :: r => take_code n' (2 * acc + (if b then 1 else 0)) r
    end
  end.

Definition grow (early nextcode bits : Z) : Z :=
  if nextcode + early =? 512 then 10
  else if nextcode + early =? 1024 then 11
  else if nextcode + early =? 2048 then 12
  else bits.

(** [tbl] holds the strings of the codes 258, 259, ...; [prv] is the
    string of the previous code, if one was read since the last clear. *)
Fixpoint decode_loop (early : Z) (fuel : nat) (bs : list bool)
    (tbl : list (list Z)) (bits : Z) (prv : option (list Z)) (o : list Z)
    : option (list Z) :=
  match fuel with
  | O => None
  | S f =>
    match take_code (Z.to_nat bits) 0 bs with
    | None => None
    | Some (code, rest) =>
      if code =? LZW_EODCODE then Some o
      else if code =? LZW_CLRCODE then decode_loop early f rest [] 9 None o
      else
        let nextcode := 258 + Z.of_nat (List.length tbl) in
        let entry :=
          if code <? 256 then Some [code]
          else if code <? nextcode then nth_error tbl (Z.to_nat (code - 258))
          else if code =? nextcode then
            match prv with
            | Some (p :: q) => Some ((p :: q) ++ [p])
            | _ => None
            end
          else None in
        match entry with
        | None => None
        | Some s =>
          match prv with
          | None => decode_loop early f rest tbl bits (Some s) (o ++ s)
          | Some p =>
            if nextcode <? 4096 then
              decode_loop early f rest (tbl ++ [p ++ [hd 0 s]])
                          (grow early (nextcode + 1) bits) (Some s) (o ++ s)
            else decode_loop early f rest tbl bits (Some s) (o ++ s)
          end
        end
    end
  end.

(** One code is at least 9 bits, so the number of bits bounds the
    number of codes. *)
Definition lzw_decode (early : Z) (data : list Z) : option (list Z) :=
  let bs := bits_of_bytes data in
  decode_loop early (S (List.length bs)) bs [] 9 None [].

End LZW.

(** ** Input parser (escape and control sequences) *)

Inductive esc_state :=
  | ESC_IDLE | ESC_ESCSEQ | ESC_CSI | ESC_CSIP
  | ESC_CSIINT | ESC_BADCSI | ESC_BADESC | ESC_BADSTR.

(** The parser's fields of the context. *)
Record esc := mkEsc {
  escstate : esc_state;
  escints : list Z;      (* char escints[4] *)
  escin : Z;
  escprv : Z;
  escpars : list Z;      (* unsigned short escpars[16] *)
  escpn : Z }.

Definition ESC_PDEFAULT : Z := u16 (-1).
Definition ESC_POVERFLOW : Z := Z.shiftr (ESC_PDEFAULT + 1) 1.
Definition ESC_PMAX : Z := ESC_POVERFLOW - 1.

Definition DIM_escpars : Z := 16.
Definition DIM_escints : Z := 4.

Definition set_escstate (s : esc_state) (e : esc) : esc :=
  mkEsc s (escints e) (escin e) (escprv e) (escpars e) (escpn e).

Inductive action := STORE | DISCARD.

(** What [parsestr] carries from one input byte to the next: the
    parser's fields, [pdf->newlpi], the locals [initial] and [ffseen],
    and the parse buffer. *)
Record parse := mkParse {
  p_esc : esc;
  p_newlpi : Z;
  p_initial : bool;
  p_ffseen : Z;
  p_buf : list Z }.

(** [pdf->escints] is an array member of the context.  In
    [!pdf->escints] it stands for the address of its first element,
    which is never null, so the test is false whatever the array
    holds. *)
Definition escints_is_null (e : esc) : bool := false.

(** [case ESC_CSIINT]. *)
Definition case_CSIINT (e : esc) (newlpi ch : Z) : esc * Z * action :=
  if (32 <=? ch) && (ch <=? 47) then
    if escin e <? DIM_escints then
      (mkEsc (escstate e) (aset (escints e) (escin e) (to_char ch))
             (escin e + 1) (escprv e) (escpars e) (escpn e), newlpi, DISCARD)
    else (set_escstate ESC_BADCSI e, newlpi, DISCARD)
  else if (64 <=? ch) && (ch <=? 126) then
    if (ch =? 122) && escints_is_null e && (escprv e =? 0) then
      let p0 := aget 0 (escpars e) 0 in
      let p0 := if p0 =? ESC_PDEFAULT then 1 else p0 in
      if p0 =? 1 then (e, 6, DISCARD)
      else if p0 =? 2 then (e, 8, DISCARD)
      else (e, newlpi, DISCARD)
    else (e, newlpi, DISCARD)
  else (e, newlpi, STORE).

(** [case ESC_CSIP], falling through to [ESC_CSIINT]. *)
Definition case_CSIP (e : esc) (newlpi ch : Z) : esc * Z * action :=
  if (48 <=? ch) && (ch <=? 63) then
    if ch =? 59 then
      if escpn e + 1 <? DIM_escpars then
        (mkEsc (escstate e) (escints e) (escin e) (escprv e) (escpars e)
               (escpn e + 1), newlpi, DISCARD)
      else (set_escstate ESC_BADCSI e, newlpi, DISCARD)
    else if ch <=? 57 then
      let cur := aget 0 (escpars e) (escpn e) in
      if cur =? ESC_PDEFAULT then
        (mkEsc (escstate e) (escints e) (escin e) (escprv e)
               (aset (escpars e) (escpn e) (ch - 48)) (escpn e),
         newlpi, DISCARD)
      else if negb (Z.land cur ESC_POVERFLOW =? 0) then
        (set_escstate ESC_BADCSI e, newlpi, DISCARD)
      else
        (mkEsc (escstate e) (escints e) (escin e) (escprv e)
               (aset (escpars e) (escpn e) (u16 (cur * 10 + (ch - 48))))
               (escpn e),
         newlpi, DISCARD)
    else (set_escstate ESC_BADCSI e, newlpi, DISCARD)
  else
    let pn := if aget 0 (escpars e) (escpn e) =? ESC_PDEFAULT
              then escpn e else escpn e + 1 in
    case_CSIINT (mkEsc ESC_CSIINT (escints e) (escin e) (escprv e)
                       (escpars e) pn) newlpi ch.

(** [case ESC_CSI], falling through to [ESC_CSIP]. *)
Definition case_CSI (e : esc) (newlpi ch : Z) : esc * Z * action :=
  if (60 <=? ch) && (ch <=? 63) then
    (mkEsc ESC_CSIP (escints e) (escin e) (to_char ch) (escpars e) (escpn e),
     newlpi, DISCARD)
  else case_CSIP (set_escstate ESC_CSIP e) newlpi ch.

(** [case ESC_ESCSEQ]. *)
Definition case_ESCSEQ (e : esc) (newlpi ch : Z) : esc * Z * action :=
  if (32 <=? ch) && (ch <=? 47) then
    if escin e <? DIM_escpars then
      (mkEsc (escstate e) (escints e) (escin e + 1) (escprv e)
             (aset (escpars e) (escin e) ch) (escpn e), newlpi, DISCARD)
    else (set_escstate ESC_BADESC e, newlpi, DISCARD)
  else if (48 <=? ch) && (ch <=? 126) then
    (set_escstate ESC_IDLE e, newlpi, DISCARD)
  else (e, newlpi, STORE).

(** The second [switch], on the state. *)
Definition sequences (e : esc) (newlpi ch : Z) : esc * Z * action :=
  match escstate e with
  | ESC_IDLE =>
    if (ch <? 32) || ((127 <=? ch) && (ch <=? 159))
    then (e, newlpi, DISCARD) else (e, newlpi, STORE)
  | ESC_ESCSEQ => case_ESCSEQ e newlpi ch
  | ESC_CSI => case_CSI e newlpi ch
  | ESC_CSIP => case_CSIP e newlpi ch
  | ESC_CSIINT => case_CSIINT e newlpi ch
  | ESC_BADCSI =>
    if (64 <=? ch) && (ch <=? 126)
    then (set_escstate ESC_IDLE e, newlpi, DISCARD)
    else (e, newlpi, DISCARD)
  | ESC_BADESC =>
    if (48 <=? ch) && (ch <=? 126)
    then (set_escstate ESC_IDLE e, newlpi, DISCARD)
    else (e, newlpi, DISCARD)
  | ESC_BADSTR => (e, newlpi, DISCARD)
  end.

Definition finish (p : parse) (e : esc) (newlpi : Z) (ffseen : Z)
    (a : action) (ch : Z) : parse :=
  match a with
  | DISCARD => mkParse e newlpi (p_initial p) ffseen (p_buf p)
  | STORE => mkParse e newlpi false ffseen (p_buf p ++ [ch])
  end.

(** One turn of the [while (length)] loop of [parsestr]. *)
Definition parse_byte (p : parse) (b : Z) : parse :=
  let ch0 := Z.land 255 b in
  let e0 := p_esc p in
  let ext := match escstate e0 with
             | ESC_ESCSEQ => (64 <=? ch0) && (ch0 <=? 95)
             | _ => false
             end in
  let ch := if ext then ch0 + 64 else ch0 in
  let e := if ext then set_escstate ESC_IDLE e0 else e0 in
  let nlpi := p_newlpi p in
  let ff := p_ffseen p in
  if ch =? 10 then finish p e nlpi ff STORE ch
  else if ch =? 13 then
    if p_initial p && (ff =? 0) then finish p e nlpi ff DISCARD ch
    else finish p e nlpi ff STORE ch
  else if ch =? 12 then
    if p_initial p then
      if ff =? 0 then finish p e nlpi (ff + 1) DISCARD ch
      else finish p e nlpi (ff + 1) STORE ch
    else finish p e nlpi ff STORE ch
  else if (ch =? 24) || (ch =? 26) then
    finish p (set_escstate ESC_IDLE e) nlpi ff DISCARD ch
  else if ch =? 27 then
    finish p (mkEsc ESC_ESCSEQ (escints e) 0 (escprv e) (escpars e) 0)
           nlpi ff DISCARD ch
  else if ch =? 155 then
    finish p (mkEsc ESC_CSI (escints e) 0 (escprv e)
                    (repeat ESC_PDEFAULT (Z.to_nat DIM_escpars)) 0)
           nlpi ff DISCARD ch
  else if ch =? 156 then
    finish p (set_escstate ESC_IDLE e) nlpi ff DISCARD ch
  else if (ch =? 157) || (ch =? 158) || (ch =? 159) then
    finish p (set_escstate ESC_BADSTR e) nlpi ff DISCARD ch
  else
    let '(e', nlpi', a) := sequences e nlpi ch in
    finish p e' nlpi' ff a ch.

Definition parse_bytes (p : parse) (s : list Z) : parse :=
  fold_left parse_byte s p.

(** The parser's fields as [pdf_open] leaves them (cleared). *)
Definition esc0 : esc :=
  mkEsc ESC_IDLE (repeat 0 4) 0 0 (repeat 0 16) 0.

(** ** The session context *)

(** Library status codes.

    Modelled from the spec: [lpt2pdf.h], which declares [PDF_OK], the
    [PDF_E_*] codes and the [pdf_set] keys, is not among the sources;
    the codes are the kinds of the specification's error taxonomy.
    [HOST e] is a host [errno] value surfaced as it is.

    [LBUF_OVERRUN] is no value of the library.  It marks the point
    where [pdf_print] stores a character past the end of its line
    buffer [lbuf]: from there the behaviour of the C program is
    undefined, and the model stops. *)
Inductive code :=
  | PDF_OK
  | PDF_E_BAD_HANDLE | PDF_E_BAD_FILENAME | PDF_E_NOT_PDF | PDF_E_NO_APPEND
  | PDF_E_NOT_PRODUCED | PDF_E_NOT_EMPTY | PDF_E_INVAL | PDF_E_NEGVAL
  | PDF_E_ACTIVE | PDF_E_INCON_GEO | PDF_E_UNKNOWN_FONT | PDF_E_UNKNOWN_FORM
  | PDF_E_BAD_JPEG | PDF_E_BAD_SET | PDF_E_IO_ERROR | PDF_E_OTHER_IO_ERROR
  | PDF_E_BUGCHECK | PDF_E_NOT_OPEN | PDF_E_BAD_ERRNO
  | HOST (e : Z)
  | LBUF_OVERRUN.

Definition is_ok (c : code) : bool :=
  match c with PDF_OK => true | _ => false end.

Inductive file_require := PDF_FILE_NEW | PDF_FILE_APPEND | PDF_FILE_REPLACE.

Definition PDF_PLAIN : Z := 0.
Definition PDF_GREENBAR : Z := 1.
Definition PDF_BLUEBAR : Z := 2.
Definition PDF_GRAYBAR : Z := 3.
Definition PDF_YELLOWBAR : Z := 4.
Definition PDF_JPEG : Z := 99.

(** Points per inch. *)
Definition PT : Z := 72.

(** The first section of the context: what [pdf_set] configures. *)
Record config := mkConfig {
  frequire : file_require;
  cpi : Q;
  lpi : Z;
  newlpi : Z;
  cols : Z;
  wid : Q;
  len : Q;
  font : string;
  nfont : string;
  nbold : string;
  title : string;
  top : Q;
  tof : Z;
  bot : Q;
  margin : Q;
  lno : Q;
  formtype : Z;
  barh : Q }.

Definition with_frequire (v : file_require) (s : config) : config :=
  mkConfig v (cpi s) (lpi s) (newlpi s) (cols s) (wid s) (len s) (font s) (nfont s) (nbold s) (title s) (top s) (tof s) (bot s) (margin s) (lno s) (formtype s) (barh s).
Definition with_cpi (v : Q) (s : config) : config :=
  mkConfig (frequire s) v (lpi s) (newlpi s) (cols s) (wid s) (len s) (font s) (nfont s) (nbold s) (title s) (top s) (tof s) (bot s) (margin s) (lno s) (formtype s) (barh s).
Definition with_lpi (v : Z) (s : config) : config :=
  mkConfig (frequire s) (cpi s) v (newlpi s) (cols s) (wid s) (len s) (font s) (nfont s) (nbold s) (title s) (top s) (tof s) (bot s) (margin s) (lno s) (formtype s) (barh s).
Definition with_newlpi (v : Z) (s : config) : config :=
  mkConfig (frequire s) (cpi s) (lpi s) v (cols s) (wid s) (len s) (font s) (nfont s) (nbold s) (title s) (top s) (tof s) (bot s) (margin s) (lno s) (formtype s) (barh s).
Definition with_cols (v : Z) (s : config) : config :=
  mkConfig (frequire s) (cpi s) (lpi s) (newlpi s) v (wid s) (len s) (font s) (nfont s) (nbold s) (title s) (top s) (tof s) (bot s) (margin s) (lno s) (formtype s) (barh s).
Definition with_wid (v : Q) (s : config) : config :=
  mkConfig (frequire s) (cpi s) (lpi s) (newlpi s) (cols s) v (len s) (font s) (nfont s) (nbold s) (title s) (top s) (tof s) (bot s) (margin s) (lno s) (formtype s) (barh s).
Definition with_len (v : Q) (s : config) : config :=
  mkConfig (frequire s) (cpi s) (lpi s) (newlpi s) (cols s) (wid s) v (font s) (nfont s) (nbold s) (title s) (top s) (tof s) (bot s) (margin s) (lno s) (formtype s) (barh s).
Definition with_font (v : string) (s : config) : config :=
  mkConfig (frequire s) (cpi s) (lpi s) (newlpi s) (cols s) (wid s) (len s) v (nfont s) (nbold s) (title s) (top s) (tof s) (bot s) (margin s) (lno s) (formtype s) (barh s).
Definition with_nfont (v : string) (s : config) : config :=
  mkConfig (frequire s) (cpi s) (lpi s) (newlpi s) (cols s) (wid s) (len s) (font s) v (nbold s) (title s) (top s) (tof s) (bot s) (margin s) (lno s) (formtype s) (barh s).
Definition with_nbold (v : string) (s : config) : config :=
  mkConfig (frequire s) (cpi s) (lpi s) (newlpi s) (cols s) (wid s) (len s) (font s) (nfont s) v (title s) (top s) (tof s) (bot s) (margin s) (lno s) (formtype s) (barh s).
Definition with_title (v : string) (s : config) : config :=
  mkConfig (frequire s) (cpi s) (lpi s) (newlpi s) (cols s) (wid s) (len s) (font s) (nfont s) (nbold s) v (top s) (tof s) (bot s) (margin s) (lno s) (formtype s) (barh s).
Definition with_top (v : Q) (s : config) : config :=
  mkConfig (frequire s) (cpi s) (lpi s) (newlpi s) (cols s) (wid s) (len s) (font s) (nfont s) (nbold s) (title s) v (tof s) (bot s) (margin s) (lno s) (formtype s) (barh s).
Definition with_tof (v : Z) (s : config) : config :=
  mkConfig (frequire s) (cpi s) (lpi s) (newlpi s) (cols s) (wid s) (len s) (font s) (nfont s) (nbold s) (title s) (top s) v (bot s) (margin s) (lno s) (formtype s) (barh s).
Definition with_bot (v : Q) (s : config) : config :=
  mkConfig (frequire s) (cpi s) (lpi s) (newlpi s) (cols s) (wid s) (len s) (font s) (nfont s) (nbold s) (title s) (top s) (tof s) v (margin s) (lno s) (formtype s) (barh s).
Definition with_margin (v : Q) (s : config) : config :=
  mkConfig (frequire s) (cpi s) (lpi s) (newlpi s) (cols s) (wid s) (len s) (font s) (nfont s) (nbold s) (title s) (top s) (tof s) (bot s) v (lno s) (formtype s) (barh s).
Definition with_lno (v : Q) (s : config) : config :=
  mkConfig (frequire s) (cpi s) (lpi s) (newlpi s) (cols s) (wid s) (len s) (font s) (nfont s) (nbold s) (title s) (top s) (tof s) (bot s) (margin s) v (formtype s) (barh s).
Definition with_formtype (v : Z) (s : config) : config :=
  mkConfig (frequire s) (cpi s) (lpi s) (newlpi s) (cols s) (wid s) (len s) (font s) (nfont s) (nbold s) (title s) (top s) (tof s) (bot s) (margin s) (lno s) v (barh s).
Definition with_barh (v : Q) (s : config) : config :=
  mkConfig (frequire s) (cpi s) (lpi s) (newlpi s) (cols s) (wid s) (len s) (font s) (nfont s) (nbold s) (title s) (top s) (tof s) (bot s) (margin s) (lno s) (formtype s) v.

(** [pdf->flags], one boolean per bit. *)
Record flagset := mkFlags {
  ACTIVE : bool;
  UPDATING : bool;
  UNCOMPRESSED : bool;
  INIT : bool;
  WRITTEN : bool;
  RESUMED : bool }.

Definition flag_ACTIVE (v : bool) (s : flagset) : flagset :=
  mkFlags v (UPDATING s) (UNCOMPRESSED s) (INIT s) (WRITTEN s) (RESUMED s).
Definition flag_UPDATING (v : bool) (s : flagset) : flagset :=
  mkFlags (ACTIVE s) v (UNCOMPRESSED s) (INIT s) (WRITTEN s) (RESUMED s).
Definition flag_UNCOMPRESSED (v : bool) (s : flagset) : flagset :=
  mkFlags (ACTIVE s) (UPDATING s) v (INIT s) (WRITTEN s) (RESUMED s).
Definition flag_INIT (v : bool) (s : flagset) : flagset :=
  mkFlags (ACTIVE s) (UPDATING s) (UNCOMPRESSED s) v (WRITTEN s) (RESUMED s).
Definition flag_WRITTEN (v : bool) (s : flagset) : flagset :=
  mkFlags (ACTIVE s) (UPDATING s) (UNCOMPRESSED s) (INIT s) v (RESUMED s).
Definition flag_RESUMED (v : bool) (s : flagset) : flagset :=
  mkFlags (ACTIVE s) (UPDATING s) (UNCOMPRESSED s) (INIT s) (WRITTEN s) v.

(** The output file: its bytes and the position of the stream. *)
Record file := mkFile {
  fdata : list Z;
  fpos : nat }.

(** What [checkupdate] recovers from the file of an earlier session. *)
Record append := mkAppend {
  oid : list Z;          (* original document id, empty if none *)
  ctime : list Z;        (* original creation time *)
  prevpc : Z;
  trail : list Z;
  anchorp : nat;
  aobj : Z;
  xpos : nat;
  iobj : Z }.

(** The context.  [pdf] is the open output file; [sha1] is the message
    fed to the running hash so far; the buffers hold their used part. *)
Record PDF := mkPDF {
  cfg : config;
  errnum : code;
  formfile : option string;
  pdf : file;
  prs : esc;
  formbuf : list Z;
  formobj : Z;
  ap : append;
  anchorpp : nat;
  checkpp : nat;
  obj : Z;
  xref : list nat;
  flags : flagset;
  lpp : Z;
  lines : list (option (list Z));
  page : Z;
  line : Z;
  sha1 : list Z;
  pbase : Z;
  parsebuf : list Z;
  pagebuf : list Z;
  lzwbuf : list Z }.

Definition set_cfg (v : config) (s : PDF) : PDF :=
  mkPDF v (errnum s) (formfile s) (pdf s) (prs s) (formbuf s) (formobj s) (ap s) (anchorpp s) (checkpp s) (obj s) (xref s) (flags s) (lpp s) (lines s) (page s) (line s) (sha1 s) (pbase s) (parsebuf s) (pagebuf s) (lzwbuf s).
Definition set_errnum (v : code) (s : PDF) : PDF :=
  mkPDF (cfg s) v (formfile s) (pdf s) (prs s) (formbuf s) (formobj s) (ap s) (anchorpp s) (checkpp s) (obj s) (xref s) (flags s) (lpp s) (lines s) (page s) (line s) (sha1 s) (pbase s) (parsebuf s) (pagebuf s) (lzwbuf s).
Definition set_formfile (v : option string) (s : PDF) : PDF :=
  mkPDF (cfg s) (errnum s) v (pdf s) (prs s) (formbuf s) (formobj s) (ap s) (anchorpp s) (checkpp s) (obj s) (xref s) (flags s) (lpp s) (lines s) (page s) (line s) (sha1 s) (pbase s) (parsebuf s) (pagebuf s) (lzwbuf s).
Definition set_pdf (v : file) (s : PDF) : PDF :=
  mkPDF (cfg s) (errnum s) (formfile s) v (prs s) (formbuf s) (formobj s) (ap s) (anchorpp s) (checkpp s) (obj s) (xref s) (flags s) (lpp s) (lines s) (page s) (line s) (sha1 s) (pbase s) (parsebuf s) (pagebuf s) (lzwbuf s).
Definition set_prs (v : esc) (s : PDF) : PDF :=
  mkPDF (cfg s) (errnum s) (formfile s) (pdf s) v (formbuf s) (formobj s) (ap s) (anchorpp s) (checkpp s) (obj s) (xref s) (flags s) (lpp s) (lines s) (page s) (line s) (sha1 s) (pbase s) (parsebuf s) (pagebuf s) (lzwbuf s).
Definition set_formbuf (v : list Z) (s : PDF) : PDF :=
  mkPDF (cfg s) (errnum s) (formfile s) (pdf s) (prs s) v (formobj s) (ap s) (anchorpp s) (checkpp s) (obj s) (xref s) (flags s) (lpp s) (lines s) (page s) (line s) (sha1 s) (pbase s) (parsebuf s) (pagebuf s) (lzwbuf s).
Definition set_formobj (v : Z) (s : PDF) : PDF :=
  mkPDF (cfg s) (errnum s) (formfile s) (pdf s) (prs s) (formbuf s) v (ap s) (anchorpp s) (checkpp s) (obj s) (xref s) (flags s) (lpp s) (lines s) (page s) (line s) (sha1 s) (pbase s) (parsebuf s) (pagebuf s) (lzwbuf s).
Definition set_ap (v : append) (s : PDF) : PDF :=
  mkPDF (cfg s) (errnum s) (formfile s) (pdf s) (prs s) (formbuf s) (formobj s) v (anchorpp s) (checkpp s) (obj s) (xref s) (flags s) (lpp s) (lines s) (page s) (line s) (sha1 s) (pbase s) (parsebuf s) (pagebuf s) (lzwbuf s).
Definition set_anchorpp (v : nat) (s : PDF) : PDF :=
  mkPDF (cfg s) (errnum s) (formfile s) (pdf s) (prs s) (formbuf s) (formobj s) (ap s) v (checkpp s) (obj s) (xref s) (flags s) (lpp s) (lines s) (page s) (line s) (sha1 s) (pbase s) (parsebuf s) (pagebuf s) (lzwbuf s).
Definition set_checkpp (v : nat) (s : PDF) : PDF :=
  mkPDF (cfg s) (errnum s) (formfile s) (pdf s) (prs s) (formbuf s) (formobj s) (ap s) (anchorpp s) v (obj s) (xref s) (flags s) (lpp s) (lines s) (page s) (line s) (sha1 s) (pbase s) (parsebuf s) (pagebuf s) (lzwbuf s).
Definition set_obj (v : Z) (s : PDF) : PDF :=
  mkPDF (cfg s) (errnum s) (formfile s) (pdf s) (prs s) (formbuf s) (formobj s) (ap s) (anchorpp s) (checkpp s) v (xref s) (flags s) (lpp s) (lines s) (page s) (line s) (sha1 s) (pbase s) (parsebuf s) (pagebuf s) (lzwbuf s).
Definition set_xref (v : list nat) (s : PDF) : PDF :=
  mkPDF (cfg s) (errnum s) (formfile s) (pdf s) (prs s) (formbuf s) (formobj s) (ap s) (anchorpp s) (checkpp s) (obj s) v (flags s) (lpp s) (lines s) (page s) (line s) (sha1 s) (pbase s) (parsebuf s) (pagebuf s) (lzwbuf s).
Definition set_flags (v : flagset) (s : PDF) : PDF :=
  mkPDF (cfg s) (errnum s) (formfile s) (pdf s) (prs s) (formbuf s) (formobj s) (ap s) (anchorpp s) (checkpp s) (obj s) (xref s) v (lpp s) (lines s) (page s) (line s) (sha1 s) (pbase s) (parsebuf s) (pagebuf s) (lzwbuf s).
Definition set_lpp (v : Z) (s : PDF) : PDF :=
  mkPDF (cfg s) (errnum s) (formfile s) (pdf s) (prs s) (formbuf s) (formobj s) (ap s) (anchorpp s) (checkpp s) (obj s) (xref s) (flags s) v (lines s) (page s) (line s) (sha1 s) (pbase s) (parsebuf s) (pagebuf s) (lzwbuf s).
Definition set_lines (v : list (option (list Z))) (s : PDF) : PDF :=
  mkPDF (cfg s) (errnum s) (formfile s) (pdf s) (prs s) (formbuf s) (formobj s) (ap s) (anchorpp s) (checkpp s) (obj s) (xref s) (flags s) (lpp s) v (page s) (line s) (sha1 s) (pbase s) (parsebuf s) (pagebuf s) (lzwbuf s).
Definition set_page (v : Z) (s : PDF) : PDF :=
  mkPDF (cfg s) (errnum s) (formfile s) (pdf s) (prs s) (formbuf s) (formobj s) (ap s) (anchorpp s) (checkpp s) (obj s) (xref s) (flags s) (lpp s) (lines s) v (line s) (sha1 s) (pbase s) (parsebuf s) (pagebuf s) (lzwbuf s).
Definition set_line (v : Z) (s : PDF) : PDF :=
  mkPDF (cfg s) (errnum s) (formfile s) (pdf s) (prs s) (formbuf s) (formobj s) (ap s) (anchorpp s) (checkpp s) (obj s) (xref s) (flags s) (lpp s) (lines s) (page s) v (sha1 s) (pbase s) (parsebuf s) (pagebuf s) (lzwbuf s).
Definition set_sha1 (v : list Z) (s : PDF) : PDF :=
  mkPDF (cfg s) (errnum s) (formfile s) (pdf s) (prs s) (formbuf s) (formobj s) (ap s) (anchorpp s) (checkpp s) (obj s) (xref s) (flags s) (lpp s) (lines s) (page s) (line s) v (pbase s) (parsebuf s) (pagebuf s) (lzwbuf s).
Definition set_pbase (v : Z) (s : PDF) : PDF :=
  mkPDF (cfg s) (errnum s) (formfile s) (pdf s) (prs s) (formbuf s) (formobj s) (ap s) (anchorpp s) (checkpp s) (obj s) (xref s) (flags s) (lpp s) (lines s) (page s) (line s) (sha1 s) v (parsebuf s) (pagebuf s) (lzwbuf s).
Definition set_parsebuf (v : list Z) (s : PDF) : PDF :=
  mkPDF (cfg s) (errnum s) (formfile s) (pdf s) (prs s) (formbuf s) (formobj s) (ap s) (anchorpp s) (checkpp s) (obj s) (xref s) (flags s) (lpp s) (lines s) (page s) (line s) (sha1 s) (pbase s) v (pagebuf s) (lzwbuf s).
Definition set_pagebuf (v : list Z) (s : PDF) : PDF :=
  mkPDF (cfg s) (errnum s) (formfile s) (pdf s) (prs s) (formbuf s) (formobj s) (ap s) (anchorpp s) (checkpp s) (obj s) (xref s) (flags s) (lpp s) (lines s) (page s) (line s) (sha1 s) (pbase s) (parsebuf s) v (lzwbuf s).
Definition set_lzwbuf (v : list Z) (s : PDF) : PDF :=
  mkPDF (cfg s) (errnum s) (formfile s) (pdf s) (prs s) (formbuf s) (formobj s) (ap s) (anchorpp s) (checkpp s) (obj s) (xref s) (flags s) (lpp s) (lines s) (page s) (line s) (sha1 s) (pbase s) (parsebuf s) (pagebuf s) v.

(** Control leaves a library function either by returning or through
    [ABORT (err)], a [longjmp] to the [setjmp] of the API function that
    was entered; the context keeps what was stored before the jump. *)
Inductive result :=
  | Ok (st : PDF)
  | Abort (err : code) (st : PDF).

Definition bind (r : result) (k : PDF -> result) : result :=
  match r with
  | Ok st => k st
  | Abort e st => Abort e st
  end.

Notation "'do' x <- r ; k" := (bind r (fun x => k))
  (at level 10, x name, r at level 100, k at level 200).

(** A [PDF_HANDLE] is either rejected by [valarg] (null, or not a live
    context with key [PDF] and an open file) or a context. *)
Definition PDF_HANDLE := option PDF.

(** What the engine takes from its surroundings. *)
Inductive scan_ret := SCAN_OK | SCAN_ABORT (err : code).

Record scan := mkScan {
  sc_ret : scan_ret;
  sc_ap : append;
  sc_xref : list nat;
  sc_obj : Z;
  sc_pbase : Z;
  sc_hashed : list Z;
  sc_pos : nat }.

Record Env := mkEnv {
  (** [open] of the output path: the bytes of the file (none for a new
      file), or the host's error. *)
  os_open : string -> Z + list Z;
  (** [fopen (name, "rb")] as [pdf_set] tries it: zero or [errno]. *)
  fopen_rb : string -> Z;
  (** The reading half of [checkupdate]: what the scan of an existing,
      non-empty file yields (xref, trailer, anchor, ...), how it ends,
      and where it leaves the stream. *)
  checkupdate_scan : list Z -> scan;
  (** The digest of a message ([SHA1Result] of the running context). *)
  SHA1 : list Z -> list Z;
  (** The graphics [setform] draws after the hole colours: holes,
      bars and line numbers, a function of the configuration. *)
  form_body : config -> list Z;
  (** [imageform] run before initialisation (loading the JPEG). *)
  imageform_load : PDF -> result }.

(** *** File access *)

(** The first [n] bytes of a file, holes reading as zero. *)
Definition fprefix (d : list Z) (n : nat) : list Z :=
  firstn n d ++ repeat 0 (n - List.length d).

Definition fwrite (f : file) (d : list Z) : file :=
  mkFile (fprefix (fdata f) (fpos f) ++ d
            ++ skipn (fpos f + List.length d) (fdata f))
         (fpos f + List.length d).

Definition fseek_set (f : file) (p : nat) : file := mkFile (fdata f) p.

Definition ftruncate (f : file) (n : nat) : file :=
  mkFile (fprefix (fdata f) n) (fpos f).

Definition ftell (st : PDF) : nat := fpos (pdf st).
Definition fputs (d : list Z) (st : PDF) : PDF := set_pdf (fwrite (pdf st) d) st.
Definition fseek (p : nat) (st : PDF) : PDF := set_pdf (fseek_set (pdf st) p) st.

(** *** Strings *)

(** A C string ends at its first NUL. *)
Fixpoint c_str (l : list Z) : list Z :=
  match l with
  | [] => []
  | c :: r => if c =? 0 then [] else c :: c_str r
  end.

Fixpoint prefix_of (p s : list Z) : bool :=
  match p, s with
  | [], _ => true
  | a :: p', b :: s' => (a =? b) && prefix_of p' s'
  | _ :: _, [] => false
  end.

(** [strstr]: the offset of the first occurrence. *)
Fixpoint strstr (s name : list Z) : option nat :=
  if prefix_of name s then Some O
  else match s with
       | [] => None
       | _ :: r => option_map S (strstr r name)
       end.

(** [strrchr]: the text after the last occurrence of [c]. *)
Fixpoint strrchr_tail (s : list Z) (c : Z) : option (list Z) :=
  match s with
  | [] => None
  | x :: r =>
    match strrchr_tail r c with
    | Some t => Some t
    | None => if x =? c then Some r else None
    end
  end.

Fixpoint digits (s : list Z) (acc : Z) (n : nat) : Z * nat :=
  match s with
  | c :: r => if isdigit c then digits r (acc * 10 + (c - 48)) (S n) else (acc, n)
  | [] => (acc, n)
  end.

Fixpoint skip_space (s : list Z) (n : nat) : list Z * nat :=
  match s with
  | c :: r => if isspace c then skip_space r (S n) else (s, n)
  | [] => (s, n)
  end.

Definition ULONG_MAX : Z := 2 ^ 64 - 1.

(** [strtoul (s, &q, 10)]: the value and the offset of [q] in [s]. *)
Definition strtoul (s : list Z) : Z * nat :=
  let '(s1, n1) := skip_space s O in
  let '(neg, s2, n2) :=
    match s1 with
    | 43 :: r => (false, r, S n1)
    | 45 :: r => (true, r, S n1)
    | _ => (false, s1, n1)
    end in
  let '(v, k) := digits s2 0 O in
  match k with
  | O => (0, O)
  | _ =>
    let v' := if ULONG_MAX <? v then ULONG_MAX
              else if neg then (- v) mod 2 ^ 64 else v in
    (v', (n2 + k)%nat)
  end.

(** [xstrcasecmp (s1, s2) == 0]. *)
Fixpoint xstrcasecmp_eq (s1 s2 : list Z) : bool :=
  match s1, s2 with
  | [], [] => true
  | a :: r1, b :: r2 =>
    if negb (a =? b) && negb (tolower a =? tolower b) then false
    else xstrcasecmp_eq r1 r2
  | _, _ => false
  end.

(** *** Opening *)

Definition validFonts : list string :=
  [ "Courier"; "Courier-Bold"; "Courier-Oblique"; "Courier-BoldOblique";
    "Times-Roman"; "Times-Bold"; "Times-Italic"; "Times-BoldItalic";
    "Helvetica"; "Helvetica-Bold"; "HelveticaOblique"; "Helvetica-BoldOblique";
    "Symbol"; "ZapfDingbats" ]%string.

Definition defaults : config :=
  mkConfig PDF_FILE_NEW (10 # 1) 6 6 132 (14875 # 1000) (11 # 1)
           "Courier" "Times-Roman" "Times-Bold" "Lineprinter data"
           (1 # 1) (u32 (-2)) (1 # 2) (47 # 100) (1 # 10) PDF_GREENBAR (1 # 2).

Definition no_flags : flagset := mkFlags false false false false false false.

Definition no_append : append := mkAppend [] [] 0 [] O 0 O 0.

(** The context [pdf_open] builds around the opened file: the defaults,
    everything else cleared. *)
Definition new_context (c : config) (f : file) : PDF :=
  mkPDF c PDF_OK None f esc0 [] 0 no_append O O 0 [] no_flags 0 [] 0 0 [] 0
        [] [] [].

(** The extension loop of [pdf_open]: [fn] runs over the text after
    the last dot, [ext] over ["pdf"] and its terminating NUL. *)
Fixpoint ext_loop (islc : bool) (fn ext : list Z) : bool :=
  match fn with
  | [] => match ext with [] => true | _ => false end
  | c :: fn' =>
    let e := hd 0 ext in
    if (if islc then negb (c =? e) else negb (c =? toupper e)) then false
    else ext_loop islc fn' (tl ext)
  end.

Definition filename_ok (name : list Z) : bool :=
  match strrchr_tail name 46 with
  | None => true
  | Some fn => ext_loop (islower (hd 0 fn)) fn (str "pdf")
  end.

Section Engine.

Variable env : Env.

(** [pdf_open]: the context, or null with [errno]. *)
Definition pdf_open (filename : option string) : code + PDF :=
  match filename with
  | None => inl PDF_E_BAD_FILENAME
  | Some name =>
    if negb (filename_ok (c_str (str name))) then inl PDF_E_BAD_FILENAME
    else
      match os_open env name with
      | inl e => inl (HOST e)
      | inr bytes => inr (new_context defaults (mkFile bytes O))
      end
  end.

(** *** Setting parameters *)

Inductive setkey :=
  | PDF_FILE_REQUIRE | PDF_FORM_TYPE | PDF_TEXT_FONT | PDF_LNO_FONT
  | PDF_LABEL_FONT | PDF_FORM_IMAGE | PDF_TITLE | PDF_NO_LZW
  | PDF_TOP_MARGIN | PDF_TOF_OFFSET | PDF_BOTTOM_MARGIN | PDF_SIDE_MARGIN
  | PDF_LNO_WIDTH | PDF_BAR_HEIGHT | PDF_CPI | PDF_LPI | PDF_PAGE_WIDTH
  | PDF_PAGE_LENGTH | PDF_COLS
  | PDF_OTHER_KEY (n : Z).

Definition checkfont (newfont : option string) : code :=
  match newfont with
  | None => PDF_E_INVAL
  | Some f =>
    if existsb (String.eqb f) validFonts then PDF_OK else PDF_E_UNKNOWN_FONT
  end.

(** The string member a setter stores through ([char **font]). *)
Inductive strmember := M_font | M_nfont | M_nbold | M_title | M_formfile.

Definition store_member (m : strmember) (v : string) (st : PDF) : PDF :=
  match m with
  | M_font => set_cfg (with_font v (cfg st)) st
  | M_nfont => set_cfg (with_nfont v (cfg st)) st
  | M_nbold => set_cfg (with_nbold v (cfg st)) st
  | M_title => set_cfg (with_title v (cfg st)) st
  | M_formfile => set_formfile (Some v) st
  end.

Definition form_names : list string :=
  [ "PLAIN"; "GREENBAR"; "BLUEBAR"; "GRAYBAR"; "YELLOWBAR" ]%string.

Fixpoint find_form (names : list string) (i : Z) (v : list Z) : option Z :=
  match names with
  | [] => None
  | n :: r => if xstrcasecmp_eq v (str n) then Some i else find_form r (i + 1) v
  end.

(** The escaping loop of the [PDF_TITLE] case; at most 2046 characters
    of the value are taken. *)
Fixpoint escape_title (n : nat) (s : list Z) : list Z :=
  match n, s with
  | S n', c :: r =>
    (if (c =? 92) || (c =? 40) || (c =? 41) then [92; c] else [c])
      ++ escape_title n' r
  | _, _ => []
  end.

Definition Qlt_bool (a b : Q) : bool := negb (Qle_bool b a).

(** The numeric keys, after the [dvalue < 0] test. *)
Definition pdfset_number (st : PDF) (arg : setkey) (dvalue : Q) : code * PDF :=
  let ivalue := u32 (trunc dvalue) in
  let c := cfg st in
  match arg with
  | PDF_NO_LZW =>
    (PDF_OK, set_flags (flag_UNCOMPRESSED (negb (Qeq_bool dvalue 0)) (flags st)) st)
  | PDF_TOP_MARGIN => (PDF_OK, set_cfg (with_top dvalue c) st)
  | PDF_TOF_OFFSET => (PDF_OK, set_cfg (with_tof ivalue c) st)
  | PDF_BOTTOM_MARGIN => (PDF_OK, set_cfg (with_bot dvalue c) st)
  | PDF_SIDE_MARGIN =>
    if Qlt_bool dvalue (350 # 1000) then (PDF_E_INVAL, st)
    else (PDF_OK, set_cfg (with_margin dvalue c) st)
  | PDF_LNO_WIDTH =>
    if negb (Qeq_bool dvalue 0) && Qlt_bool dvalue (1 # 10) then (PDF_E_INVAL, st)
    else (PDF_OK, set_cfg (with_lno dvalue c) st)
  | PDF_BAR_HEIGHT =>
    if Qlt_bool dvalue 0 then (PDF_E_INVAL, st)
    else (PDF_OK, set_cfg (with_barh dvalue c) st)
  | PDF_CPI =>
    if Qlt_bool dvalue 1 || Qlt_bool (20 # 1) dvalue then (PDF_E_INVAL, st)
    else (PDF_OK, set_cfg (with_cpi dvalue c) st)
  | PDF_LPI =>
    if negb (Qeq_bool dvalue 6) && negb (Qeq_bool dvalue 8) then (PDF_E_INVAL, st)
    else (PDF_OK, set_cfg (with_lpi ivalue c) st)
  | PDF_PAGE_WIDTH =>
    if Qlt_bool dvalue 3 then (PDF_E_INVAL, st)
    else (PDF_OK, set_cfg (with_wid dvalue c) st)
  | PDF_PAGE_LENGTH =>
    if Qlt_bool dvalue 2 then (PDF_E_INVAL, st)
    else (PDF_OK, set_cfg (with_len dvalue c) st)
  | PDF_COLS => (PDF_OK, set_cfg (with_cols ivalue c) st)
  | _ => (PDF_E_BAD_SET, st)
  end.

(** The tail of [pdfset] for the keys that store a string. *)
Definition pdfset_store (st : PDF) (m : strmember) (r : code) (v : string)
    : code * PDF :=
  if negb (is_ok r) then (r, set_errnum r st)
  else (PDF_OK, store_member m v st).

(** [pdfset].  The variadic argument is [svalue] for the keys that read
    a string ([None] is a null pointer) and [dvalue] for the others. *)
Definition pdfset (st : PDF) (arg : setkey) (svalue : option string)
    (dvalue : Q) : code * PDF :=
  if ACTIVE (flags st) then (PDF_E_ACTIVE, st)
  else
    match arg with
    | PDF_FILE_REQUIRE =>
      match svalue with
      | None => (PDF_E_INVAL, set_errnum PDF_E_INVAL st)
      | Some v =>
        let s := c_str (str v) in
        if xstrcasecmp_eq s (str "NEW")
        then (PDF_OK, set_cfg (with_frequire PDF_FILE_NEW (cfg st)) st)
        else if xstrcasecmp_eq s (str "APPEND")
        then (PDF_OK, set_cfg (with_frequire PDF_FILE_APPEND (cfg st)) st)
        else if xstrcasecmp_eq s (str "REPLACE")
        then (PDF_OK, set_cfg (with_frequire PDF_FILE_REPLACE (cfg st)) st)
        else (PDF_E_BAD_SET, st)
      end
    | PDF_FORM_TYPE =>
      match svalue with
      | None => (PDF_E_INVAL, set_errnum PDF_E_INVAL st)
      | Some v =>
        match find_form form_names 0 (c_str (str v)) with
        | Some i => (PDF_OK, set_cfg (with_formtype i (cfg st)) st)
        | None => (PDF_E_UNKNOWN_FORM, st)
        end
      end
    | PDF_TEXT_FONT =>
      pdfset_store st M_font (checkfont svalue)
                   (match svalue with Some v => v | None => EmptyString end)
    | PDF_LNO_FONT =>
      pdfset_store st M_font (checkfont svalue)
                   (match svalue with Some v => v | None => EmptyString end)
    | PDF_LABEL_FONT =>
      pdfset_store st M_font (checkfont svalue)
                   (match svalue with Some v => v | None => EmptyString end)
    | PDF_FORM_IMAGE =>
      match svalue with
      | None => (PDF_E_INVAL, set_errnum PDF_E_INVAL st)
      | Some v =>
        let e := fopen_rb env v in
        if negb (e =? 0) then (HOST e, st)
        else pdfset_store (set_cfg (with_formtype PDF_JPEG (cfg st)) st)
                          M_formfile PDF_OK v
      end
    | PDF_TITLE =>
      match svalue with
      | None => (PDF_E_INVAL, set_errnum PDF_E_INVAL st)
      | Some v =>
        pdfset_store st M_title PDF_OK
                     (text (escape_title 2046 (c_str (str v))))
      end
    | _ =>
      if Qlt_bool dvalue 0 then (PDF_E_NEGVAL, st)
      else pdfset_number st arg dvalue
    end.

Definition pdf_set (h : PDF_HANDLE) (arg : setkey) (svalue : option string)
    (dvalue : Q) : code * PDF_HANDLE :=
  match h with
  | None => (PDF_E_BAD_HANDLE, None)
  | Some st =>
    let '(r, st') := pdfset st arg svalue dvalue in
    (r, Some (if is_ok r then st' else set_errnum r st'))
  end.

(** *** First write: validation and initialisation *)

Definition Qz (z : Z) : Q := inject_Z z.

(** The printable width, [wid - 2 * (margin + lno)]. *)
Definition printable_width (c : config) : Q :=
  (wid c - 2 * (margin c + lno c))%Q.

(** The head of the first-write branch of [pdf_print]: lines per page,
    the default top of form, and the checks on the geometry. *)
Definition geometry (st : PDF) : result :=
  let c := cfg st in
  let st1 := set_lpp (u32 (trunc (len c * Qz (lpi c)))) st in
  let tof1 := if tof c =? u32 (-2)
              then u32 (trunc (top c * Qz (lpi c))) else tof c in
  let st2 := set_cfg (with_tof tof1 c) st1 in
  if trunc (len c) <? 2 then Abort PDF_E_INCON_GEO st2
  else if trunc (printable_width c) <? 3 then Abort PDF_E_INCON_GEO st2
  else if trunc (printable_width c) <? trunc (Qz (cols c) / cpi c)
  then Abort PDF_E_INCON_GEO st2
  else if Qlt_bool (len c * Qz (lpi c)) 4 then Abort PDF_E_INCON_GEO st2
  else if Qlt_bool (len c * Qz (lpi c)) (Qz tof1) then Abort PDF_E_INCON_GEO st2
  else if negb (formtype c =? PDF_JPEG) && Qlt_bool (barh c) (1 / Qz (lpi c))
  then Abort PDF_E_INCON_GEO st2
  else Ok st2.

(** [checkupdate]: the scan's findings stored in the context.  Its
    return value is [PDF_OK] (updating) or -1 (empty file, write as
    new); errors leave through [ABORT]. *)
Definition store_scan (sc : scan) (st : PDF) : PDF :=
  set_pdf (fseek_set (pdf st) (sc_pos sc))
    (set_sha1 (sha1 st ++ sc_hashed sc)
      (set_pbase (sc_pbase sc)
        (set_obj (sc_obj sc)
          (set_xref (sc_xref sc)
            (set_ap (sc_ap sc) st))))).

Definition checkupdate (st : PDF) : result * bool :=
  let st0 := fseek (List.length (fdata (pdf st))) st in
  if (ftell st0 =? 0)%nat then (Ok st0, false)
  else
    let sc := checkupdate_scan env (fdata (pdf st0)) in
    let st1 := store_scan sc st0 in
    match sc_ret sc with
    | SCAN_ABORT e => (Abort e st1, false)
    | SCAN_OK =>
      (Ok (set_obj (u32 (sc_pbase sc - 1))
             (set_flags (flag_UPDATING true (flags st1)) st1)), true)
    end.

(** [pdfinit].  [errno] is zero when [ABORT (errno)] is reached, and a
    [longjmp] with zero makes [setjmp] return one. *)
Definition pdfinit (st : PDF) : result :=
  let st0 := set_sha1 [] st in
  if negb (ftell st0 =? 0)%nat then Abort (HOST 1) st0
  else
    let new_file (s : PDF) := Ok (set_pbase 1 s) in
    match frequire (cfg st0) with
    | PDF_FILE_APPEND =>
      match checkupdate st0 with
      | (Abort e s, _) => Abort e s
      | (Ok s, true) => Ok s
      | (Ok s, false) => new_file s
      end
    | fr =>
      let st1 := fseek (List.length (fdata (pdf st0))) st0 in
      if negb (ftell st1 =? 0)%nat then
        match fr with
        | PDF_FILE_NEW => Abort PDF_E_NOT_EMPTY st1
        | _ => new_file (set_pdf (ftruncate (fseek_set (pdf st1) 0) 0) st1)
        end
      else new_file st1
    end.

(** [getint (pdf, buf, name, &q)]: the value and the offset of [q], or
    nothing where the C code aborts with [NO_APPEND]. *)
Definition getint (buf name : list Z) : option (Z * nat) :=
  match strstr buf name with
  | None => None
  | Some i =>
    let p := (i + List.length name)%nat in
    let '(n, k) := strtoul (skipn p buf) in
    let q := (p + k)%nat in
    let cq := nth q buf 0 in
    if (q =? 0)%nat || (negb (cq =? 10) && negb (cq =? 32) && negb (cq =? 93))
    then None
    else Some (u32 n, q)
  end.

(** The header [wrhdr] writes: the version line and a comment line.
    In the literal of the source, ["%\0302\0245\0302\0261\0303\0253\n"],
    an octal escape ends after three digits, so each of the six escapes
    is one control byte followed by a digit character. *)
Definition pdf_header : list Z :=
  str "%PDF-1.4" ++ nl
    ++ [37; 24; 50; 20; 53; 24; 50; 22; 49; 24; 51; 21; 51] ++ nl.

(** [wrhdr]. *)
Definition wrhdr (st : PDF) : result :=
  if negb (UPDATING (flags st)) then
    let st1 := if (checkpp st =? 0)%nat then fputs pdf_header st else st in
    Ok (set_flags (flag_WRITTEN true (flags st1)) st1)
  else
    let tr := trail (ap st) in
    match getint tr (str "/Count") with
    | None => Abort PDF_E_NO_APPEND st
    | Some (n, q) =>
      if negb (prevpc (ap st) =? n) then Abort PDF_E_INCON_GEO st
      else
        let st1 := set_flags (flag_WRITTEN true (flags st)) st in
        let st2 := fseek (anchorp (ap st1)) st1 in
        let st3 := fputs (fmt_u (aobj (ap st2)) ++ str " 0 obj" ++ nl
                            ++ firstn q tr ++ str " /Parent ") st2 in
        let st4 := set_anchorpp (ftell st3) st3 in
        let st5 := fputs (repeat 32 10 ++ str " 0 R " ++ skipn q tr ++ nl
                            ++ str "endobj" ++ nl ++ nl) st4 in
        Ok (if negb (checkpp st5 =? 0)%nat then fseek (checkpp st5) st5 else st5)
    end.

Definition RGB_BLACK : list Z := str "0 0 0".
Definition RGB_HOLE_LINE : list Z := str "0.85 0.85 0.85".
Definition RGB_HOLE_FILL : list Z := str "0.90 0.90 0.90".

(** [imageform]: once the context is initialised the image can no
    longer be changed. *)
Definition imageform (st : PDF) : result :=
  if INIT (flags st) then Ok st else imageform_load env st.

(** [setform].  The form data opens with the colours of the tractor
    holes; [form_body] stands for the drawing that follows. *)
Definition setform (st : PDF) : result :=
  let st1 := set_formbuf (formbuf st ++ str " q 1 w " ++ RGB_HOLE_FILL
                            ++ str " rg " ++ RGB_HOLE_LINE ++ str " RG") st in
  do st2 <- (if formtype (cfg st1) =? PDF_JPEG then imageform st1 else Ok st1);
  Ok (set_formbuf (formbuf st2 ++ form_body env (cfg st2)) st2).

(** *** Objects, lines and pages *)

(** [xref[i] = pos], the table growing as needed. *)
Definition xref_set (x : list nat) (i : nat) (pos : nat) : list nat :=
  firstn i x ++ repeat O (i - List.length x) ++ pos :: skipn (S i) x.

(** [addobj]: the new object's number is the new [pdf->obj]. *)
Definition addobj (st : PDF) : PDF :=
  set_obj (u32 (obj st + 1))
          (set_xref (xref_set (xref st) (Z.to_nat (obj st)) (ftell st)) st).

(** [add2line]. *)
Definition add2line (st : PDF) (txt : list Z) : result :=
  if line st <=? 0 then Abort PDF_E_BUGCHECK st
  else
    let n := Z.to_nat (line st) in
    let ls := lines st ++ repeat None (n - List.length (lines st)) in
    let old := match nth (n - 1) ls None with Some d => d | None => [] end in
    Ok (set_lines (upd_nth ls (n - 1) (Some (old ++ txt))) st).

(** Whether data follows a carriage return on its line: a character
    that is neither a carriage return nor a space. *)
Definition data_follows (rest : list Z) : bool :=
  existsb (fun c => negb ((c =? 13) || (c =? 32))) rest.

(** The column loop of [wrpage] over one stored line, after the
    opening [" T* ("]. *)
Fixpoint render_cols (d : list Z) : list Z :=
  match d with
  | [] => []
  | c :: rest =>
    (if (c =? 92) || (c =? 40) || (c =? 41) then [92; u8 c]
     else if c =? 13 then
       (if data_follows rest then str ")Tj 0 0 Td (" else [])
     else [u8 c])
    ++ render_cols rest
  end.

Definition render_line (l : option (list Z)) : list Z :=
  match l with
  | Some (c :: rest) => str " T* (" ++ render_cols (c :: rest) ++ str ")Tj"
  | _ => str " T*"
  end.

Definition clear_line (l : option (list Z)) : option (list Z) :=
  match l with
  | Some _ => Some []
  | None => None
  end.

(** The left edge of the text, in points. *)
Definition text_origin (c : config) : Q :=
  (margin c * Qz PT
   + ((wid c - margin c * 2) - Qz (cols c) / cpi c) / 2 * Qz PT)%Q.

Definition text_header (c : config) : list Z :=
  str " q 0 Tr " ++ RGB_BLACK ++ str " rg BT /F1 " ++ fmt_u (PT / lpi c)
    ++ str " Tf 1 0 0 1 " ++ fmt_f (text_origin c) ++ str " " ++ fmt_f 0
    ++ str " Tm  " ++ fmt_u (PT / lpi c) ++ str " TL " ++ fmt_u 0
    ++ str " Tc " ++ fmt_u 100 ++ str " Tz " ++ fmt_u 0 ++ str " "
    ++ fmt_u (u32 (trunc (len c * Qz PT + 2))) ++ str " Td".

(** The loop of [wrpage] that moves the lines written past the page
    to the top of the next one: [n] turns from line index [l]. *)
Fixpoint tof_swap (n : nat) (l : Z) (st : PDF) : PDF :=
  match n with
  | O => st
  | S n' =>
    let el := u32 (lpp st + l) in
    if Z.of_nat (List.length (lines st)) <=? el then st
    else
      match aget None (lines st) el with
      | None => tof_swap n' (l + 1) st
      | Some d =>
        let t := aget None (lines st) l in
        let ls := aset (aset (lines st) l (Some d)) el t in
        let st1 := set_lines ls st in
        let st2 := match d with
                   | [] => st1
                   | _ => set_line (u32 (tof (cfg st) + 1)) st1
                   end in
        tof_swap n' (l + 1) st2
      end
  end.

(** The stream object of a page as [wrpage] writes it. *)
Definition page_object (o : Z) (compressed : bool) (raw lzw : list Z) : list Z :=
  (if compressed then
     fmt_u o ++ str " 0 obj" ++ nl
       ++ str "  << /Length " ++ fmt_u (Z.of_nat (List.length lzw))
       ++ str " /DL " ++ fmt_u (Z.of_nat (List.length raw))
       ++ str " /Filter /LZWDecode /DecodeParams << /EarlyChange 0 >> >>" ++ nl
       ++ str "stream" ++ nl ++ lzw
   else
     fmt_u o ++ str " 0 obj" ++ nl
       ++ str "<< /Length " ++ fmt_u (Z.of_nat (List.length raw))
       ++ str " >>" ++ nl ++ str "stream" ++ nl ++ raw)
  ++ nl ++ str "endstream" ++ nl ++ str "endobj" ++ nl ++ nl.

(** [wrpage], in the order of the C function: the line is clamped
    to the page, the object is allocated, the page is rendered into
    the page buffer, the page and line counters move on, and the
    stream is written, compressed if that makes it smaller. *)
Definition clamp_line (st : PDF) : PDF :=
  if lpp st <? line st then set_line (lpp st) st else st.

Definition render_page (st : PDF) : PDF :=
  let shown := Z.to_nat (Z.min (line st) (Z.of_nat (List.length (lines st)))) in
  let body := formbuf st ++ text_header (cfg st)
                ++ flat_map render_line (firstn shown (lines st))
                ++ str " ET Q" in
  set_pagebuf body
    (set_lines (map clear_line (firstn shown (lines st))
                  ++ skipn shown (lines st)) st).

Definition advance_page (st : PDF) : PDF :=
  let st1 := set_line 0 (set_page (u32 (page st + 1)) st) in
  if tof (cfg st1) <? Z.of_nat (List.length (lines st1))
  then tof_swap (Z.to_nat (tof (cfg st1))) 0 st1 else st1.

Definition emit_page (o : Z) (st : PDF) : PDF :=
  if UNCOMPRESSED (flags st) then
    fputs (page_object o false (pagebuf st) []) st
  else
    let '(z, fail) := LZW.encstm (pagebuf st) in
    let st1 := set_lzwbuf z st in
    fputs (page_object o (negb fail) (pagebuf st1) (lzwbuf st1)) st1.

Definition wrpage (st : PDF) : PDF :=
  let st1 := addobj (clamp_line st) in
  let o := obj st1 in
  emit_page o (advance_page (render_page st1)).

(** *** Printing *)

(** [parsestr]: hashes the raw bytes, runs the parser over them and
    returns [ffseen]. *)
Definition parsestr (st : PDF) (s : list Z) (initial : bool) : Z * PDF :=
  let st1 := set_sha1 (sha1 st ++ s) st in
  let p := parse_bytes
             (mkParse (prs st1) (newlpi (cfg st1)) initial 0 (parsebuf st1)) s in
  (p_ffseen p,
   set_parsebuf (p_buf p)
     (set_cfg (with_newlpi (p_newlpi p) (cfg st1))
        (set_prs (p_esc p) st1))).

Definition FLUSH_LBUF (st : PDF) (lbuf : list Z) : result :=
  match lbuf with
  | [] => Ok st
  | _ => add2line st lbuf
  end.

Definition at_tof (st : PDF) : PDF :=
  if line st =? 0 then set_line (u32 (tof (cfg st) + 1)) st else st.

(** The elements of [short lbuf[150]]. *)
Definition DIM_lbuf : Z := 150.

(** The [for] loop of [pdf_print] over the parsed characters.  [lbuf]
    is the local line buffer with its [nc] characters.  The loop
    flushes it when [nc] reaches [sizeof (lbuf) - 1], which counts
    bytes and is 299 for the 150 shorts of the array, so the flush
    never comes before the array is full: [lbuf[nc++] = c] with 150
    characters in the buffer writes past its end, and there the model
    stops with [LBUF_OVERRUN]. *)
Fixpoint print_loop (st : PDF) (lbuf : list Z) (parsed : list Z) : result :=
  match parsed with
  | [] => FLUSH_LBUF st lbuf
  | c :: rest =>
    if c =? 12 then
      do st1 <- FLUSH_LBUF (at_tof st) lbuf;
      print_loop (wrpage st1) [] rest
    else
      let full := u32 (lpp st + tof (cfg st)) <? line st in
      do st1 <- (if full then bind (FLUSH_LBUF st lbuf) (fun s => Ok (wrpage s))
                 else Ok st);
      let lbuf1 := if full then [] else lbuf in
      if c =? 10 then
        do st2 <- FLUSH_LBUF (at_tof st1) lbuf1;
        print_loop (set_line (u32 (line st2 + 1)) st2) [] rest
      else
        let st2 := at_tof st1 in
        if DIM_lbuf <=? Z.of_nat (List.length lbuf1) then Abort LBUF_OVERRUN st2
        else
          let lbuf2 := lbuf1 ++ [c] in
          if (299 <=? Z.of_nat (List.length lbuf2)) then
            do st3 <- FLUSH_LBUF st2 lbuf2;
            print_loop st3 [] rest
          else print_loop st2 lbuf2 rest
  end.

(** The part of [pdf_print] both branches share, from the second
    [ps->parseused = 0] on. *)
Definition print_parsed (st : PDF) (parsed : list Z) : result * code :=
  let st1 := set_parsebuf [] st in
  if negb (is_ok (errnum st1)) then (Ok st1, errnum st1)
  else
    match parsed with
    | [] => (Ok st1, PDF_OK)
    | _ =>
      match print_loop st1 [] parsed with
      | Ok st2 => (Ok st2, errnum st2)
      | Abort e st2 => (Abort e st2, e)
      end
    end.

Definition nothing (l : list Z) : bool :=
  match l with [] => true | _ => false end.

(** The actual first write: the header, and the form if it has not
    been set up. *)
Definition first_write (st : PDF) : result :=
  do st1 <- wrhdr st;
  if nothing (formbuf st1) then setform st1 else Ok st1.

(** The body of [pdf_print] under its [setjmp]: the result and, where
    it returns normally, the value returned.  [s] is the string with
    its length resolved. *)
Definition print_body (st : PDF) (s : list Z) : result * code :=
  if negb (WRITTEN (flags st)) then
    match geometry st with
    | Abort e st1 => (Abort e st1, e)
    | Ok st1 =>
      let st2 := set_flags (flag_ACTIVE true (flags st1)) st1 in
      let r3 := if negb (INIT (flags st2))
                then bind (pdfinit st2)
                       (fun s3 => Ok (set_flags (flag_INIT true (flags s3)) s3))
                else Ok st2 in
      match r3 with
      | Abort e st3 => (Abort e st3, e)
      | Ok st3 =>
        let '(r, st4) := parsestr (set_parsebuf [] st3) s
                                  (negb (RESUMED (flags st3))) in
        let parsed := parsebuf st4 in
        let st5 := set_flags (flag_RESUMED false (flags st4))
                             (set_parsebuf [] st4) in
        if nothing parsed && (r =? 0) then (Ok st5, PDF_OK)
        else
          match first_write st5 with
          | Abort e st6 => (Abort e st6, e)
          | Ok st6 => print_parsed st6 parsed
          end
      end
    end
  else
    let '(_, st1) := parsestr st s false in
    print_parsed st1 (parsebuf st1).

(** [pdf_print]: a jump back to [setjmp] stores the error in the
    context and returns it. *)
Definition pdf_print (h : PDF_HANDLE) (s : list Z) : code * PDF_HANDLE :=
  match h with
  | None => (PDF_E_BAD_HANDLE, None)
  | Some st =>
    match print_body st s with
    | (Ok st', r) => (r, Some st')
    | (Abort e st', _) => (e, Some (set_errnum e st'))
    end
  end.

(** *** Closing and checkpointing *)

Definition kids (plist : Z) (n : nat) : list Z :=
  flat_map (fun p => str " " ++ fmt_u (u32 (plist + 1 + 1 + Z.of_nat p))
                       ++ str " 0 R") (seq 0 n).

Definition font_entry (tag : string) (name : string) : list Z :=
  str tag ++ str " << /Type /Font /Subtype /Type1 /BaseFont /" ++ str name
    ++ str " >>".

(** One turn of the loop of [pdfclose] over the page leaves. *)
Definition page_leaf (plist : Z) (st : PDF) (p : nat) : PDF :=
  let st1 := addobj st in
  fputs (fmt_u (obj st1) ++ str " 0 obj" ++ nl
           ++ str " << /Type /Page /Parent " ++ fmt_u plist
           ++ str " 0 R /Resources << /Font " ++ fmt_u (u32 (plist + 1))
           ++ str " 0 R /ProcSet [/PDF /Text /ImageC /ImageI /ImageB]"
           ++ (if formobj st1 =? 0 then []
               else str " /XObject << /form " ++ fmt_u (formobj st1)
                      ++ str " 0 R >>")
           ++ str " >> /MediaBox [0 0 " ++ fmt_f (wid (cfg st1) * Qz PT)
           ++ str " " ++ fmt_f (len (cfg st1) * Qz PT) ++ str "] /Contents "
           ++ fmt_u (u32 (pbase st1 + Z.of_nat p)) ++ str " 0 R >>" ++ nl
           ++ str "endobj" ++ nl ++ nl) st1.

Definition info_object (iobj : Z) (st : PDF) (tbuf : list Z) : list Z :=
  fmt_u iobj ++ str " 0 obj" ++ nl
    ++ str "  << /Title (" ++ str (title (cfg st))
    ++ str ") /Creator (Midnight Engineering)"
    ++ str " /Subject (Preserving the history of computing)"
    ++ str " /Producer (LPTPDF Version 1.0)"
    ++ str " /CreationDate (D:"
    ++ (if UPDATING (flags st) then ctime (ap st) else tbuf)
    ++ str ") /ModDate (D:" ++ tbuf ++ str ") >>" ++ nl
    ++ str "endobj" ++ nl ++ nl.

Definition xref_table (st : PDF) : list Z :=
  str "xref" ++ nl ++ str "0 " ++ fmt_u (u32 (1 + obj st)) ++ nl
    ++ fmt_u0 10 0 ++ str " " ++ fmt_u0 5 65535 ++ str " f " ++ nl
    ++ flat_map (fun p => fmt_u0 10 (Z.of_nat (nth p (xref st) O)) ++ str " "
                            ++ fmt_u0 5 0 ++ str " n " ++ nl)
                (seq 0 (Z.to_nat (obj st))).

Definition trailer (cat iobj : Z) (st : PDF) (id : list Z) (xrefpos : nat)
    : list Z :=
  str "trailer" ++ nl
    ++ str " << /Root " ++ fmt_u cat ++ str " 0 R /Size "
    ++ fmt_u (u32 (obj st + 1)) ++ str " /Info " ++ fmt_u iobj
    ++ str " 0 R /ID [<"
    ++ (if nothing (oid (ap st)) then id else oid (ap st))
    ++ str "> <" ++ id ++ str ">] >>" ++ nl
    ++ str "startxref" ++ nl ++ fmt_u (Z.of_nat xrefpos) ++ nl
    ++ str "%%EOF" ++ nl.

(** The metadata of a session, object by object, as [pdfclose] writes
    it once the last page is out.  Each object takes the next number
    ([addobj]), which the later objects refer to. *)

(** The page list of the session; its number is [plist]. *)
Definition page_list_object (st : PDF) : PDF :=
  let st1 := addobj st in
  let plist := obj st1 in
  let anchor := u32 (plist + 1 + 1 + page st1) in
  fputs (fmt_u plist ++ str " 0 obj" ++ nl
           ++ str " << /Type /Pages /Kids ["
           ++ kids plist (Z.to_nat (page st1))
           ++ str "] /Count " ++ fmt_u (page st1)
           ++ str " /Parent " ++ fmt_u0 10 anchor ++ str " 0 R >>"
           ++ nl ++ str "endobj" ++ nl ++ nl) st1.

Definition font_object (plist : Z) (st : PDF) : PDF :=
  let st1 := addobj st in
  fputs (fmt_u (u32 (plist + 1)) ++ str " 0 obj" ++ nl
           ++ str " <<" ++ font_entry " /F1" (font (cfg st1))
           ++ font_entry " /F2" (nfont (cfg st1))
           ++ font_entry " /F3" (nbold (cfg st1))
           ++ str " >>" ++ nl ++ str "endobj" ++ nl ++ nl) st1.

Definition page_leaves (plist : Z) (st : PDF) : PDF :=
  fold_left (page_leaf plist) (seq 0 (Z.to_nat (page st))) st.

(** The anchor of the session; its number is [aobj] of [pdfclose]. *)
Definition anchor_object (plist : Z) (st : PDF) : PDF :=
  let st1 := addobj st in
  fputs (fmt_u (obj st1) ++ str " 0 obj" ++ nl
           ++ str " << /Type /Pages /Kids ["
           ++ (if aobj (ap st1) =? 0 then []
               else fmt_u (aobj (ap st1)) ++ str " 0 R ")
           ++ fmt_u plist ++ str " 0 R] /Count "
           ++ fmt_u (u32 (page st1 + prevpc (ap st1))) ++ str " >>"
           ++ nl ++ str "endobj" ++ nl ++ nl) st1.

(** The catalog; its number is [cat]. *)
Definition catalog_object (anchor : Z) (st : PDF) : PDF :=
  let st1 := addobj st in
  fputs (fmt_u (obj st1) ++ str " 0 obj" ++ nl
           ++ str "  << /Type /Catalog /Pages " ++ fmt_u anchor
           ++ str " 0 R /PageLayout /SinglePage"
           ++ str " /ViewerPreferences << "
           ++ (if Qlt_bool (len (cfg st1)) (wid (cfg st1))
               then str " /Duplex /DuplexFlipLongEdge"
               else str " /Duplex /DuplexFlipShortEdge")
           ++ (if String.eqb (title (cfg st1)) (title defaults)
               then [] else str " /DisplayDocTitle true")
           ++ str " /PickTrayByPDFSize true >> >>" ++ nl
           ++ str "endobj" ++ nl ++ nl) st1.

(** The document information; its number is [iobj].  Its text is
    hashed before it is written.  [tbuf] is the local time as
    [strftime] formats it. *)
Definition information_object (tbuf : list Z) (st : PDF) : PDF :=
  let st1 := addobj st in
  let ibuf := info_object (obj st1) st1 tbuf in
  fputs ibuf (set_sha1 (sha1 st1 ++ ibuf) st1).

Definition xref_and_trailer (cat iobj : Z) (st : PDF) : PDF :=
  let xrefpos := ftell st in
  let st1 := fputs (xref_table st) st in
  let id := flat_map fmt_02X (SHA1 env (sha1 st1)) in
  fputs (trailer cat iobj st1 id xrefpos) st1.

(** The file is cut at the end of the trailer, and the parent of the
    previous session's anchor is patched. *)
Definition finish_file (anchor : Z) (st : PDF) : PDF :=
  let st1 := set_pdf (ftruncate (pdf st) (ftell st)) st in
  if (anchorpp st1 =? 0)%nat then st1
  else fputs (fmt_u0 10 anchor) (fseek (anchorpp st1) st1).

Definition write_metadata (tbuf : list Z) (st : PDF) : PDF :=
  let st1 := page_list_object st in
  let plist := obj st1 in
  let st2 := font_object plist st1 in
  let st3 := page_leaves plist st2 in
  let st4 := anchor_object plist st3 in
  let anchor := obj st4 in
  let st5 := catalog_object anchor st4 in
  let cat := obj st5 in
  let st6 := information_object tbuf st5 in
  let iobj := obj st6 in
  let st7 := xref_and_trailer cat iobj st6 in
  finish_file anchor st7.

(** [pdfclose], on a context whose file is open.  Returns the value
    returned and the context as it is when the function is left (for a
    close, just before it is freed). *)
Definition pdfclose (tbuf : list Z) (checkpoint : bool) (st : PDF) : code * PDF :=
  let r1 := if negb (line st =? 0) && negb (WRITTEN (flags st))
               && INIT (flags st)
            then first_write st else Ok st in
  match r1 with
  | Abort e st1 => (e, st1)
  | Ok st1 =>
    if negb (WRITTEN (flags st1)) then (PDF_OK, st1)
    else
      let st2 := if negb (line st1 =? 0) then wrpage st1 else st1 in
      (PDF_OK, write_metadata tbuf st2)
  end.

(** [pdf_checkpoint]; [tbuf] is the time of the call. *)
Definition pdf_checkpoint (tbuf : list Z) (h : PDF_HANDLE) : code * PDF_HANDLE :=
  match h with
  | None => (PDF_E_BAD_HANDLE, None)
  | Some st =>
    if WRITTEN (flags st) then
      let line0 := line st in
      let st1 := set_line 0 st in
      let obj0 := obj st1 in
      let st2 := set_checkpp (ftell st1) st1 in
      let sha0 := sha1 st2 in
      let '(r, st3) := pdfclose tbuf true st2 in
      let st4 := set_sha1 sha0 st3 in
      let st5 := fseek (checkpp st4) st4 in
      let st6 := set_line line0 (set_obj obj0 st5) in
      let st7 := set_flags (flag_RESUMED true (flag_WRITTEN false (flags st6)))
                           st6 in
      (r, Some (if is_ok r then st7 else set_errnum r st7))
    else (PDF_OK, Some st)
  end.

(** [pdf_close]; [tbuf] is the time of the call.  The context is freed
    by the call: what is returned with the status is the context as it
    was when the file was closed, for the file it holds. *)
Definition pdf_close (tbuf : list Z) (h : PDF_HANDLE) : code * option PDF :=
  match h with
  | None => (PDF_E_BAD_HANDLE, None)
  | Some st => let '(r, st') := pdfclose tbuf false st in (r, Some st')
  end.

End Engine.

(** * Definitions used by the statements and their proofs *)

(** ** Examples *)

(** An environment for running the model on examples: the output path
    names a new, empty file; no earlier session can be scanned; the
    digest and the form graphics are placeholders. *)
Definition sample_env : Env :=
  mkEnv (fun _ => inr []) (fun _ => 0)
        (fun _ => mkScan (SCAN_ABORT PDF_E_NO_APPEND) no_append [] 0 0 [] O)
        (fun _ => repeat 0 20) (fun _ => str " B Q") (fun st => Ok st).

(** The context of a newly opened session on an empty file, with the
    default configuration. *)
Definition fresh : PDF := new_context defaults (mkFile [] O).

(** The bytes 0, 1, ..., 254. *)
Definition ramp255 : list Z := map Z.of_nat (seq 0 255).

(** Whether a path ends in [".pdf"], letters compared without case. *)
Definition pdf_extension (name : list Z) : bool :=
  let n := List.length name in
  (4 <=? n)%nat && xstrcasecmp_eq (skipn (n - 4) name) (str ".pdf").

Definition has_dot (name : list Z) : bool := existsb (Z.eqb 46) name.

(** A configuration the setters accept: 139 columns at 10 cpi on the
    default sheet, 0.5 in margins, no line-number columns. *)
Definition wide_config : config :=
  with_cols 139 (with_lno 0 (with_margin (1 # 2) defaults)).

(** The times of two example calls, as [strftime] formats them. *)
Definition sample_time : list Z := str "20240101120000".

(** ** Results and calls *)

Definition map_result (f : PDF -> PDF) (r : result) : result :=
  match r with
  | Ok s => Ok (f s)
  | Abort e s => Abort e (f s)
  end.

(** The context a result carries. *)
Definition state_of (r : result) : PDF :=
  match r with Ok s | Abort _ s => s end.

(** The context a call of [pdf_print] leaves: a jump back stores the
    error. *)
Definition settle (r : result) : PDF :=
  match r with
  | Ok s => s
  | Abort e s => set_errnum e s
  end.

(** The bytes of the file a call leaves. *)
Definition output (h : option PDF) : option (list Z) :=
  option_map (fun s => fdata (pdf s)) h.


(** The file a session leaves that prints one string and closes. *)
Definition printed_file (env : Env) (st : PDF) (s : list Z) : option (list Z) :=
  output (snd (pdf_close env sample_time (snd (pdf_print env (Some st) s)))).

(** A context as [pdf_open] and any calls of [pdf_set] leave it: the
    settings, the compression flag, the error number and the form file
    are whatever was set; the rest is as [pdf_open] cleared it. *)
Definition session (c : config) (nolzw : bool) (e : code)
    (ff : option string) (content : list Z) : PDF :=
  set_formfile ff
    (set_errnum e
      (set_flags (flag_UNCOMPRESSED nolzw no_flags)
        (new_context c (mkFile content O)))).

(** A session on a new file with the default settings and compression
    switched off. *)
Definition plain_session : PDF := session defaults true PDF_OK None [].

(** ** The first print, in its two halves *)

(** Up to the parse: the geometry check and the initialisation. *)
Definition print_init (env : Env) (st : PDF) : result :=
  match geometry st with
  | Abort e st1 => Abort e st1
  | Ok st1 =>
    let st2 := set_flags (flag_ACTIVE true (flags st1)) st1 in
    if negb (INIT (flags st2))
    then bind (pdfinit env st2)
              (fun s3 => Ok (set_flags (flag_INIT true (flags s3)) s3))
    else Ok st2
  end.

(** From the parse on. *)
Definition print_rest (env : Env) (st3 : PDF) (s : list Z) : result * code :=
  let '(r, st4) := parsestr (set_parsebuf [] st3) s
                            (negb (RESUMED (flags st3))) in
  let parsed := parsebuf st4 in
  let st5 := set_flags (flag_RESUMED false (flags st4))
                       (set_parsebuf [] st4) in
  if nothing parsed && (r =? 0) then (Ok st5, PDF_OK)
  else
    match first_write env st5 with
    | Abort e st6 => (Abort e st6, e)
    | Ok st6 => print_parsed st6 parsed
    end.

(** ** The geometry check, on the configuration *)

Definition geom_tof (c : config) : Z :=
  if tof c =? u32 (-2) then u32 (trunc (top c * Qz (lpi c))) else tof c.

Definition geom_lpp (c : config) : Z := u32 (trunc (len c * Qz (lpi c))).

(** The six tests of the first write, on the configuration. *)
Definition geom_bad (c : config) : bool :=
  (trunc (len c) <? 2)
  || (trunc (printable_width c) <? 3)
  || (trunc (printable_width c) <? trunc (Qz (cols c) / cpi c))
  || Qlt_bool (len c * Qz (lpi c)) 4
  || Qlt_bool (len c * Qz (lpi c)) (Qz (geom_tof c))
  || (negb (formtype c =? PDF_JPEG) && Qlt_bool (barh c) (1 / Qz (lpi c))).

Definition geom_set (s : PDF) : PDF :=
  set_cfg (with_tof (geom_tof (cfg s)) (cfg s)) (set_lpp (geom_lpp (cfg s)) s).

(** A context on which the geometry check has passed: it would pass
    again and change nothing. *)
Definition settled (s : PDF) : Prop :=
  geom_bad (cfg s) = false
  /\ geom_tof (cfg s) = tof (cfg s)
  /\ geom_lpp (cfg s) = lpp s.

(** ** The parser at the head of the input *)

Definition set_ffseen (f : Z) (p : parse) : parse :=
  mkParse (p_esc p) (p_newlpi p) (p_initial p) f (p_buf p).

(** A byte the idle parser stores whatever came before: a printable
    character or a line feed. *)
Definition stored_byte (b : Z) : Prop := 32 <= b <= 126 \/ b = 10.

(** ** The line buffer of [pdf_print] *)

(** [pdf_print] collects the characters of a line in the 150 places
    of [lbuf] and empties it at a line feed, at a form feed and at the
    end of the string.  [run_fits n l]: with [n] characters in the
    buffer, the characters [l] are stored within it. *)
Fixpoint run_fits (n : nat) (l : list Z) : bool :=
  match l with
  | [] => true
  | c :: r =>
    if (c =? 10) || (c =? 12) then run_fits 0 r
    else (Z.of_nat n <? DIM_lbuf) && run_fits (S n) r
  end.

(** The string has no more than 150 bytes in a row without a line
    feed or a form feed among them.  The parser stores one character
    for a byte or none, so the bound on the bytes holds for what it
    stores. *)
Definition short_runs (s : list Z) : Prop :=
  run_fits 0 (map (Z.land 255) s) = true.

(** ** Files and contexts compared *)

(** Two files hold the same bytes below offset [n]. *)
Definition agree (n : nat) (d1 d2 : list Z) : Prop :=
  forall i, (i < n)%nat -> nth i d1 0 = nth i d2 0.

(** Two object tables hold the same offsets for the objects below [n]. *)
Definition xagree (n : Z) (x1 x2 : list nat) : Prop :=
  forall i, (i < Z.to_nat n)%nat -> nth i x1 O = nth i x2 O.

(** [reframe] rewrites the file, the object table, the checkpoint
    position, the hash input and the parser's fields, and nothing
    else. *)
Definition reframe (fp : file -> file) (fx : list nat -> list nat)
    (fc : nat -> nat) (fh : list Z -> list Z) (fe : esc -> esc) (s : PDF) : PDF :=
  set_pdf (fp (pdf s))
    (set_xref (fx (xref s))
      (set_checkpp (fc (checkpp s))
        (set_sha1 (fh (sha1 s))
          (set_prs (fe (prs s)) s)))).

(** The context without its file, object table, checkpoint position
    and parser state. *)
Definition core (s : PDF) : PDF :=
  reframe (fun _ => mkFile [] O) (fun _ => []) (fun _ => O)
          (fun h => h) (fun _ => esc0) s.

(** [aux] rewrites the checkpoint position, the hash input and the
    parser's fields. *)
Definition aux (fc : nat -> nat) (fh : list Z -> list Z) (fe : esc -> esc)
    (s : PDF) : PDF :=
  reframe (fun f => f) (fun x => x) fc fh fe s.

(** [J a b]: the two contexts are the same but for the checkpoint
    position, the parser state, the bytes of the file at and beyond
    the stream position, and the table entries of objects not yet
    allocated. *)
Record J (a b : PDF) : Prop := mkJ {
  J_core : core a = core b;
  J_obj : 0 <= obj b;
  J_pos : ftell a = ftell b;
  J_data : agree (ftell a) (fdata (pdf a)) (fdata (pdf b));
  J_xref : xagree (obj b) (xref a) (xref b) }.


(** The context without what the page writer and the closing sequence
    change: lines, counters, buffers, object table, file and hash. *)
Definition sess (s : PDF) : PDF :=
  set_line 0 (set_lines [] (set_page 0 (set_pagebuf [] (set_lzwbuf []
    (set_obj 0 (set_xref [] (set_pdf (mkFile [] O) (set_sha1 [] s)))))))).

(** [keeps s s']: the stream has not moved back and the bytes below
    its old position are what they were. *)
Definition keeps (s s' : PDF) : Prop :=
  (ftell s <= ftell s')%nat
  /\ agree (ftell s) (fdata (pdf s')) (fdata (pdf s)).

(** What the steps of the print loop keep. *)
Record stays (s s' : PDF) : Prop := mkStays {
  st_sess : sess s' = sess s;
  st_keeps : keeps s s';
  st_obj : 0 <= obj s -> 0 <= obj s';
  st_page : 0 <= page s -> 0 <= page s' }.



(** ** Invariants of a session *)

(** The two halves of the anchor of the earlier session as [wrhdr]
    rewrites it: up to the parent's number, and from its ten blanks. *)
Definition anchor_head (a : append) (q : nat) : list Z :=
  fmt_u (aobj a) ++ str " 0 obj" ++ nl ++ firstn q (trail a) ++ str " /Parent ".

Definition anchor_tail (a : append) (q : nat) : list Z :=
  repeat 32 10 ++ str " 0 R " ++ skipn q (trail a) ++ nl ++ str "endobj"
    ++ nl ++ nl.


(** When updating, the rewritten anchor is in the file, below the
    stream position, and [anchorpp] points at its blanks. *)
Definition anchor_written (b : PDF) : Prop :=
  if UPDATING (flags b) then
    exists n q,
      getint (trail (ap b)) (str "/Count") = Some (n, q)
      /\ prevpc (ap b) = n
      /\ anchorpp b = (anchorp (ap b) + List.length (anchor_head (ap b) q))%nat
      /\ (anchorp (ap b)
          + List.length (anchor_head (ap b) q ++ anchor_tail (ap b) q)
          <= ftell b)%nat
      /\ forall i,
           (i < List.length (anchor_head (ap b) q ++ anchor_tail (ap b) q))%nat ->
           nth (anchorp (ap b) + i) (fdata (pdf b)) 0
           = nth i (anchor_head (ap b) q ++ anchor_tail (ap b) q) 0
  else anchorpp b = O.

(** What holds of a context once the header is out. *)
Record Inv (b : PDF) : Prop := mkInv {
  I_active : ACTIVE (flags b) = true;
  I_init : INIT (flags b) = true;
  I_written : WRITTEN (flags b) = true;
  I_resumed : RESUMED (flags b) = false;
  I_geom : settled b;
  I_form : formbuf b <> [];
  I_checkpp : checkpp b = O;
  I_parsebuf : parsebuf b = [];
  I_pos : ftell b <> O;
  I_obj : 0 <= obj b;
  I_page : 0 <= page b;
  I_anchor : anchor_written b }.

(** What holds of a context that is initialised and has not written. *)
Record Ready (s : PDF) : Prop := mkReady {
  R_active : ACTIVE (flags s) = true;
  R_init : INIT (flags s) = true;
  R_written : WRITTEN (flags s) = false;
  R_resumed : RESUMED (flags s) = false;
  R_geom : settled s;
  R_checkpp : checkpp s = O;
  R_anchorpp : anchorpp s = O;
  R_parsebuf : parsebuf s = [];
  R_obj : 0 <= obj s;
  R_page : 0 <= page s }.



(** A context that has been opened and not printed to. *)
Record Opened (s : PDF) : Prop := mkOpened {
  O_written : WRITTEN (flags s) = false;
  O_init : INIT (flags s) = false;
  O_resumed : RESUMED (flags s) = false;
  O_checkpp : checkpp s = O;
  O_anchorpp : anchorpp s = O;
  O_parsebuf : parsebuf s = [];
  O_obj : 0 <= obj s;
  O_page : 0 <= page s }.

(** The context without what initialisation sets. *)
Definition init_frame (s : PDF) : PDF :=
  set_pdf (mkFile [] O) (set_sha1 [] (set_pbase 0 (set_obj 0 (set_xref []
    (set_ap no_append (set_flags (flag_UPDATING false (flags s)) s)))))).
(** * Further functions and properties *)

(** The bytes a plain text is made of: printable characters and line
    feeds. *)
Definition plain_text (s : list Z) : Prop := Forall stored_byte s.

(** The final bytes of a control sequence; the letters are among
    them. *)
Definition final_byte (b : Z) : Prop := 64 <= b <= 126.

Definition font_key (k : setkey) : Prop :=
  k = PDF_TEXT_FONT \/ k = PDF_LNO_FONT \/ k = PDF_LABEL_FONT.

(** [fgets (buf, size, fh)] at the start of a file: up to [size - 1]
    bytes, through the first line feed; nothing at the end of the
    file. *)
Fixpoint fgets_bytes (n : nat) (d : list Z) : list Z :=
  match n, d with
  | S k, c :: r => c :: (if c =? 10 then [] else fgets_bytes k r)
  | _, _ => []
  end.

Definition fgets (size : nat) (d : list Z) : option (list Z) :=
  match fgets_bytes (size - 1) d with
  | [] => None
  | l => Some l
  end.

Fixpoint skip_digits (l : list Z) : list Z :=
  match l with
  | c :: r => if isdigit c then skip_digits r else l
  | [] => []
  end.

(** [pdf_file].  [opened] is what [fopen (name, "rb")] gives, the
    bytes of the file or the [errno] of the failure, and [errno_read]
    the [errno] found when [fgets] has read nothing. *)
Definition pdf_file (opened : Z + list Z) (errno_read : Z) : code :=
  match opened with
  | inl e => HOST e
  | inr d =>
    match fgets 100 d with
    | None => HOST errno_read
    | Some line =>
      let buf := c_str line in
      if negb (prefix_of (str "%PDF-1.") buf) then PDF_E_NOT_PDF
      else if hd 0 (skip_digits (skipn 7 buf)) =? 10 then PDF_OK
      else PDF_E_NOT_PDF
    end
  end.



(** The bytes the idle parser stores once the head of the input is
    past: printable characters, line feeds, form feeds and carriage
    returns. *)
Definition page_byte (b : Z) : Prop :=
  32 <= b <= 126 \/ b = 10 \/ b = 12 \/ b = 13.

(** Printable characters, form feeds and carriage returns: text
    without a line feed. *)
Definition line_byte (b : Z) : Prop :=
  32 <= b <= 126 \/ b = 12 \/ b = 13.

(** A context that has written one page and stands at the top of the
    next. *)
Definition sample_written : PDF :=
  settle (fst (print_body sample_env plain_session [65; 12])).

(** The number of form feeds of a text. *)
Definition form_feeds (s : list Z) : Z :=
  Z.of_nat (List.length (filter (Z.eqb 12) s)).







(** [pdf_clearerr]: the error number of the context is cleared (with
    [errno], which the context does not hold). *)
Definition pdf_clearerr (h : PDF_HANDLE) : PDF_HANDLE :=
  option_map (set_errnum PDF_OK) h.



(** [size_t] arithmetic, on [w] bits. *)
Definition usize (w : Z) (x : Z) : Z := x mod 2 ^ w.

(** [pdf_where]: the page and the line it stores through its
    pointers.  [w] is the width of [size_t]. *)
Definition pdf_where (w : Z) (h : PDF_HANDLE) : code * option (Z * Z) :=
  match h with
  | None => (PDF_E_BAD_HANDLE, None)
  | Some st =>
    let p := u32 (page st + 1) in
    let l := if line st =? 0 then u32 (tof (cfg st) + 1) else line st in
    let '(l1, p1) :=
      if lpp st <? l then (usize w (l - u32 (lpp st - 1)), usize w (p + 1))
      else (l, p) in
    (PDF_OK, Some (usize w (p1 + prevpc (ap st)), l1))
  end.
(** * Properties *)

(** ** LZW *)

(** C1 (the encoder against its declared filter parameters).  The
    encoder's output for the 255 bytes 0..254 is not decoded by the
    LZWDecode filter with EarlyChange 0, the parameter [wrpage] writes
    into the stream dictionary: the encoder widens its codes when it
    assigns code 511, one code before such a reader does.  The same
    bytes are recovered when the reader assumes EarlyChange 1. *)
Theorem lzw_early_change_mismatch :
  LZW.lzw_decode 0 (fst (LZW.encstm ramp255)) <> Some ramp255
  /\ LZW.lzw_decode 1 (fst (LZW.encstm ramp255)) = Some ramp255.
Proof.
  split.
  - vm_compute. discriminate.
  - vm_compute. reflexivity.
Qed.

(** ** Parser *)

Ltac head_if :=
  repeat (cbn [fst snd];
          match goal with
          | |- snd (fst (if ?b then _ else _)) = _ => destruct b
          end);
  cbn [fst snd].

Lemma case_CSIINT_newlpi e n c : snd (fst (case_CSIINT e n c)) = n.
Proof.
  unfold case_CSIINT, escints_is_null.
  rewrite Bool.andb_false_r. cbn [andb]. head_if; reflexivity.
Qed.

Lemma case_CSIP_newlpi e n c : snd (fst (case_CSIP e n c)) = n.
Proof.
  unfold case_CSIP. head_if; try reflexivity. apply case_CSIINT_newlpi.
Qed.

Lemma sequences_newlpi e n c : snd (fst (sequences e n c)) = n.
Proof.
  unfold sequences, case_CSI, case_ESCSEQ.
  destruct (escstate e); head_if; try reflexivity;
    first [apply case_CSIP_newlpi | apply case_CSIINT_newlpi].
Qed.

Lemma finish_newlpi p e n ff a c : p_newlpi (finish p e n ff a c) = n.
Proof. destruct a; reflexivity. Qed.

Lemma parse_byte_newlpi p b : p_newlpi (parse_byte p b) = p_newlpi p.
Proof.
  unfold parse_byte.
  repeat match goal with
         | |- p_newlpi (if ?b then _ else _) = _ => destruct b
         end; rewrite ?finish_newlpi; try reflexivity.
  match goal with
  | |- context [sequences ?e ?n ?c] =>
    pose proof (sequences_newlpi e n c) as H;
    destruct (sequences e n c) as [[e' n'] a]; cbn [fst snd] in H;
    rewrite finish_newlpi; exact H
  end.
Qed.

(** No input changes the pending pitch: the only assignment to
    [newlpi] sits behind the test of [escints] against null. *)
Lemma parse_bytes_newlpi s : forall p, p_newlpi (parse_bytes p s) = p_newlpi p.
Proof.
  induction s as [|b s IH]; intro p; [reflexivity|].
  cbn [parse_bytes fold_left]. fold (parse_bytes (parse_byte p b) s).
  rewrite IH. apply parse_byte_newlpi.
Qed.

(** C2 (CSI Pn z selects the vertical pitch).  On a newly opened
    session the sequences CSI 2 z and ESC [ 2 z are consumed without
    output and the pending pitch stays 6 where the specification has 8:
    the sequence is never executed. *)
Theorem csi_z_leaves_pitch :
  let a := snd (parsestr fresh [155; 50; 122] true) in
  let b := snd (parsestr fresh [27; 91; 50; 122] true) in
  newlpi (cfg a) = 6 /\ parsebuf a = []
  /\ newlpi (cfg b) = 6 /\ parsebuf b = [].
Proof. vm_compute. repeat split; reflexivity. Qed.

(** C8 (a CSI parameter stays below 2^15).  After CSI 4 0 0 0 0 the
    parser still accumulates (state CSIP) and the stored parameter is
    40000: the overflow test looks at the value before the digit is
    added, not after. *)
Theorem csi_parameter_passes_bound :
  let p := parse_bytes (mkParse esc0 6 true 0 []) [155; 52; 48; 48; 48; 48] in
  escstate (p_esc p) = ESC_CSIP
  /\ aget 0 (escpars (p_esc p)) (escpn (p_esc p)) = 40000
  /\ 2 ^ 15 <= 40000
  /\ ESC_PMAX = 2 ^ 15 - 1.
Proof. vm_compute. repeat split; try reflexivity; discriminate. Qed.

(** ** Configuration *)

(** C7 (each font key sets its own member).  Setting [LNO_FONT] on a
    newly opened context succeeds, replaces the text font and leaves
    the number font as it was. *)
Theorem lno_font_sets_text_font (env : Env) :
  exists st,
    pdf_set env (Some fresh) PDF_LNO_FONT (Some "Helvetica"%string) 0
      = (PDF_OK, Some st)
    /\ font (cfg st) = "Helvetica"%string
    /\ nfont (cfg st) = nfont (cfg fresh)
    /\ nfont (cfg fresh) = "Times-Roman"%string
    /\ font (cfg fresh) = "Courier"%string.
Proof. eexists. split; [reflexivity|]. repeat split. Qed.

(** ** Opening *)

Lemma strrchr_tail_split s c t :
  strrchr_tail s c = Some t -> exists pre, s = pre ++ c :: t.
Proof.
  revert t. induction s as [|x r IH]; intros t H; [discriminate|].
  cbn in H. destruct (strrchr_tail r c) as [t'|] eqn:E.
  - injection H as <-. destruct (IH _ eq_refl) as [pre ->].
    exists (x :: pre). reflexivity.
  - destruct (Z.eqb_spec x c) as [->|]; [|discriminate].
    injection H as <-. exists []. reflexivity.
Qed.

Lemma strrchr_tail_none s c :
  strrchr_tail s c = None -> existsb (Z.eqb c) s = false.
Proof.
  induction s as [|x r IH]; intro H; [reflexivity|].
  cbn in H |- *. destruct (strrchr_tail r c); [discriminate|].
  rewrite (Z.eqb_sym c x). destruct (x =? c); [discriminate|].
  cbn. apply IH. reflexivity.
Qed.

Lemma c_str_nonzero l : Forall (fun c => c <> 0) (c_str l).
Proof.
  induction l as [|c r IH]; cbn; [constructor|].
  destruct (Z.eqb_spec c 0); constructor; assumption.
Qed.

Lemma ext_loop_pdf b fn :
  Forall (fun c => c <> 0) fn ->
  ext_loop b fn (str "pdf") = true -> fn = str "pdf" \/ fn = str "PDF".
Proof.
  change (str "pdf") with [112; 100; 102].
  change (str "PDF") with [80; 68; 70].
  intro NZ.
  destruct fn as [|c1 [|c2 [|c3 [|c4 r]]]]; cbn; try discriminate;
    destruct b; cbn;
    repeat match goal with
           | |- context [?x =? ?y] => destruct (Z.eqb_spec x y); cbn; subst
           end; try discriminate; auto.
  all: exfalso; inversion NZ as [|? ? _ NZ1]; inversion NZ1 as [|? ? _ NZ2];
    inversion NZ2 as [|? ? _ NZ3]; inversion NZ3 as [|? ? Hnz _]; apply Hnz;
    reflexivity.
Qed.

Lemma pdf_extension_app pre fn :
  fn = str "pdf" \/ fn = str "PDF" -> pdf_extension (pre ++ 46 :: fn) = true.
Proof.
  intro H. unfold pdf_extension.
  assert (L : List.length (pre ++ 46 :: fn) = (List.length pre + 4)%nat)
    by (rewrite length_app; destruct H as [-> | ->]; reflexivity).
  rewrite L.
  replace (List.length pre + 4 - 4)%nat with (List.length pre + 0)%nat by lia.
  rewrite skipn_app, Nat.add_0_r, skipn_all.
  replace (List.length pre - List.length pre)%nat with O by lia.
  destruct (Nat.leb_spec 4 (List.length pre + 4)); [|lia].
  destruct H as [-> | ->]; reflexivity.
Qed.

Lemma filename_ok_extension name :
  Forall (fun c => c <> 0) name ->
  filename_ok name = true -> has_dot name = false \/ pdf_extension name = true.
Proof.
  unfold filename_ok, has_dot. intros NZ H.
  destruct (strrchr_tail name 46) as [fn|] eqn:E.
  - right. destruct (strrchr_tail_split _ _ _ E) as [pre ->].
    apply pdf_extension_app. eapply ext_loop_pdf; [|exact H].
    apply Forall_app in NZ. destruct NZ as [_ NZ].
    inversion NZ; assumption.
  - left. apply strrchr_tail_none. exact E.
Qed.

(** C9, amended (the name check of [pdf_open]).  A path that contains
    a dot and does not end in [.pdf], letters compared without case,
    is refused with [BAD_FILENAME]; so a context is created only for a
    path without any dot or with that extension. *)
Theorem pdf_open_refuses_other_extension (env : Env) (name : string) :
  has_dot (c_str (str name)) = true ->
  pdf_extension (c_str (str name)) = false ->
  pdf_open env (Some name) = inl PDF_E_BAD_FILENAME.
Proof.
  intros Hdot Hext. unfold pdf_open.
  destruct (filename_ok (c_str (str name))) eqn:E; [|reflexivity].
  destruct (filename_ok_extension _ (c_str_nonzero _) E) as [H | H];
    congruence.
Qed.

Lemma pdf_open_refuses_other_extension_witness :
  has_dot (c_str (str "report.txt")) = true
  /\ pdf_extension (c_str (str "report.txt")) = false
  /\ pdf_open sample_env (Some "report.txt"%string) = inl PDF_E_BAD_FILENAME.
Proof.
  split; [reflexivity|]. split; [reflexivity|].
  apply (pdf_open_refuses_other_extension sample_env "report.txt");
    reflexivity.
Defined.

(** C9 as stated fails: a path without a dot has no [.pdf] extension
    and is accepted. *)
Lemma pdf_open_accepts_name_without_dot :
  ~ (forall (env : Env) (name : string),
        pdf_extension (c_str (str name)) = false ->
        pdf_open env (Some name) = inl PDF_E_BAD_FILENAME).
Proof.
  intro H. specialize (H sample_env "output"%string eq_refl).
  vm_compute in H. discriminate.
Qed.

(** ** Checkpoint *)

(** C10 (a checkpoint before any output).  With the [WRITTEN] flag
    clear, [pdf_checkpoint] returns [PDF_OK] and the context, the file
    it holds included, is what it was. *)
Theorem checkpoint_before_output (env : Env) (tbuf : list Z) (st : PDF) :
  WRITTEN (flags st) = false ->
  pdf_checkpoint env tbuf (Some st) = (PDF_OK, Some st).
Proof. intro H. unfold pdf_checkpoint. rewrite H. reflexivity. Qed.

Lemma checkpoint_before_output_witness :
  WRITTEN (flags fresh) = false
  /\ pdf_checkpoint sample_env [] (Some fresh) = (PDF_OK, Some fresh).
Proof.
  split; [reflexivity|].
  apply (checkpoint_before_output sample_env [] fresh). reflexivity.
Defined.

(** ** Page writer *)

Lemma tof_swap_lines n : forall l st,
  exists L LS, tof_swap n l st = set_line L (set_lines LS st).
Proof.
  induction n as [|n IH]; intros l st; cbn [tof_swap].
  - exists (line st), (lines st). destruct st; reflexivity.
  - destruct (Z.of_nat (List.length (lines st)) <=? u32 (lpp st + l)).
    + exists (line st), (lines st). destruct st; reflexivity.
    + destruct (aget None (lines st) (u32 (lpp st + l))) as [d|].
      * match goal with
        | |- context [tof_swap n (l + 1) ?s] =>
          destruct (IH (l + 1) s) as (L & LS & ->)
        end.
        exists L, LS. destruct d; destruct st; reflexivity.
      * apply IH.
Qed.

Lemma advance_page_shape st :
  exists L LS, advance_page st = set_line L (set_lines LS (set_page (u32 (page st + 1)) st)).
Proof.
  unfold advance_page.
  destruct (tof (cfg (set_line 0 (set_page (u32 (page st + 1)) st)))
              <? Z.of_nat (List.length (lines (set_line 0 (set_page (u32 (page st + 1)) st))))).
  - match goal with
    | |- context [tof_swap ?n ?l ?s] =>
      destruct (tof_swap_lines n l s) as (L & LS & ->)
    end.
    exists L, LS. destruct st; reflexivity.
  - exists 0, (lines st). destruct st; reflexivity.
Qed.

(** What [wrpage] leaves in the page buffer and where it writes. *)
Lemma wrpage_pagebuf st :
  pagebuf (wrpage st) = pagebuf (render_page (addobj (clamp_line st))).
Proof.
  unfold wrpage.
  destruct (advance_page_shape (render_page (addobj (clamp_line st))))
    as (L & LS & ->).
  unfold emit_page. cbn [flags set_line set_lines set_page].
  destruct (UNCOMPRESSED _); [reflexivity|].
  destruct (LZW.encstm _) as [z fail]. reflexivity.
Qed.

Lemma clamp_line_frame st :
  exists L, clamp_line st = set_line L st.
Proof.
  unfold clamp_line. destruct (lpp st <? line st).
  - eexists; reflexivity.
  - exists (line st). destruct st; reflexivity.
Qed.

(** C6 (when a page stream is compressed).  [wrpage] appends one
    stream object to the file.  It is the LZW form, with [/Filter
    /LZWDecode], [/Length] of the encoded data and [/DL] of the raw
    length, exactly when compression is not disabled and the encoded
    data is strictly shorter than the raw page; otherwise it is the
    raw page with [/Length] alone. *)
Theorem page_stream_filter (st : PDF) :
  let st' := wrpage st in
  let raw := pagebuf st' in
  let z := fst (LZW.encstm raw) in
  let o := u32 (obj st + 1) in
  let compressed :=
    negb (UNCOMPRESSED (flags st))
    && (List.length z <? List.length raw)%nat in
  pdf st' =
  fwrite (pdf st)
    ((if compressed then
        fmt_u o ++ str " 0 obj" ++ nl
          ++ str "  << /Length " ++ fmt_u (Z.of_nat (List.length z))
          ++ str " /DL " ++ fmt_u (Z.of_nat (List.length raw))
          ++ str " /Filter /LZWDecode /DecodeParams << /EarlyChange 0 >> >>"
          ++ nl ++ str "stream" ++ nl ++ z
      else
        fmt_u o ++ str " 0 obj" ++ nl
          ++ str "<< /Length " ++ fmt_u (Z.of_nat (List.length raw))
          ++ str " >>" ++ nl ++ str "stream" ++ nl ++ raw)
     ++ nl ++ str "endstream" ++ nl ++ str "endobj" ++ nl ++ nl).
Proof.
  cbv zeta. rewrite wrpage_pagebuf. unfold wrpage.
  destruct (clamp_line_frame st) as (L0 & ->).
  set (s1 := render_page (addobj (set_line L0 st))).
  destruct (advance_page_shape s1) as (L & LS & ->).
  assert (Hp : pdf s1 = pdf st) by (destruct st; reflexivity).
  assert (Hf : flags s1 = flags st) by (destruct st; reflexivity).
  assert (Ho : obj (addobj (set_line L0 st)) = u32 (obj st + 1))
    by (destruct st; reflexivity).
  rewrite Ho. unfold emit_page.
  cbn [flags pagebuf pdf set_line set_lines set_page].
  rewrite Hf. destruct (UNCOMPRESSED (flags st)); cbn [negb andb].
  - unfold fputs. cbn [pdf set_pdf set_line set_lines set_page].
    rewrite Hp. reflexivity.
  - unfold LZW.encstm at 1.
    set (z := LZW.out (LZW.lzw_encode (LZW.lzw_init LZW.LZW_BUFFER LZW.zero_lzw)
                                      (pagebuf s1))).
    unfold fputs.
    cbn [pdf set_pdf set_line set_lines set_page set_lzwbuf lzwbuf pagebuf fst].
    rewrite Hp. unfold page_object. unfold LZW.encstm. cbn [fst]. fold z.
    replace (negb (Z.of_nat (List.length (pagebuf s1)) <=? Z.of_nat (List.length z)))
      with (List.length z <? List.length (pagebuf s1))%nat; [reflexivity|].
    destruct (Nat.ltb_spec (List.length z) (List.length (pagebuf s1)));
      destruct (Z.leb_spec (Z.of_nat (List.length (pagebuf s1)))
                           (Z.of_nat (List.length z))); cbn; try reflexivity; lia.
Qed.

(** ** Geometry *)

(** C4 (inconsistent geometry is refused at the first print).  The
    setters accept [wide_config]; its 139 columns need 13.9 in and
    the printable width is 13.875 in; yet the first print succeeds and
    writes the file header: the comparison is made between the two
    values truncated to whole inches. *)
Theorem geometry_check_truncates (env : Env) :
  let h0 := Some (new_context wide_config (mkFile [] O)) in
  snd (pdf_set env
         (snd (pdf_set env
                 (snd (pdf_set env (Some fresh) PDF_COLS None (139 # 1)))
                 PDF_LNO_WIDTH None 0))
         PDF_SIDE_MARGIN None (1 # 2)) = h0
  /\ Qlt_bool (printable_width wide_config)
              (Qz (cols wide_config) / cpi wide_config) = true
  /\ fst (pdf_print env h0 [65]) = PDF_OK
  /\ option_map (fun st => fdata (pdf st)) (snd (pdf_print env h0 [65]))
     = Some pdf_header.
Proof.
  cbv zeta. repeat split; vm_compute; reflexivity.
Qed.

(** ** Files byte by byte *)

Lemma length_fprefix d n : List.length (fprefix d n) = n.
Proof.
  unfold fprefix. rewrite length_app, length_firstn, repeat_length. lia.
Qed.

Lemma nth_repeat_zero k i : nth i (repeat 0 k) 0 = 0.
Proof.
  revert i. induction k as [|k IH]; intros [|i]; cbn; auto.
Qed.

Lemma nth_firstn_lt {A} (l : list A) n i d :
  (i < n)%nat -> nth i (firstn n l) d = nth i l d.
Proof.
  revert l i. induction n as [|n IH]; intros l i H; [lia|].
  destruct l as [|x l]; [destruct i; reflexivity|].
  destruct i as [|i]; cbn; [reflexivity|]. apply IH. lia.
Qed.

Lemma nth_fprefix d n i :
  nth i (fprefix d n) 0 = if (i <? n)%nat then nth i d 0 else 0.
Proof.
  unfold fprefix. destruct (Nat.ltb_spec i n) as [H|H].
  - destruct (Nat.lt_ge_cases i (List.length d)) as [Hl|Hl].
    + rewrite app_nth1 by (rewrite length_firstn; lia).
      apply nth_firstn_lt. exact H.
    + rewrite app_nth2 by (rewrite length_firstn; lia).
      rewrite nth_repeat_zero. symmetry. apply nth_overflow. exact Hl.
  - apply nth_overflow.
    rewrite length_app, length_firstn, repeat_length. lia.
Qed.

Lemma length_fwrite f w :
  List.length (fdata (fwrite f w))
  = Nat.max (List.length (fdata f)) (fpos f + List.length w).
Proof.
  unfold fwrite. cbn [fdata].
  rewrite !length_app, length_fprefix, length_skipn. lia.
Qed.

Lemma nth_skipn {A} (l : list A) n i d : nth i (skipn n l) d = nth (n + i) l d.
Proof.
  revert l. induction n as [|n IH]; intros l; [reflexivity|].
  destruct l as [|x l]; [destruct i; reflexivity|]. cbn. apply IH.
Qed.

Lemma nth_fwrite f w i :
  nth i (fdata (fwrite f w)) 0 =
  if (i <? fpos f)%nat then nth i (fdata f) 0
  else if (i <? fpos f + List.length w)%nat then nth (i - fpos f) w 0
  else nth i (fdata f) 0.
Proof.
  unfold fwrite. cbn [fdata].
  destruct (Nat.ltb_spec i (fpos f)) as [H|H].
  - rewrite app_nth1 by (rewrite length_fprefix; exact H).
    rewrite nth_fprefix. destruct (Nat.ltb_spec i (fpos f)); [reflexivity|lia].
  - rewrite app_nth2 by (rewrite length_fprefix; exact H).
    rewrite length_fprefix.
    destruct (Nat.ltb_spec i (fpos f + List.length w)) as [H2|H2].
    + rewrite app_nth1 by lia. reflexivity.
    + rewrite app_nth2 by lia. rewrite nth_skipn. f_equal. lia.
Qed.


Lemma agree_refl n d : agree n d d.
Proof. intros i _. reflexivity. Qed.

Lemma agree_sym n d1 d2 : agree n d1 d2 -> agree n d2 d1.
Proof. intros H i Hi. symmetry. apply H. exact Hi. Qed.

Lemma agree_trans n d1 d2 d3 : agree n d1 d2 -> agree n d2 d3 -> agree n d1 d3.
Proof. intros H1 H2 i Hi. rewrite H1 by exact Hi. apply H2. exact Hi. Qed.

Lemma agree_le n m d1 d2 : (m <= n)%nat -> agree n d1 d2 -> agree m d1 d2.
Proof. intros Hle H i Hi. apply H. lia. Qed.


(** A write leaves the bytes below its position alone. *)
Lemma agree_fwrite_below f w n :
  (n <= fpos f)%nat -> agree n (fdata (fwrite f w)) (fdata f).
Proof.
  intros Hn i Hi. rewrite nth_fwrite.
  destruct (Nat.ltb_spec i (fpos f)); [reflexivity|lia].
Qed.




(** ** Fields the page writer does not look at *)

Section Reframe.

Variables (fp : file -> file) (fx : list nat -> list nat) (fc : nat -> nat)
          (fh : list Z -> list Z) (fe : esc -> esc).

Local Abbreviation R := (reframe fp fx fc fh fe).

Lemma tof_swap_reframe n : forall l s, tof_swap n l (R s) = R (tof_swap n l s).
Proof.
  induction n as [|n IH]; intros l s; [reflexivity|].
  cbn [tof_swap].
  replace (lines (R s)) with (lines s) by (destruct s; reflexivity).
  replace (lpp (R s)) with (lpp s) by (destruct s; reflexivity).
  destruct (Z.of_nat (List.length (lines s)) <=? u32 (lpp s + l)); [reflexivity|].
  destruct (aget None (lines s) (u32 (lpp s + l))) as [d|]; [|apply IH].
  destruct d as [|c d].
  - rewrite <- IH. f_equal; destruct s; reflexivity.
  - rewrite <- IH. f_equal; destruct s; reflexivity.
Qed.

Lemma clamp_line_reframe s : clamp_line (R s) = R (clamp_line s).
Proof.
  unfold clamp_line.
  replace (lpp (R s)) with (lpp s) by (destruct s; reflexivity).
  replace (line (R s)) with (line s) by (destruct s; reflexivity).
  destruct (lpp s <? line s); destruct s; reflexivity.
Qed.

Lemma render_page_reframe s : render_page (R s) = R (render_page s).
Proof. destruct s; reflexivity. Qed.

Lemma advance_page_reframe s : advance_page (R s) = R (advance_page s).
Proof.
  unfold advance_page.
  replace (set_line 0 (set_page (u32 (page (R s) + 1)) (R s)))
    with (R (set_line 0 (set_page (u32 (page s + 1)) s)))
    by (destruct s; reflexivity).
  set (s1 := set_line 0 (set_page (u32 (page s + 1)) s)).
  replace (cfg (R s1)) with (cfg s1) by (destruct s1; reflexivity).
  replace (lines (R s1)) with (lines s1) by (destruct s1; reflexivity).
  destruct (tof (cfg s1) <? Z.of_nat (List.length (lines s1))); [|reflexivity].
  apply tof_swap_reframe.
Qed.

Lemma at_tof_reframe s : at_tof (R s) = R (at_tof s).
Proof.
  unfold at_tof.
  replace (line (R s)) with (line s) by (destruct s; reflexivity).
  destruct (line s =? 0); destruct s; reflexivity.
Qed.

Lemma add2line_reframe s t : add2line (R s) t = map_result R (add2line s t).
Proof.
  unfold add2line.
  replace (line (R s)) with (line s) by (destruct s; reflexivity).
  destruct (line s <=? 0); [reflexivity|]. destruct s; reflexivity.
Qed.

Lemma FLUSH_LBUF_reframe s t : FLUSH_LBUF (R s) t = map_result R (FLUSH_LBUF s t).
Proof. destruct t; [reflexivity|]. apply add2line_reframe. Qed.

End Reframe.

Section Aux.

Variables (fc : nat -> nat) (fh : list Z -> list Z) (fe : esc -> esc).

Local Abbreviation A := (aux fc fh fe).

Lemma addobj_aux s : addobj (A s) = A (addobj s).
Proof. destruct s; reflexivity. Qed.

Lemma fputs_aux d s : fputs d (A s) = A (fputs d s).
Proof. destruct s; reflexivity. Qed.

Lemma emit_page_aux o s : emit_page o (A s) = A (emit_page o s).
Proof.
  unfold emit_page.
  replace (flags (A s)) with (flags s) by (destruct s; reflexivity).
  replace (pagebuf (A s)) with (pagebuf s) by (destruct s; reflexivity).
  destruct (UNCOMPRESSED (flags s)); [destruct s; reflexivity|].
  destruct (LZW.encstm (pagebuf s)) as [z fail]. destruct s; reflexivity.
Qed.

Lemma wrpage_aux s : wrpage (A s) = A (wrpage s).
Proof.
  unfold wrpage, aux.
  rewrite clamp_line_reframe. fold (A (clamp_line s)).
  rewrite addobj_aux. unfold aux.
  rewrite render_page_reframe, advance_page_reframe.
  replace (obj (reframe (fun f => f) (fun x => x) fc fh fe (addobj (clamp_line s))))
    with (obj (addobj (clamp_line s)))
    by (destruct (addobj (clamp_line s)); reflexivity).
  apply emit_page_aux.
Qed.

Lemma at_tof_aux s : at_tof (A s) = A (at_tof s).
Proof. apply at_tof_reframe. Qed.

Lemma FLUSH_LBUF_aux s t : FLUSH_LBUF (A s) t = map_result A (FLUSH_LBUF s t).
Proof. apply FLUSH_LBUF_reframe. Qed.

Lemma bind_map_result r (k k' : PDF -> result) :
  (forall s, k (A s) = map_result A (k' s)) ->
  bind (map_result A r) k = map_result A (bind r k').
Proof. intro H. destruct r; cbn; [apply H|reflexivity]. Qed.

Lemma set_line_aux v s : set_line v (A s) = A (set_line v s).
Proof. destruct s; reflexivity. Qed.

Lemma line_aux s : line (A s) = line s.
Proof. destruct s; reflexivity. Qed.

Lemma print_loop_aux parsed : forall s lbuf,
  print_loop (A s) lbuf parsed = map_result A (print_loop s lbuf parsed).
Proof.
  induction parsed as [|c rest IH]; intros s lbuf; cbn [print_loop].
  - apply FLUSH_LBUF_aux.
  - replace (lpp (A s)) with (lpp s) by (destruct s; reflexivity).
    replace (cfg (A s)) with (cfg s) by (destruct s; reflexivity).
    rewrite line_aux.
    destruct (c =? 12).
    + rewrite at_tof_aux, FLUSH_LBUF_aux.
      apply bind_map_result. intro s1. rewrite wrpage_aux. apply IH.
    + assert (Hrest : forall s1 lb,
                (if c =? 10
                 then bind (FLUSH_LBUF (at_tof (A s1)) lb)
                        (fun st2 => print_loop (set_line (u32 (line st2 + 1)) st2) [] rest)
                 else if DIM_lbuf <=? Z.of_nat (List.length lb)
                      then Abort LBUF_OVERRUN (at_tof (A s1))
                      else if 299 <=? Z.of_nat (List.length (lb ++ [c]))
                      then bind (FLUSH_LBUF (at_tof (A s1)) (lb ++ [c]))
                             (fun st3 => print_loop st3 [] rest)
                      else print_loop (at_tof (A s1)) (lb ++ [c]) rest)
                = map_result A
                    (if c =? 10
                     then bind (FLUSH_LBUF (at_tof s1) lb)
                            (fun st2 => print_loop (set_line (u32 (line st2 + 1)) st2) [] rest)
                     else if DIM_lbuf <=? Z.of_nat (List.length lb)
                          then Abort LBUF_OVERRUN (at_tof s1)
                          else if 299 <=? Z.of_nat (List.length (lb ++ [c]))
                          then bind (FLUSH_LBUF (at_tof s1) (lb ++ [c]))
                                 (fun st3 => print_loop st3 [] rest)
                          else print_loop (at_tof s1) (lb ++ [c]) rest)).
      { intros s1 lb. rewrite at_tof_aux. destruct (c =? 10).
        - rewrite FLUSH_LBUF_aux. apply bind_map_result. intro s3.
          rewrite line_aux, set_line_aux. apply IH.
        - destruct (DIM_lbuf <=? Z.of_nat (List.length lb)); [reflexivity|].
          destruct (299 <=? Z.of_nat (List.length (lb ++ [c]))).
          + rewrite FLUSH_LBUF_aux. apply bind_map_result. intro s3. apply IH.
          + apply IH. }
      destruct (u32 (lpp s + tof (cfg s)) <? line s).
      * rewrite FLUSH_LBUF_aux.
        destruct (FLUSH_LBUF s lbuf) as [s1|e s1]; cbn [bind map_result];
          [|reflexivity].
        rewrite wrpage_aux. apply Hrest.
      * cbn [bind]. apply Hrest.
Qed.

End Aux.

(** ** Contexts that differ in what lies beyond the stream position *)


Lemma J_refl s : 0 <= obj s -> J s s.
Proof.
  intro H. constructor; auto using agree_refl. intros i _. reflexivity.
Qed.



Lemma Ok_inj x y : Ok x = Ok y -> x = y.
Proof. intro H. injection H. auto. Qed.

Lemma Abort_inj e1 e2 x y : Abort e1 x = Abort e2 y -> e1 = e2 /\ x = y.
Proof. intro H. injection H. auto. Qed.


Lemma u32_nonneg x : 0 <= u32 x.
Proof. unfold u32. apply Z.mod_pos_bound. reflexivity. Qed.





Lemma obj_tof_swap n l s : obj (tof_swap n l s) = obj s.
Proof.
  destruct (tof_swap_lines n l s) as (L & LS & ->). destruct s; reflexivity.
Qed.

Lemma obj_advance_page s : obj (advance_page s) = obj s.
Proof.
  destruct (advance_page_shape s) as (L & LS & ->). destruct s; reflexivity.
Qed.






















Section Metadata.

Variable env : Env.




End Metadata.

(** ** What printing and closing leave alone *)

Lemma sess_fields a b :
  sess a = sess b ->
  cfg a = cfg b /\ errnum a = errnum b /\ formfile a = formfile b
  /\ prs a = prs b /\ formbuf a = formbuf b /\ formobj a = formobj b
  /\ ap a = ap b /\ anchorpp a = anchorpp b /\ checkpp a = checkpp b
  /\ flags a = flags b /\ lpp a = lpp b /\ pbase a = pbase b
  /\ parsebuf a = parsebuf b.
Proof.
  intro H. destruct a, b. cbv in H. injection H. intros. subst.
  repeat split.
Qed.

Lemma keeps_refl s : keeps s s.
Proof. split; [lia|apply agree_refl]. Qed.

Lemma keeps_trans s1 s2 s3 : keeps s1 s2 -> keeps s2 s3 -> keeps s1 s3.
Proof.
  intros [L1 A1] [L2 A2]. split; [lia|].
  eapply agree_trans; [|exact A1]. eapply agree_le; [|exact A2]. exact L1.
Qed.

Lemma keeps_same_file s s' : pdf s' = pdf s -> keeps s s'.
Proof. intro H. unfold keeps, ftell. rewrite H. split; [lia|apply agree_refl]. Qed.

Lemma keeps_fputs d s : keeps s (fputs d s).
Proof.
  unfold keeps, ftell.
  replace (pdf (fputs d s)) with (fwrite (pdf s) d) by (destruct s; reflexivity).
  split; [cbn; lia|]. apply agree_fwrite_below. lia.
Qed.

Lemma sess_clamp_line s : sess (clamp_line s) = sess s.
Proof. destruct (clamp_line_frame s) as (L & ->). destruct s; reflexivity. Qed.

Lemma sess_advance_page s : sess (advance_page s) = sess s.
Proof. destruct (advance_page_shape s) as (L & LS & ->). destruct s; reflexivity. Qed.

Lemma pdf_advance_page s : pdf (advance_page s) = pdf s.
Proof. destruct (advance_page_shape s) as (L & LS & ->). destruct s; reflexivity. Qed.

Lemma pdf_clamp_line s : pdf (clamp_line s) = pdf s.
Proof. destruct (clamp_line_frame s) as (L & ->). destruct s; reflexivity. Qed.

Lemma sess_emit_page o s : sess (emit_page o s) = sess s.
Proof.
  unfold emit_page. destruct (UNCOMPRESSED (flags s)); [destruct s; reflexivity|].
  destruct (LZW.encstm (pagebuf s)) as [z fail]. destruct s; reflexivity.
Qed.

Lemma keeps_emit_page o s : keeps s (emit_page o s).
Proof.
  unfold emit_page. destruct (UNCOMPRESSED (flags s)); [apply keeps_fputs|].
  destruct (LZW.encstm (pagebuf s)) as [z fail].
  eapply keeps_trans; [|apply keeps_fputs].
  apply keeps_same_file. destruct s; reflexivity.
Qed.

Lemma obj_emit_page o s : obj (emit_page o s) = obj s.
Proof.
  unfold emit_page. destruct (UNCOMPRESSED (flags s)); [destruct s; reflexivity|].
  destruct (LZW.encstm (pagebuf s)) as [z fail]. destruct s; reflexivity.
Qed.

Lemma sess_wrpage s : sess (wrpage s) = sess s.
Proof.
  unfold wrpage. rewrite sess_emit_page, sess_advance_page.
  rewrite <- (sess_clamp_line s). destruct (clamp_line s); reflexivity.
Qed.

Lemma keeps_wrpage s : keeps s (wrpage s).
Proof.
  unfold wrpage. eapply keeps_trans; [|apply keeps_emit_page].
  apply keeps_same_file. rewrite pdf_advance_page.
  rewrite <- (pdf_clamp_line s). destruct (clamp_line s); reflexivity.
Qed.

Lemma obj_wrpage_nonneg s : 0 <= obj (wrpage s).
Proof.
  unfold wrpage. rewrite obj_emit_page, obj_advance_page.
  replace (obj (render_page (addobj (clamp_line s))))
    with (u32 (obj (clamp_line s) + 1)) by (destruct (clamp_line s); reflexivity).
  apply u32_nonneg.
Qed.

Lemma stays_refl s : stays s s.
Proof. constructor; auto using keeps_refl. Qed.

Lemma stays_trans s1 s2 s3 : stays s1 s2 -> stays s2 s3 -> stays s1 s3.
Proof.
  intros [S1 K1 O1 P1] [S2 K2 O2 P2]. constructor; auto.
  - congruence.
  - eapply keeps_trans; eassumption.
Qed.

Lemma page_emit_page o s : page (emit_page o s) = page s.
Proof.
  unfold emit_page. destruct (UNCOMPRESSED (flags s)); [destruct s; reflexivity|].
  destruct (LZW.encstm (pagebuf s)) as [z fail]. destruct s; reflexivity.
Qed.

Lemma page_wrpage_nonneg s : 0 <= page (wrpage s).
Proof.
  unfold wrpage. rewrite page_emit_page.
  match goal with
  | |- context [advance_page ?x] =>
    destruct (advance_page_shape x) as (L & LS & ->)
  end.
  cbn [page set_line set_lines set_page]. apply u32_nonneg.
Qed.

Lemma stays_wrpage s : stays s (wrpage s).
Proof.
  constructor; auto using sess_wrpage, keeps_wrpage.
  - intros _. apply obj_wrpage_nonneg.
  - intros _. apply page_wrpage_nonneg.
Qed.

Lemma stays_at_tof s : stays s (at_tof s).
Proof.
  unfold at_tof. destruct (line s =? 0); [|apply stays_refl].
  constructor; [destruct s; reflexivity|apply keeps_same_file; destruct s; reflexivity| |];
    destruct s; auto.
Qed.

Lemma stays_set_line v s : stays s (set_line v s).
Proof.
  constructor; [destruct s; reflexivity|apply keeps_same_file; destruct s; reflexivity| |];
    destruct s; auto.
Qed.

Lemma stays_FLUSH_LBUF s t : stays s (state_of (FLUSH_LBUF s t)).
Proof.
  destruct t as [|c t]; [apply stays_refl|]. cbn [FLUSH_LBUF]. unfold add2line.
  destruct (line s <=? 0); [apply stays_refl|]. cbn [state_of].
  constructor; [destruct s; reflexivity|apply keeps_same_file; destruct s; reflexivity| |];
    destruct s; auto.
Qed.

Lemma stays_bind s r (k : PDF -> result) :
  stays s (state_of r) ->
  (forall s1, stays s1 (state_of (k s1))) ->
  stays s (state_of (bind r k)).
Proof.
  intros H Hk. destruct r as [s1|e s1]; cbn in *; [|exact H].
  eapply stays_trans; [exact H|apply Hk].
Qed.

Lemma stays_print_loop parsed : forall s lbuf,
  stays s (state_of (print_loop s lbuf parsed)).
Proof.
  induction parsed as [|c rest IH]; intros s lbuf; cbn [print_loop].
  - apply stays_FLUSH_LBUF.
  - destruct (c =? 12).
    + apply stays_bind.
      * eapply stays_trans; [apply stays_at_tof|apply stays_FLUSH_LBUF].
      * intro s1. eapply stays_trans; [apply stays_wrpage|apply IH].
    + apply stays_bind.
      * destruct (u32 (lpp s + tof (cfg s)) <? line s); [|apply stays_refl].
        apply stays_bind; [apply stays_FLUSH_LBUF|].
        intro s1. apply stays_wrpage.
      * intro s1. destruct (c =? 10).
        -- apply stays_bind.
           ++ eapply stays_trans; [apply stays_at_tof|apply stays_FLUSH_LBUF].
           ++ intro s2. eapply stays_trans; [apply stays_set_line|apply IH].
        -- match goal with
           | |- context [DIM_lbuf <=? ?n] => destruct (DIM_lbuf <=? n)
           end; [apply stays_at_tof|].
           match goal with
           | |- context [299 <=? ?n] => destruct (299 <=? n)
           end.
           ++ apply stays_bind.
              ** eapply stays_trans; [apply stays_at_tof|apply stays_FLUSH_LBUF].
              ** intro s2. apply IH.
           ++ eapply stays_trans; [apply stays_at_tof|apply IH].
Qed.

(** ** What the closing sequence leaves alone *)


















Section Closing.

Variable env : Env.



End Closing.

(** ** The width of [%u] *)

Lemma of_uint_acc_lower d : forall acc,
  Zpos acc * 10 ^ Z.of_nat (Decimal.nb_digits d) <= Zpos (Pos.of_uint_acc d acc).
Proof.
  induction d as [|d IH|d IH|d IH|d IH|d IH|d IH|d IH|d IH|d IH|d IH];
    intro acc; cbn [Pos.of_uint_acc Decimal.nb_digits];
    [rewrite Z.pow_0_r; lia| ..];
    rewrite Nat2Z.inj_succ, Z.pow_succ_r by lia;
    (etransitivity; [|apply IH]);
    assert (0 <= 10 ^ Z.of_nat (Decimal.nb_digits d)) by (apply Z.pow_nonneg; lia);
    nia.
Qed.

Lemma length_str s : List.length (str s) = String.length s.
Proof.
  unfold str. rewrite length_map.
  induction s as [|a s IH]; cbn; [reflexivity|]. rewrite IH. reflexivity.
Qed.

Lemma length_string_of_uint d :
  String.length (NilEmpty.string_of_uint d) = Decimal.nb_digits d.
Proof. induction d; cbn; congruence. Qed.

Lemma unorm_fixed_head d :
  Decimal.unorm d = d -> d <> Decimal.Nil -> d <> Decimal.zero ->
  match d with Decimal.D0 _ => False | _ => True end.
Proof.
  intros Hu Hn Hz. destruct d as [|l| | | | | | | | | ]; try exact I.
  unfold Decimal.unorm in Hu. cbn [Decimal.nzhead] in Hu.
  pose proof (DecimalFacts.nb_digits_nzhead l) as Hl.
  destruct (Decimal.nzhead l) eqn:E;
    try (rewrite Hu in Hl; cbn [Decimal.nb_digits] in Hl; lia).
  injection Hu as <-. apply Hz. reflexivity.
Qed.

Lemma nb_digits_to_uint p k :
  Zpos p < 10 ^ Z.of_nat k -> (Decimal.nb_digits (Pos.to_uint p) <= k)%nat.
Proof.
  intro Hp.
  pose proof (DecimalPos.Unsigned.of_to p) as Hof.
  pose proof (DecimalPos.Unsigned.to_of (Pos.to_uint p)) as Hto.
  rewrite Hof in Hto. cbn [N.to_uint] in Hto.
  pose proof (unorm_fixed_head _ (eq_sym Hto)
                (DecimalPos.Unsigned.to_uint_nonnil p)
                (DecimalPos.Unsigned.to_uint_nonzero p)) as Hh.
  destruct (Pos.to_uint p) as [|l|l|l|l|l|l|l|l|l|l]; try contradiction;
    [cbn; lia| ..];
    cbn [Pos.of_uint] in Hof; injection Hof as Hof;
    match type of Hof with
    | Pos.of_uint_acc _ ?a = _ => pose proof (of_uint_acc_lower l a) as Hlow
    end;
    rewrite Hof in Hlow; cbn [Decimal.nb_digits];
    destruct (Nat.lt_ge_cases (Decimal.nb_digits l) k) as [|Hge]; try lia;
    assert (10 ^ Z.of_nat k <= 10 ^ Z.of_nat (Decimal.nb_digits l))
      by (apply Z.pow_le_mono_r; lia);
    lia.
Qed.

(** A number below [10 ^ k] prints in at most [k] digits. *)
Lemma length_fmt_u n k :
  (0 < k)%nat -> 0 <= n < 10 ^ Z.of_nat k -> (List.length (fmt_u n) <= k)%nat.
Proof.
  intros Hk Hn. unfold fmt_u. rewrite length_str.
  destruct n as [|p|p]; [cbn; lia| |lia].
  cbn [Z.to_N N.to_uint].
  pose proof (nb_digits_to_uint p k (proj2 Hn)) as Hd.
  pose proof (DecimalPos.Unsigned.to_uint_nonnil p) as Hnn.
  unfold NilZero.string_of_uint.
  destruct (Pos.to_uint p) eqn:E; try contradiction;
    rewrite length_string_of_uint; exact Hd.
Qed.

Lemma length_fmt_u0 w n :
  (0 < w)%nat -> 0 <= n < 10 ^ Z.of_nat w -> List.length (fmt_u0 w n) = w.
Proof.
  intros Hw Hn. unfold fmt_u0. rewrite length_app, repeat_length.
  pose proof (length_fmt_u n w Hw Hn). lia.
Qed.

(** ** The geometry check *)

Lemma geometry_eq s :
  geometry s = if geom_bad (cfg s) then Abort PDF_E_INCON_GEO (geom_set s)
               else Ok (geom_set s).
Proof.
  unfold geometry, geom_bad, geom_set, geom_lpp. cbv zeta.
  fold (geom_tof (cfg s)).
  destruct (trunc (len (cfg s)) <? 2); [reflexivity|].
  destruct (trunc (printable_width (cfg s)) <? 3); [reflexivity|].
  destruct (trunc (printable_width (cfg s)) <? trunc (Qz (cols (cfg s)) / cpi (cfg s)));
    [reflexivity|].
  destruct (Qlt_bool (len (cfg s) * Qz (lpi (cfg s))) 4); [reflexivity|].
  destruct (Qlt_bool (len (cfg s) * Qz (lpi (cfg s))) (Qz (geom_tof (cfg s))));
    [reflexivity|].
  destruct (negb (formtype (cfg s) =? PDF_JPEG)
            && Qlt_bool (barh (cfg s)) (1 / Qz (lpi (cfg s)))); reflexivity.
Qed.


Lemma geom_tof_idem c : geom_tof (with_tof (geom_tof c) c) = geom_tof c.
Proof.
  unfold geom_tof.
  replace (tof (with_tof (if tof c =? u32 (-2)
                          then u32 (trunc (top c * Qz (lpi c))) else tof c) c))
    with (if tof c =? u32 (-2) then u32 (trunc (top c * Qz (lpi c))) else tof c)
    by (destruct c; reflexivity).
  replace (top (with_tof (if tof c =? u32 (-2)
                          then u32 (trunc (top c * Qz (lpi c))) else tof c) c))
    with (top c) by (destruct c; reflexivity).
  replace (lpi (with_tof (if tof c =? u32 (-2)
                          then u32 (trunc (top c * Qz (lpi c))) else tof c) c))
    with (lpi c) by (destruct c; reflexivity).
  destruct (tof c =? u32 (-2)) eqn:E.
  - destruct (u32 (trunc (top c * Qz (lpi c))) =? u32 (-2)) eqn:E2; [reflexivity|].
    reflexivity.
  - rewrite E. reflexivity.
Qed.

Lemma geom_bad_with_tof c :
  geom_bad (with_tof (geom_tof c) c) = geom_bad c.
Proof.
  unfold geom_bad. rewrite geom_tof_idem. destruct c; reflexivity.
Qed.

Lemma geometry_settles s s' : geometry s = Ok s' -> s' = geom_set s /\ settled s'.
Proof.
  rewrite geometry_eq. destruct (geom_bad (cfg s)) eqn:Hb; [discriminate|].
  intro H. apply Ok_inj in H. subst s'. split; [reflexivity|].
  unfold settled, geom_set.
  replace (cfg (set_cfg (with_tof (geom_tof (cfg s)) (cfg s))
                        (set_lpp (geom_lpp (cfg s)) s)))
    with (with_tof (geom_tof (cfg s)) (cfg s)) by (destruct s; reflexivity).
  replace (lpp (set_cfg (with_tof (geom_tof (cfg s)) (cfg s))
                        (set_lpp (geom_lpp (cfg s)) s)))
    with (geom_lpp (cfg s)) by (destruct s; reflexivity).
  rewrite geom_bad_with_tof, geom_tof_idem.
  repeat split; try exact Hb; destruct (cfg s); reflexivity.
Qed.

(** ** Sessions, checkpoints and resumption *)

(** *** The invariant under changes of single fields *)

Lemma Inv_sess b b' :
  Inv b -> sess b' = sess b -> keeps b b' ->
  0 <= obj b' -> 0 <= page b' -> Inv b'.
Proof.
  intros [Ha Hi Hw Hr Hg Hf Hc Hp Hpos Ho Hpg Han] E Kp Ho' Hpg'.
  destruct (sess_fields _ _ E)
    as (Ecfg & Eerr & Eff & Eprs & Efb & Efo & Eap & Eanc & Echk & Efl & Elpp
        & Epb & Eparse).
  destruct Kp as [Kl Ka].
  constructor; try congruence.
  - unfold settled in *. rewrite Ecfg, Elpp. exact Hg.
  - lia.
  - unfold anchor_written in *. rewrite Efl, Eap, Eanc.
    destruct (UPDATING (flags b)); [|exact Han].
    destruct Han as (n & q & G & Hn & Hpp & Hle & Hb).
    exists n, q. repeat split; auto; [lia|].
    intros i Hlt. rewrite Ka by lia. apply Hb. exact Hlt.
Qed.

Lemma Inv_stays b b' : Inv b -> stays b b' -> Inv b'.
Proof.
  intros HI [S Kp O P]. apply (Inv_sess b); auto.
  - apply O. apply (I_obj _ HI).
  - apply P. apply (I_page _ HI).
Qed.

Lemma Inv_set_errnum e b : Inv b -> Inv (set_errnum e b).
Proof.
  intros [Ha Hi Hw Hr Hg Hf Hc Hp Hpos Ho Hpg Han].
  destruct b. constructor; assumption.
Qed.

(** The parser changes the hash input, its own state and the parse
    buffer. *)
Lemma parsestr_eq s w i :
  let p := parse_bytes (mkParse (prs s) (newlpi (cfg s)) i 0 (parsebuf s)) w in
  parsestr s w i
  = (p_ffseen p,
     set_parsebuf (p_buf p) (set_prs (p_esc p) (set_sha1 (sha1 s ++ w) s))).
Proof.
  cbv zeta. unfold parsestr. cbv zeta.
  replace (prs (set_sha1 (sha1 s ++ w) s)) with (prs s) by (destruct s; reflexivity).
  replace (cfg (set_sha1 (sha1 s ++ w) s)) with (cfg s) by (destruct s; reflexivity).
  replace (parsebuf (set_sha1 (sha1 s ++ w) s)) with (parsebuf s)
    by (destruct s; reflexivity).
  rewrite parse_bytes_newlpi. cbn [p_newlpi].
  generalize (parse_bytes (mkParse (prs s) (newlpi (cfg s)) i 0 (parsebuf s)) w).
  intro p. f_equal. destruct s as [c]; destruct c; reflexivity.
Qed.

Lemma parsestr_parsed s w i :
  exists fe,
    set_parsebuf [] (snd (parsestr s w i))
    = set_parsebuf [] (aux (fun c => c) (fun h => h ++ w) (fun _ => fe) s).
Proof.
  rewrite parsestr_eq. cbn [snd].
  generalize (parse_bytes (mkParse (prs s) (newlpi (cfg s)) i 0 (parsebuf s)) w).
  intro p. exists (p_esc p). destruct s; reflexivity.
Qed.

Lemma Inv_aux fh fe b :
  Inv b -> Inv (set_parsebuf [] (aux (fun c => c) fh fe b)).
Proof.
  intros [Ha Hi Hw Hr Hg Hf Hc Hp Hpos Ho Hpg Han].
  destruct b. constructor; try assumption. reflexivity.
Qed.

Lemma Ready_aux fh fe b :
  Ready b -> Ready (set_parsebuf [] (aux (fun c => c) fh fe b)).
Proof.
  intros [Ha Hi Hw Hr Hg Hc Hp Hpb Ho Hpg].
  destruct b. constructor; try assumption. reflexivity.
Qed.

(** *** The checkpoint *)





Section Checkpoint.

Variable env : Env.




End Checkpoint.

(** *** Resumption *)

Lemma wrhdr_new s :
  UPDATING (flags s) = false ->
  wrhdr s = Ok (set_flags (flag_WRITTEN true
                             (flags (if (checkpp s =? 0)%nat
                                     then fputs pdf_header s else s)))
                  (if (checkpp s =? 0)%nat then fputs pdf_header s else s)).
Proof. intro H. unfold wrhdr. rewrite H. reflexivity. Qed.

Lemma wrhdr_updating s n q :
  UPDATING (flags s) = true ->
  getint (trail (ap s)) (str "/Count") = Some (n, q) ->
  prevpc (ap s) = n ->
  wrhdr s
  = Ok (let s5 :=
          fputs (anchor_tail (ap s) q)
            (set_anchorpp (anchorp (ap s) + List.length (anchor_head (ap s) q))
               (fputs (anchor_head (ap s) q)
                  (fseek (anchorp (ap s))
                     (set_flags (flag_WRITTEN true (flags s)) s)))) in
        if negb (checkpp s =? 0)%nat then fseek (checkpp s) s5 else s5).
Proof.
  intros Hu Hg Hn. unfold wrhdr. rewrite Hu. cbn [negb]. rewrite Hg.
  rewrite Hn, Z.eqb_refl. cbn [negb]. destruct s; reflexivity.
Qed.

Lemma wrhdr_abort s e s' : wrhdr s = Abort e s' -> s' = s.
Proof.
  unfold wrhdr. destruct (negb (UPDATING (flags s))); [discriminate|].
  destruct (getint (trail (ap s)) (str "/Count")) as [[n q]|].
  - destruct (negb (prevpc (ap s) =? n)); [|discriminate].
    intro H. apply Abort_inj in H. symmetry. apply H.
  - intro H. apply Abort_inj in H. symmetry. apply H.
Qed.


Lemma length_anchor_tail a q : (10 <= List.length (anchor_tail a q))%nat.
Proof. unfold anchor_tail. rewrite length_app, repeat_length. lia. Qed.

(** The anchor rewritten over a file that already holds it. *)
Lemma nth_anchor_rewritten d ap0 hd tl i :
  nth i (fdata (fwrite (fwrite (mkFile d ap0) hd) tl)) 0
  = if (i <? ap0)%nat then nth i d 0
    else if (i <? ap0 + List.length (hd ++ tl))%nat
         then nth (i - ap0) (hd ++ tl) 0
         else nth i d 0.
Proof.
  rewrite !nth_fwrite. cbn [fpos fdata fwrite]. rewrite length_app.
  destruct (Nat.ltb_spec i ap0).
  - destruct (Nat.ltb_spec i (ap0 + List.length hd)); [reflexivity|lia].
  - destruct (Nat.ltb_spec i (ap0 + List.length hd)).
    + destruct (Nat.ltb_spec i (ap0 + (List.length hd + List.length tl))); [|lia].
      rewrite app_nth1 by lia. reflexivity.
    + destruct (Nat.ltb_spec i (ap0 + List.length hd + List.length tl)).
      * destruct (Nat.ltb_spec i (ap0 + (List.length hd + List.length tl))); [|lia].
        rewrite app_nth2 by lia. f_equal. lia.
      * destruct (Nat.ltb_spec i (ap0 + (List.length hd + List.length tl))); [lia|].
        reflexivity.
Qed.

Section Resume.

Variable env : Env.



End Resume.

(** *** Printing, on both sides of a checkpoint *)



Lemma Inv_settle r : Inv (state_of r) -> Inv (settle r).
Proof. destruct r; cbn; [auto|apply Inv_set_errnum]. Qed.


Lemma fst_print_parsed s parsed :
  fst (print_parsed s parsed)
  = if negb (is_ok (errnum s)) then Ok (set_parsebuf [] s)
    else match parsed with
         | [] => Ok (set_parsebuf [] s)
         | _ => print_loop (set_parsebuf [] s) [] parsed
         end.
Proof.
  unfold print_parsed. cbv zeta.
  replace (errnum (set_parsebuf [] s)) with (errnum s) by (destruct s; reflexivity).
  destruct (negb (is_ok (errnum s))); [reflexivity|].
  destruct parsed as [|c rest]; [reflexivity|].
  destruct (print_loop (set_parsebuf [] s) [] (c :: rest)); reflexivity.
Qed.


Lemma print_parsed_Inv parsed s :
  Inv (set_parsebuf [] s) -> Inv (state_of (fst (print_parsed s parsed))).
Proof.
  intro H. rewrite fst_print_parsed.
  destruct (negb (is_ok (errnum s))); [exact H|].
  destruct parsed as [|c rest]; [exact H|].
  eapply Inv_stays; [exact H|apply stays_print_loop].
Qed.


Section Printing.

Variable env : Env.

Lemma pdf_print_settle s w :
  snd (pdf_print env (Some s) w) = Some (settle (fst (print_body env s w))).
Proof.
  unfold pdf_print. destruct (print_body env s w) as [[s'|e s'] r]; reflexivity.
Qed.

(** A print on a context that has written. *)
Lemma print_written b w :
  WRITTEN (flags b) = true ->
  fst (print_body env b w)
  = fst (print_parsed (snd (parsestr b w false))
                      (parsebuf (snd (parsestr b w false)))).
Proof.
  intro Hw. unfold print_body. rewrite Hw. cbn [negb].
  destruct (parsestr b w false). reflexivity.
Qed.

Lemma Inv_parsed b w i :
  Inv b -> Inv (set_parsebuf [] (snd (parsestr b w i))).
Proof.
  intro H. destruct (parsestr_parsed b w i) as (fe & ->). apply Inv_aux, H.
Qed.

Lemma print_written_Inv b w :
  Inv b -> Inv (settle (fst (print_body env b w))).
Proof.
  intro H. rewrite print_written by apply (I_written _ H).
  apply Inv_settle, print_parsed_Inv, Inv_parsed, H.
Qed.

End Printing.





Lemma parsebuf_cleared s : parsebuf s = [] -> set_parsebuf [] s = s.
Proof. intro E. destruct s. cbn in E. rewrite E. reflexivity. Qed.


Section Second.

Variable env : Env.



(** *** Closing *)




End Second.

(** *** The first print of a session *)

Lemma session_Opened c nolzw e ff content : Opened (session c nolzw e ff content).
Proof. constructor; cbn; try reflexivity; lia. Qed.


Lemma length_pdf_header : List.length pdf_header = 23%nat.
Proof. reflexivity. Qed.

Lemma wrhdr_Ready s s1 :
  Ready s -> wrhdr s = Ok s1 ->
  INIT (flags s1) = true
  /\ formbuf s1 = formbuf s
  /\ forall X, X <> [] -> Inv (set_formbuf X s1).
Proof.
  intros [Ha Hi Hw Hr Hg Hc Hp Hpb Ho Hpg] H.
  destruct (UPDATING (flags s)) eqn:Hu.
  - unfold wrhdr in H. rewrite Hu in H. cbn [negb] in H.
    destruct (getint (trail (ap s)) (str "/Count")) as [[n q]|] eqn:Hg1;
      [|discriminate].
    destruct (Z.eqb_spec (prevpc (ap s)) n) as [Hn|Hn]; [|discriminate].
    clear H0 || idtac.
    pose proof (wrhdr_updating s n q Hu Hg1 Hn) as E.
    unfold wrhdr in E. rewrite Hu, Hg1 in E. cbn [negb] in E.
    destruct (Z.eqb_spec (prevpc (ap s)) n) as [_|Hn']; [|contradiction].
    cbn [negb] in E. rewrite E in H. clear E. cbv zeta in H.
    rewrite Hc in H. cbn [Nat.eqb negb] in H. apply Ok_inj in H. subst s1.
    split; [destruct s as [? ? ? ? ? ? ? ? ? ? ? ? fl]; destruct fl; exact Hi|].
    split; [destruct s; reflexivity|].
    intros X HX.
    assert (Hd : forall i,
      nth i (fdata (pdf (set_formbuf X
               (fputs (anchor_tail (ap s) q)
                  (set_anchorpp (anchorp (ap s) + List.length (anchor_head (ap s) q))
                     (fputs (anchor_head (ap s) q)
                        (fseek (anchorp (ap s))
                           (set_flags (flag_WRITTEN true (flags s)) s)))))))) 0
      = nth i (fdata (fwrite (fwrite (mkFile (fdata (pdf s)) (anchorp (ap s)))
                                (anchor_head (ap s) q))
                        (anchor_tail (ap s) q))) 0)
      by (intro i; destruct s; reflexivity).
    assert (Hpos' :
      ftell (set_formbuf X
               (fputs (anchor_tail (ap s) q)
                  (set_anchorpp (anchorp (ap s) + List.length (anchor_head (ap s) q))
                     (fputs (anchor_head (ap s) q)
                        (fseek (anchorp (ap s))
                           (set_flags (flag_WRITTEN true (flags s)) s))))))
      = (anchorp (ap s) + List.length (anchor_head (ap s) q)
         + List.length (anchor_tail (ap s) q))%nat)
      by (destruct s; reflexivity).
    constructor;
      try (destruct s as [? ? ? ? ? ? ? ? ? ? ? ? fl]; destruct fl; cbn in *;
           solve [assumption | reflexivity]).
    + pose proof (length_anchor_tail (ap s) q) as Lt. rewrite Hpos'. lia.
    + unfold anchor_written.
      replace (UPDATING (flags _)) with true
        by (destruct s as [? ? ? ? ? ? ? ? ? ? ? ? fl]; destruct fl; cbn in *;
            congruence).
      exists n, q.
      split; [destruct s; exact Hg1|].
      split; [destruct s; exact Hn|].
      split; [destruct s; reflexivity|].
      split.
      { rewrite Hpos', length_app.
        replace (ap (set_formbuf X _)) with (ap s) by (destruct s; reflexivity).
        lia. }
      replace (ap (set_formbuf X _)) with (ap s) by (destruct s; reflexivity).
      intros i Hi'. rewrite Hd, nth_anchor_rewritten.
      destruct (Nat.ltb_spec (anchorp (ap s) + i) (anchorp (ap s))); [lia|].
      destruct (Nat.ltb_spec (anchorp (ap s) + i)
                  (anchorp (ap s)
                   + List.length (anchor_head (ap s) q ++ anchor_tail (ap s) q)));
        [|lia].
      f_equal. lia.
  - rewrite (wrhdr_new s Hu) in H. rewrite Hc in H. cbn [Nat.eqb] in H.
    apply Ok_inj in H. subst s1.
    split; [destruct s as [? ? ? ? ? ? ? ? ? ? ? ? fl]; destruct fl; exact Hi|].
    split; [destruct s; reflexivity|].
    intros X HX.
    constructor;
      try (destruct s as [? ? ? ? ? ? ? ? ? ? ? ? fl]; destruct fl; cbn in *;
           solve [assumption | reflexivity]).
    + replace (ftell _) with (fpos (pdf s) + List.length pdf_header)%nat
        by (destruct s; reflexivity).
      rewrite length_pdf_header. lia.
    + unfold anchor_written.
      replace (UPDATING (flags _)) with false
        by (destruct s as [? ? ? ? ? ? ? ? ? ? ? ? fl]; destruct fl; cbn in *;
            congruence).
      destruct s; exact Hp.
Qed.


Lemma init_frame_rebuild a b :
  init_frame a = init_frame b ->
  a = set_pdf (pdf a) (set_sha1 (sha1 a) (set_pbase (pbase a) (set_obj (obj a)
        (set_xref (xref a) (set_ap (ap a)
           (set_flags (flag_UPDATING (UPDATING (flags a)) (flags b)) b)))))).
Proof.
  intro H. destruct a as [? ? ? ? ? ? ? ? ? ? ? ? fa], b as [? ? ? ? ? ? ? ? ? ? ? ? fb].
  destruct fa, fb. cbv in H. injection H. intros. subst. reflexivity.
Qed.

Section First.

Variable env : Env.



(** [pdfinit] and [checkupdate] set the file, the hash input, the base
    object, the object count and table, what is known of the earlier
    session, and the update flag. *)
Lemma pdfinit_frame s :
  init_frame (state_of (pdfinit env s)) = init_frame s.
Proof.
  unfold pdfinit, checkupdate, store_scan. cbv zeta.
  repeat match goal with
         | |- context [if ?c then _ else _] => destruct c
         | |- context [match frequire ?c with _ => _ end] => destruct (frequire c)
         | |- context [match sc_ret ?c with _ => _ end] => destruct (sc_ret c)
         end;
    cbn [state_of]; destruct s as [? ? ? ? ? ? ? ? ? ? ? ? fl]; destruct fl;
    reflexivity.
Qed.

Lemma pdfinit_obj s s' : pdfinit env s = Ok s' -> 0 <= obj s -> 0 <= obj s'.
Proof.
  unfold pdfinit, checkupdate, store_scan. cbv zeta.
  repeat match goal with
         | |- context [if ?c then _ else _] => destruct c
         | |- context [match frequire ?c with _ => _ end] => destruct (frequire c)
         | |- context [match sc_ret ?c with _ => _ end] => destruct (sc_ret c)
         end;
    try discriminate; intros E H; apply Ok_inj in E; subst s';
    try (destruct s; exact H); destruct s; apply u32_nonneg.
Qed.

Lemma pdfinit_shape s :
  exists p h pb o x a u,
    state_of (pdfinit env s)
    = set_pdf p (set_sha1 h (set_pbase pb (set_obj o (set_xref x (set_ap a
        (set_flags (flag_UPDATING u (flags s)) s))))))
    /\ (forall s', pdfinit env s = Ok s' -> 0 <= obj s -> 0 <= o).
Proof.
  pose proof (pdfinit_frame s) as E.
  exists (pdf (state_of (pdfinit env s))), (sha1 (state_of (pdfinit env s))),
    (pbase (state_of (pdfinit env s))), (obj (state_of (pdfinit env s))),
    (xref (state_of (pdfinit env s))), (ap (state_of (pdfinit env s))),
    (UPDATING (flags (state_of (pdfinit env s)))).
  split; [apply init_frame_rebuild; exact E|].
  intros s' H. rewrite H. cbn [state_of]. apply (pdfinit_obj _ _ H).
Qed.



End First.

(** *** The checkpoint leaves no trace in the pages *)




(** ** The form feed at the head of the input *)

Lemma land_255_byte b : 0 <= b < 256 -> Z.land 255 b = b.
Proof.
  intro H. rewrite Z.land_comm. change 255 with (Z.ones 8).
  rewrite Z.land_ones by lia. apply Z.mod_small. exact H.
Qed.

Lemma parse_byte_cr p :
  p_initial p = true -> p_ffseen p = 0 -> parse_byte p 13 = p.
Proof.
  intros Hi Hf. destruct p as [e nl i f buf]. cbn in Hi, Hf. subst.
  unfold parse_byte. cbn [p_esc p_newlpi p_initial p_ffseen p_buf].
  change (Z.land 255 13) with 13. cbv zeta.
  destruct (escstate e); reflexivity.
Qed.

Lemma parse_bytes_crs n p :
  p_initial p = true -> p_ffseen p = 0 -> parse_bytes p (repeat 13 n) = p.
Proof.
  intros Hi Hf. induction n as [|n IH]; [reflexivity|].
  cbn [repeat]. unfold parse_bytes in *. cbn [fold_left].
  rewrite parse_byte_cr by assumption. exact IH.
Qed.

Lemma parse_byte_ff p :
  p_initial p = true -> p_ffseen p = 0 -> parse_byte p 12 = set_ffseen 1 p.
Proof.
  intros Hi Hf. destruct p as [e nl i f buf]. cbn in Hi, Hf. subst.
  unfold parse_byte. cbn [p_esc p_newlpi p_initial p_ffseen p_buf].
  change (Z.land 255 12) with 12. cbv zeta.
  destruct (escstate e); reflexivity.
Qed.

Ltac decide_eqb :=
  repeat match goal with
         | |- context [?x =? ?k] => destruct (Z.eqb_spec x k); [lia|]
         end.

Lemma parse_byte_stored p b :
  stored_byte b -> escstate (p_esc p) = ESC_IDLE ->
  parse_byte p b
  = mkParse (p_esc p) (p_newlpi p) false (p_ffseen p) (p_buf p ++ [b]).
Proof.
  intros Hb He. destruct p as [e nl i f buf].
  cbn [p_esc p_newlpi p_initial p_ffseen p_buf] in *.
  unfold parse_byte. cbn [p_esc p_newlpi p_initial p_ffseen p_buf].
  rewrite land_255_byte by (destruct Hb; lia). rewrite He. cbv zeta.
  destruct Hb as [Hb| ->]; [|reflexivity].
  decide_eqb. cbn [orb].
  unfold sequences. rewrite He.
  destruct (Z.ltb_spec b 32); [lia|].
  destruct (Z.leb_spec 127 b); [lia|]. reflexivity.
Qed.

Lemma parse_byte_later f p b :
  p_initial p = false ->
  parse_byte (set_ffseen f p) b = set_ffseen f (parse_byte p b)
  /\ p_initial (parse_byte p b) = false.
Proof.
  intro Hi. destruct p as [e nl i f0 buf]. cbn in Hi. subst.
  unfold parse_byte, set_ffseen, finish.
  cbn [p_esc p_newlpi p_initial p_ffseen p_buf andb]. cbv zeta.
  repeat match goal with
         | |- context [if ?c then _ else _] => destruct c
         end;
    try (split; reflexivity);
    destruct (sequences _ _ _) as [[e' nl'] []]; split; reflexivity.
Qed.

Lemma parse_bytes_later R : forall f p,
  p_initial p = false ->
  parse_bytes (set_ffseen f p) R = set_ffseen f (parse_bytes p R).
Proof.
  unfold parse_bytes.
  induction R as [|b R IH]; intros f p Hi; [reflexivity|].
  cbn [fold_left]. destruct (parse_byte_later f p b Hi) as [E Hi'].
  rewrite E. apply IH. exact Hi'.
Qed.

Lemma parse_byte_buf p b : exists t, p_buf (parse_byte p b) = p_buf p ++ t.
Proof.
  unfold parse_byte, finish. cbv zeta.
  repeat match goal with
         | |- context [if ?c then _ else _] => destruct c
         end;
    try (exists []; cbn [p_buf]; rewrite app_nil_r; reflexivity);
    try (eexists; cbn [p_buf]; reflexivity);
    destruct (sequences _ _ _) as [[e' nl'] []];
    (exists []; cbn [p_buf]; rewrite app_nil_r; reflexivity)
    || (eexists; cbn [p_buf]; reflexivity).
Qed.

Lemma parse_bytes_buf R : forall p,
  exists t, p_buf (parse_bytes p R) = p_buf p ++ t.
Proof.
  unfold parse_bytes.
  induction R as [|b R IH]; intro p; [exists []; rewrite app_nil_r; reflexivity|].
  cbn [fold_left]. destruct (IH (parse_byte p b)) as (t & ->).
  destruct (parse_byte_buf p b) as (t' & ->).
  exists (t' ++ t). rewrite app_assoc. reflexivity.
Qed.

(** The parse of a stream with the prefix is the parse of the stream
    without it, but for the count of form feeds seen. *)
Lemma parse_prefix n b R p :
  p_initial p = true -> p_ffseen p = 0 -> escstate (p_esc p) = ESC_IDLE ->
  stored_byte b ->
  parse_bytes p (repeat 13 n ++ 12 :: b :: R)
  = set_ffseen 1 (parse_bytes p (b :: R))
  /\ p_buf (parse_bytes p (b :: R)) <> [].
Proof.
  intros Hi Hf He Hb. unfold parse_bytes. rewrite fold_left_app.
  fold (parse_bytes p (repeat 13 n)). rewrite parse_bytes_crs by assumption.
  cbn [fold_left]. rewrite parse_byte_ff by assumption.
  rewrite (parse_byte_stored (set_ffseen 1 p) b Hb)
    by (destruct p; exact He).
  rewrite (parse_byte_stored p b Hb He).
  cbn [set_ffseen p_esc p_newlpi p_initial p_ffseen p_buf]. rewrite Hf.
  fold (parse_bytes (mkParse (p_esc p) (p_newlpi p) false 1 (p_buf p ++ [b])) R).
  fold (parse_bytes (mkParse (p_esc p) (p_newlpi p) false 0 (p_buf p ++ [b])) R).
  split.
  - apply (parse_bytes_later R 1
             (mkParse (p_esc p) (p_newlpi p) false 0 (p_buf p ++ [b]))).
    reflexivity.
  - destruct (parse_bytes_buf R
                (mkParse (p_esc p) (p_newlpi p) false 0 (p_buf p ++ [b])))
      as (t & ->).
    cbn [p_buf]. destruct (p_buf p); discriminate.
Qed.

(** *** The first print, in its two halves *)

Section FirstPrint.

Variable env : Env.

Lemma print_body_first st s :
  WRITTEN (flags st) = false ->
  print_body env st s
  = match print_init env st with
    | Abort e st1 => (Abort e st1, e)
    | Ok st3 => print_rest env st3 s
    end.
Proof.
  intro Hw. unfold print_body, print_init, print_rest. rewrite Hw. cbn [negb].
  destruct (geometry st) as [st1|e st1]; [|reflexivity]. cbv zeta.
  destruct (negb (INIT (flags (set_flags (flag_ACTIVE true (flags st1)) st1))));
    [|reflexivity].
  destruct (pdfinit env (set_flags (flag_ACTIVE true (flags st1)) st1));
    reflexivity.
Qed.

Lemma print_init_Ready s s3 :
  Opened s -> print_init env s = Ok s3 -> Ready s3 /\ prs s3 = prs s.
Proof.
  intros [Hw Hi Hr Hc Ha Hpb Ho Hpg]. unfold print_init.
  rewrite geometry_eq. destruct (geom_bad (cfg s)) eqn:Hb; [discriminate|].
  cbv zeta.
  assert (Hs : settled (geom_set s)).
  { apply (geometry_settles s). rewrite geometry_eq, Hb. reflexivity. }
  set (s2 := set_flags (flag_ACTIVE true (flags (geom_set s))) (geom_set s)).
  replace (INIT (flags s2)) with false
    by (unfold s2; destruct s as [? ? ? ? ? ? ? ? ? ? ? ? fl]; destruct fl;
        cbn in *; congruence).
  cbn [negb].
  destruct (pdfinit_shape env s2) as (p & h & pb & o & x & a & u & E & Hobj).
  destruct (pdfinit env s2) as [s3'|e s3'] eqn:Hp2; cbn [state_of] in E;
    cbn [bind]; [|discriminate].
  intro H. apply Ok_inj in H. subst s3.
  specialize (Hobj s3' eq_refl). rewrite E. unfold s2.
  unfold settled in Hs.
  destruct s as [? ? ? ? ? ? ? ? ? ? ? ? fl]; destruct fl.
  split; [|reflexivity].
  constructor; cbn in *; try assumption; try reflexivity.
  apply Hobj. exact Ho.
Qed.

(** *** What does not depend on the hash input *)

Lemma checkpp_anchor a b c d e s :
  checkpp (fputs a (set_anchorpp b (fputs c (fseek d (set_flags e s)))))
  = checkpp s.
Proof. destruct s; reflexivity. Qed.

Lemma wrhdr_sha h s : wrhdr (set_sha1 h s) = map_result (set_sha1 h) (wrhdr s).
Proof.
  unfold wrhdr.
  replace (flags (set_sha1 h s)) with (flags s) by (destruct s; reflexivity).
  replace (ap (set_sha1 h s)) with (ap s) by (destruct s; reflexivity).
  replace (checkpp (set_sha1 h s)) with (checkpp s) by (destruct s; reflexivity).
  destruct (negb (UPDATING (flags s))).
  - destruct (checkpp s =? 0)%nat; destruct s; reflexivity.
  - destruct (getint (trail (ap s)) (str "/Count")) as [[n q]|];
      [|reflexivity].
    destruct (negb (prevpc (ap s) =? n)); [reflexivity|].
    cbv zeta. cbn [map_result]. f_equal.
    rewrite !checkpp_anchor.
    replace (checkpp (set_sha1 h s)) with (checkpp s) by (destruct s; reflexivity).
    destruct (negb (checkpp s =? 0)%nat); destruct s; reflexivity.
Qed.

Lemma setform_eq s :
  INIT (flags s) = true ->
  setform env s
  = Ok (set_formbuf
          ((formbuf s ++ str " q 1 w " ++ RGB_HOLE_FILL ++ str " rg "
              ++ RGB_HOLE_LINE ++ str " RG") ++ form_body env (cfg s)) s).
Proof.
  intro Hi. unfold setform. cbv zeta.
  assert (E : forall Y, imageform env (set_formbuf Y s) = Ok (set_formbuf Y s)).
  { intro Y. unfold imageform.
    replace (flags (set_formbuf Y s)) with (flags s) by (destruct s; reflexivity).
    rewrite Hi. reflexivity. }
  match goal with
  | |- context [if ?c then imageform env ?x else Ok ?x] =>
    replace (if c then imageform env x else Ok x) with (Ok x)
      by (destruct c; [rewrite E|]; reflexivity)
  end.
  cbn [bind]. destruct s; reflexivity.
Qed.

Lemma setform_sha h s :
  INIT (flags s) = true ->
  setform env (set_sha1 h s) = map_result (set_sha1 h) (setform env s).
Proof.
  intro Hi. rewrite (setform_eq s Hi).
  rewrite (setform_eq (set_sha1 h s)) by (destruct s; exact Hi).
  destruct s; reflexivity.
Qed.

Lemma first_write_sha h s :
  Ready s ->
  first_write env (set_sha1 h s) = map_result (set_sha1 h) (first_write env s).
Proof.
  intro HR. unfold first_write. rewrite wrhdr_sha.
  destruct (wrhdr s) as [s1|e s1] eqn:Hw; cbn [map_result bind]; [|reflexivity].
  destruct (wrhdr_Ready s s1 HR Hw) as (Hi & _ & _).
  replace (formbuf (set_sha1 h s1)) with (formbuf s1) by (destruct s1; reflexivity).
  destruct (nothing (formbuf s1)); [apply setform_sha, Hi|reflexivity].
Qed.

Lemma print_parsed_sha h s parsed :
  print_parsed (set_sha1 h s) parsed
  = (map_result (set_sha1 h) (fst (print_parsed s parsed)),
     snd (print_parsed s parsed)).
Proof.
  unfold print_parsed. cbv zeta.
  replace (errnum (set_parsebuf [] (set_sha1 h s))) with (errnum (set_parsebuf [] s))
    by (destruct s; reflexivity).
  destruct (negb (is_ok (errnum (set_parsebuf [] s))));
    [destruct s; reflexivity|].
  destruct parsed as [|c rest]; [destruct s; reflexivity|].
  replace (set_parsebuf [] (set_sha1 h s))
    with (aux (fun c => c) (fun _ => h) (fun e => e) (set_parsebuf [] s))
    by (destruct s; reflexivity).
  rewrite print_loop_aux.
  destruct (print_loop (set_parsebuf [] s) [] (c :: rest)) as [s2|e s2];
    cbn [map_result fst snd]; destruct s2; reflexivity.
Qed.

End FirstPrint.

(** *** The prefix and the file *)

Lemma set_sha1_twice h h' s : set_sha1 h (set_sha1 h' s) = set_sha1 h s.
Proof. destruct s; reflexivity. Qed.

Lemma map_result_sha h h' r :
  map_result (set_sha1 h) (map_result (set_sha1 h') r) = map_result (set_sha1 h) r.
Proof. destruct r; cbn; rewrite set_sha1_twice; reflexivity. Qed.

(** C5 (the form feed at the head of the input), as the code has it.
    For a stream of [n] carriage returns, one form feed and a
    remainder that begins with a printable character or a line feed
    and whose runs of bytes between line feeds and form feeds fit the
    line buffer of [pdf_print], the first print of a session returns
    what it returns for the remainder alone and leaves the same
    context, file included, but for the hash of the input, which
    covers the bytes of the prefix. *)
Theorem initial_ff_stripped_before_text (env : Env) (c : config) (nolzw : bool)
    (e : code) (ff : option string) (content : list Z) (n : nat) (b : Z)
    (R : list Z) :
  stored_byte b ->
  short_runs (b :: R) ->
  let st0 := session c nolzw e ff content in
  let long := print_body env st0 (repeat 13 n ++ 12 :: b :: R) in
  let short := print_body env st0 (b :: R) in
  snd long = snd short
  /\ map_result (set_sha1 []) (fst long) = map_result (set_sha1 []) (fst short).
Proof.
  intros Hb _. cbv zeta.
  pose proof (session_Opened c nolzw e ff content) as HO.
  rewrite !(print_body_first env _ _ (O_written _ HO)).
  destruct (print_init env (session c nolzw e ff content)) as [s3|e1 s1] eqn:Hinit;
    [|split; reflexivity].
  destruct (print_init_Ready env _ _ HO Hinit) as [HR Hprs].
  assert (He : escstate (prs s3) = ESC_IDLE) by (rewrite Hprs; reflexivity).
  unfold print_rest. rewrite (R_resumed _ HR). cbn [negb].
  rewrite (parsebuf_cleared _ (R_parsebuf _ HR)).
  rewrite !parsestr_eq. cbv zeta. rewrite (R_parsebuf _ HR).
  destruct (parse_prefix n b R (mkParse (prs s3) (newlpi (cfg s3)) true 0 [])
              eq_refl eq_refl He Hb) as [Ep Hne].
  rewrite Ep.
  set (P := parse_bytes (mkParse (prs s3) (newlpi (cfg s3)) true 0 []) (b :: R)) in *.
  cbn [set_ffseen p_ffseen p_buf p_esc].
  set (S5 := set_flags (flag_RESUMED false (flags s3))
               (set_parsebuf [] (set_prs (p_esc P) s3))).
  assert (HR5 : Ready S5).
  { destruct HR as [Ha Hi Hw Hr Hg Hc Hp Hpb Ho Hpg]. unfold S5.
    destruct s3 as [? ? ? ? ? ? ? ? ? ? ? ? fl]; destruct fl.
    constructor; cbn in *; try assumption; reflexivity. }
  assert (E5 : forall h,
    set_flags (flag_RESUMED false
                 (flags (set_parsebuf (p_buf P) (set_prs (p_esc P) (set_sha1 h s3)))))
      (set_parsebuf [] (set_parsebuf (p_buf P) (set_prs (p_esc P) (set_sha1 h s3))))
    = set_sha1 h S5) by (intro h; unfold S5; destruct s3; reflexivity).
  assert (Eb : forall h,
    parsebuf (set_parsebuf (p_buf P) (set_prs (p_esc P) (set_sha1 h s3))) = p_buf P)
    by (intro h; destruct s3; reflexivity).
  rewrite !E5, !Eb.
  destruct (p_buf P) as [|c0 buf] eqn:EP; [contradiction|].
  cbn [nothing andb].
  rewrite !(first_write_sha env _ _ HR5).
  destruct (first_write env S5) as [s6|e6 s6]; cbn [map_result fst snd].
  - rewrite !print_parsed_sha. cbn [fst snd]. rewrite !map_result_sha.
    split; reflexivity.
  - rewrite !set_sha1_twice. split; reflexivity.
Qed.

Lemma initial_ff_stripped_before_text_witness :
  stored_byte 65
  /\ short_runs (65 :: [66; 10])
  /\ (let st0 := session defaults true PDF_OK None [] in
      let long := print_body sample_env st0 (repeat 13 2 ++ 12 :: 65 :: [66; 10]) in
      let short := print_body sample_env st0 (65 :: [66; 10]) in
      snd long = snd short
      /\ map_result (set_sha1 []) (fst long) = map_result (set_sha1 []) (fst short)).
Proof.
  split; [left; lia|]. split; [reflexivity|].
  apply (initial_ff_stripped_before_text sample_env defaults true PDF_OK None []
           2 65 [66; 10]); [left; lia|reflexivity].
Defined.

(** C5, as stated, fails: a carriage return that follows the form
    feed is kept, while at the head of the remainder printed alone it
    is dropped; and a form feed alone starts the file, while no input
    leaves it empty. *)
Lemma initial_ff_prefix_changes_the_file :
  printed_file sample_env fresh [12; 13; 65] <> printed_file sample_env fresh [13; 65]
  /\ printed_file sample_env fresh [12] <> printed_file sample_env fresh [].
Proof.
  split; vm_compute; discriminate.
Qed.
(** * Further properties of the engine *)

(** ** The parser *)

(** [parsestr] changes no setting, whatever the input: the pending
    pitch among them, so that no control sequence ever selects the
    vertical pitch. *)
Theorem parsestr_keeps_the_settings (st : PDF) (s : list Z) (initial : bool) :
  cfg (snd (parsestr st s initial)) = cfg st.
Proof.
  rewrite parsestr_eq. cbv zeta. cbn [snd]. destruct st; reflexivity.
Qed.

Lemma parse_bytes_plain s : forall p,
  plain_text s -> escstate (p_esc p) = ESC_IDLE ->
  parse_bytes p s
  = mkParse (p_esc p) (p_newlpi p)
            (match s with [] => p_initial p | _ => false end)
            (p_ffseen p) (p_buf p ++ s).
Proof.
  unfold parse_bytes.
  induction s as [|b s IH]; intros p Hs He.
  - cbn. rewrite app_nil_r. destruct p; reflexivity.
  - inversion Hs as [|? ? Hb Hs']; subst. cbn [fold_left].
    rewrite (parse_byte_stored p b Hb He).
    rewrite IH by (cbn; assumption). cbn [p_esc p_newlpi p_initial p_ffseen p_buf].
    rewrite <- app_assoc. destruct s; reflexivity.
Qed.

(** Plain text goes through the parser as it is: on an idle parser,
    [parsestr] appends the bytes of a text of printable characters and
    line feeds to the parse buffer, unchanged and in order, and leaves
    the parser idle. *)
Theorem parsestr_stores_plain_text (st : PDF) (s : list Z) (initial : bool) :
  plain_text s -> escstate (prs st) = ESC_IDLE ->
  parsebuf (snd (parsestr st s initial)) = parsebuf st ++ s
  /\ prs (snd (parsestr st s initial)) = prs st.
Proof.
  intros Hs He. rewrite parsestr_eq. cbv zeta. cbn [snd].
  rewrite (parse_bytes_plain s
             (mkParse (prs st) (newlpi (cfg st)) initial 0 (parsebuf st)) Hs He).
  cbn [p_buf p_esc]. destruct st; split; reflexivity.
Qed.

Lemma parsestr_stores_plain_text_witness :
  plain_text [72; 105; 10] /\ escstate (prs fresh) = ESC_IDLE
  /\ parsebuf (snd (parsestr fresh [72; 105; 10] true)) = parsebuf fresh ++ [72; 105; 10]
  /\ prs (snd (parsestr fresh [72; 105; 10] true)) = prs fresh.
Proof.
  assert (H : plain_text [72; 105; 10]).
  { repeat constructor; unfold stored_byte; lia. }
  split; [exact H|]. split; [reflexivity|].
  apply (parsestr_stores_plain_text fresh [72; 105; 10] true H). reflexivity.
Defined.

Lemma parse_byte_final_in_csiint p b :
  final_byte b -> escstate (p_esc p) = ESC_CSIINT -> parse_byte p b = p.
Proof.
  intros Hb He. destruct p as [e nl i f buf].
  cbn [p_esc p_newlpi p_initial p_ffseen p_buf] in *.
  unfold final_byte in Hb.
  unfold parse_byte. cbn [p_esc p_newlpi p_initial p_ffseen p_buf].
  rewrite land_255_byte by lia. rewrite He. cbv zeta.
  decide_eqb. cbn [orb].
  unfold sequences. rewrite He. unfold case_CSIINT.
  destruct (Z.leb_spec 32 b); [|lia].
  destruct (Z.leb_spec b 47); [lia|].
  destruct (Z.leb_spec 64 b); [|lia].
  destruct (Z.leb_spec b 126); [|lia].
  cbn [andb]. unfold escints_is_null. rewrite Bool.andb_false_r. cbn [andb].
  reflexivity.
Qed.

Lemma parse_bytes_finals_in_csiint w : forall p,
  Forall final_byte w -> escstate (p_esc p) = ESC_CSIINT -> parse_bytes p w = p.
Proof.
  unfold parse_bytes. induction w as [|b w IH]; intros p Hw He; [reflexivity|].
  inversion Hw; subst. cbn [fold_left].
  rewrite parse_byte_final_in_csiint by assumption. apply IH; assumption.
Qed.

Lemma parse_byte_csi_final p f :
  final_byte f ->
  escstate (p_esc (parse_byte (parse_byte p 155) f)) = ESC_CSIINT
  /\ p_buf (parse_byte (parse_byte p 155) f) = p_buf p
  /\ p_newlpi (parse_byte (parse_byte p 155) f) = p_newlpi p.
Proof.
  intro Hf. unfold final_byte in Hf.
  assert (E1 : parse_byte p 155
               = mkParse (mkEsc ESC_CSI (escints (p_esc p)) 0 (escprv (p_esc p))
                            (repeat ESC_PDEFAULT (Z.to_nat DIM_escpars)) 0)
                         (p_newlpi p) (p_initial p) (p_ffseen p) (p_buf p)).
  { destruct p as [e nl i f0 buf]. unfold parse_byte.
    cbn [p_esc p_newlpi p_initial p_ffseen p_buf].
    change (Z.land 255 155) with 155. cbv zeta.
    destruct (escstate e); reflexivity. }
  rewrite E1. clear E1.
  unfold parse_byte. cbn [p_esc p_newlpi p_initial p_ffseen p_buf escstate].
  rewrite land_255_byte by lia. cbv zeta.
  decide_eqb. cbn [orb].
  unfold sequences. cbn [escstate]. unfold case_CSI.
  destruct (Z.leb_spec 60 f) as [H60|H60];
    [destruct (Z.leb_spec f 63); [lia|]|]; cbn [andb];
    unfold case_CSIP, set_escstate;
    cbn [escstate escints escin escprv escpars escpn];
    (destruct (Z.leb_spec 48 f); [destruct (Z.leb_spec f 63); [lia|]|lia]);
    cbn [andb];
    change (aget 0 (repeat ESC_PDEFAULT (Z.to_nat DIM_escpars)) 0 =? ESC_PDEFAULT)
      with true; cbv iota;
    unfold case_CSIINT; cbn [escstate escints escin escprv escpars escpn];
    (destruct (Z.leb_spec 32 f); [|lia]);
    (destruct (Z.leb_spec f 47); [lia|]);
    (destruct (Z.leb_spec 64 f); [|lia]);
    (destruct (Z.leb_spec f 126); [|lia]);
    cbn [andb]; unfold escints_is_null; rewrite Bool.andb_false_r; cbn [andb];
    unfold finish; cbn; repeat split; reflexivity.
Qed.

(** After a control sequence the letters are lost.  The final byte of
    a CSI sequence leaves the parser in the state that waits for
    intermediates and finals, and there every byte from [@] to [~]
    counts as another final: a run of such bytes after CSI and its
    final byte adds nothing to the parse buffer. *)
Theorem letters_after_csi_are_dropped (st : PDF) (f : Z) (w : list Z)
    (initial : bool) :
  final_byte f -> Forall final_byte w ->
  parsebuf (snd (parsestr st (155 :: f :: w) initial)) = parsebuf st
  /\ escstate (prs (snd (parsestr st (155 :: f :: w) initial))) = ESC_CSIINT.
Proof.
  intros Hf Hw. rewrite parsestr_eq. cbv zeta. cbn [snd].
  unfold parse_bytes. cbn [fold_left]. fold (parse_bytes
    (parse_byte (parse_byte (mkParse (prs st) (newlpi (cfg st)) initial 0
                               (parsebuf st)) 155) f) w).
  destruct (parse_byte_csi_final
              (mkParse (prs st) (newlpi (cfg st)) initial 0 (parsebuf st)) f Hf)
    as (He & Hb & _).
  rewrite (parse_bytes_finals_in_csiint w _ Hw He).
  set (P := parse_byte (parse_byte (mkParse (prs st) (newlpi (cfg st)) initial 0
                                      (parsebuf st)) 155) f) in *.
  split.
  - replace (parsebuf (set_parsebuf (p_buf P)
                         (set_prs (p_esc P) (set_sha1 (sha1 st ++ 155 :: f :: w) st))))
      with (p_buf P) by (destruct st; reflexivity).
    exact Hb.
  - replace (prs (set_parsebuf (p_buf P)
                    (set_prs (p_esc P) (set_sha1 (sha1 st ++ 155 :: f :: w) st))))
      with (p_esc P) by (destruct st; reflexivity).
    exact He.
Qed.

Lemma letters_after_csi_are_dropped_witness :
  final_byte 109 /\ Forall final_byte [72; 101; 108; 108; 111]
  /\ parsebuf (snd (parsestr fresh (155 :: 109 :: [72; 101; 108; 108; 111]) true))
     = parsebuf fresh
  /\ escstate (prs (snd (parsestr fresh (155 :: 109 :: [72; 101; 108; 108; 111])
                           true))) = ESC_CSIINT.
Proof.
  assert (Hf : final_byte 109) by (unfold final_byte; lia).
  assert (Hw : Forall final_byte [72; 101; 108; 108; 111])
    by (repeat constructor; unfold final_byte; lia).
  split; [exact Hf|]. split; [exact Hw|].
  apply (letters_after_csi_are_dropped fresh 109 [72; 101; 108; 108; 111] true Hf Hw).
Defined.

(** ** Opening: the name of the output file *)

Lemma toupper_zero : toupper 0 = 0.
Proof. reflexivity. Qed.

Lemma ext_loop_spec b fn : forall ext,
  Forall (fun c => c <> 0) fn ->
  ext_loop b fn ext = true
  <-> fn = map (fun e => if b then e else toupper e) ext.
Proof.
  induction fn as [|c fn IH]; intros ext Hnz.
  - destruct ext; cbn; split; intro H; try reflexivity; discriminate.
  - inversion Hnz as [|? ? Hc Hnz']; subst. cbn [ext_loop].
    destruct ext as [|e ext]; cbn [hd tl map].
    + assert (E : (if b then negb (c =? 0) else negb (c =? toupper 0)) = true).
      { rewrite toupper_zero. destruct b; destruct (Z.eqb_spec c 0);
          try contradiction; reflexivity. }
      rewrite E. split; intro H; discriminate.
    + destruct b.
      * destruct (Z.eqb_spec c e) as [->|Hne]; cbn [negb].
        -- rewrite (IH ext Hnz'). split; intro H; [rewrite H; reflexivity|].
           injection H as H. exact H.
        -- split; intro H; [discriminate|]. injection H as H _. contradiction.
      * destruct (Z.eqb_spec c (toupper e)) as [->|Hne]; cbn [negb].
        -- rewrite (IH ext Hnz'). split; intro H; [rewrite H; reflexivity|].
           injection H as H. exact H.
        -- split; intro H; [discriminate|]. injection H as H _. contradiction.
Qed.

Lemma strrchr_tail_nonzero s c t :
  Forall (fun x => x <> 0) s -> strrchr_tail s c = Some t ->
  Forall (fun x => x <> 0) t.
Proof.
  intros Hs H. destruct (strrchr_tail_split _ _ _ H) as (pre & ->).
  apply Forall_app in Hs. destruct Hs as [_ Hs]. inversion Hs; assumption.
Qed.

(** The name check of [pdf_open], in full.  A path is refused with
    [BAD_FILENAME] exactly when it has a dot and the text after its
    last dot is neither [pdf] nor [PDF]: an extension in mixed case is
    refused, and a path without a dot is accepted. *)
Theorem pdf_open_name_check (env : Env) (name : string) :
  pdf_open env (Some name) = inl PDF_E_BAD_FILENAME
  <-> exists e,
        strrchr_tail (c_str (str name)) 46 = Some e
        /\ e <> str "pdf" /\ e <> str "PDF".
Proof.
  unfold pdf_open, filename_ok.
  pose proof (c_str_nonzero (str name)) as Hnz.
  destruct (strrchr_tail (c_str (str name)) 46) as [fn|] eqn:E.
  - pose proof (strrchr_tail_nonzero _ _ _ Hnz E) as Hfn.
    pose proof (ext_loop_spec (islower (hd 0 fn)) fn (str "pdf") Hfn) as Hs.
    destruct (ext_loop (islower (hd 0 fn)) fn (str "pdf")) eqn:El; cbn [negb].
    + split.
      * intro H. destruct (os_open env name); discriminate.
      * intros (e & He & H1 & H2). injection He as <-.
        destruct Hs as [Hs _]. specialize (Hs eq_refl).
        exfalso. destruct (islower (hd 0 fn)); [apply H1|apply H2]; exact Hs.
    + split; [|reflexivity]. intros _. exists fn. split; [reflexivity|].
      split; intro H; subst fn; destruct Hs as [_ Hs];
        (assert (X : false = true) by (apply Hs; reflexivity)); discriminate.
  - cbn [negb]. split.
    + intro H. destruct (os_open env name); discriminate.
    + intros (e & He & _). discriminate.
Qed.

(** ** Setting parameters *)

(** A font key is set exactly to the names of [validFonts]: before
    the first print, [pdf_set] of a font key returns [PDF_OK] for
    these fourteen names and for no other. *)
Theorem font_keys_accept_the_valid_fonts (env : Env) (st : PDF) (k : setkey)
    (f : string) (dvalue : Q) :
  font_key k -> ACTIVE (flags st) = false ->
  fst (pdf_set env (Some st) k (Some f) dvalue) = PDF_OK <-> In f validFonts.
Proof.
  intros Hk Ha. unfold pdf_set, pdfset. rewrite Ha.
  assert (E : existsb (String.eqb f) validFonts = true <-> In f validFonts).
  { rewrite existsb_exists. split.
    - intros (x & Hx & Hf). apply String.eqb_eq in Hf. subst. exact Hx.
    - intro H. exists f. split; [exact H|apply String.eqb_refl]. }
  destruct Hk as [-> | [-> | ->]]; unfold pdfset_store, checkfont;
    destruct (existsb (String.eqb f) validFonts); cbn;
    (split; [intro H; try discriminate; apply E; reflexivity
            |intro H; try reflexivity; apply E in H; discriminate]).
Qed.

Lemma font_keys_accept_the_valid_fonts_witness :
  font_key PDF_LABEL_FONT /\ ACTIVE (flags fresh) = false
  /\ (fst (pdf_set sample_env (Some fresh) PDF_LABEL_FONT
             (Some "Times-Italic"%string) 0) = PDF_OK
      <-> In "Times-Italic"%string validFonts).
Proof.
  assert (Hk : font_key PDF_LABEL_FONT) by (right; right; reflexivity).
  split; [exact Hk|]. split; [reflexivity|].
  apply (font_keys_accept_the_valid_fonts sample_env fresh PDF_LABEL_FONT
           "Times-Italic" 0 Hk).
  reflexivity.
Defined.

(** A [pdf_set] that is refused changes no setting: whatever the key
    and the value, when the call does not return [PDF_OK] the context
    is as it was, but for the error number, which is the value
    returned. *)
Theorem refused_pdf_set_changes_nothing (env : Env) (st : PDF) (k : setkey)
    (svalue : option string) (dvalue : Q) :
  fst (pdf_set env (Some st) k svalue dvalue) <> PDF_OK ->
  snd (pdf_set env (Some st) k svalue dvalue)
  = Some (set_errnum (fst (pdf_set env (Some st) k svalue dvalue)) st).
Proof.
  unfold pdf_set, pdfset, pdfset_number, pdfset_store, checkfont.
  destruct (ACTIVE (flags st)); [intros _; reflexivity|].
  destruct k; cbn [fst snd is_ok negb];
    repeat (match goal with
            | |- context [match svalue with _ => _ end] => destruct svalue
            | |- context [if ?c then _ else _] => destruct c
            | |- context [match find_form ?a ?b ?c with _ => _ end] =>
              destruct (find_form a b c)
            end; cbn [fst snd is_ok negb]);
    intro H; try (exfalso; apply H; reflexivity);
    try reflexivity; destruct st; reflexivity.
Qed.

Lemma refused_pdf_set_changes_nothing_witness :
  fst (pdf_set sample_env (Some fresh) PDF_LPI None 7) <> PDF_OK
  /\ snd (pdf_set sample_env (Some fresh) PDF_LPI None 7)
     = Some (set_errnum (fst (pdf_set sample_env (Some fresh) PDF_LPI None 7))
                        fresh).
Proof.
  assert (H : fst (pdf_set sample_env (Some fresh) PDF_LPI None 7) <> PDF_OK)
    by (vm_compute; discriminate).
  split; [exact H|].
  apply (refused_pdf_set_changes_nothing sample_env fresh PDF_LPI None 7 H).
Defined.

(** ** The first print and the file *)

Lemma pdfinit_flags (env : Env) s :
  flag_UPDATING false (flags (state_of (pdfinit env s)))
  = flag_UPDATING false (flags s).
Proof.
  pose proof (pdfinit_frame env s) as E.
  apply (f_equal flags) in E.
  destruct (state_of (pdfinit env s)) as [? ? ? ? ? ? ? ? ? ? ? ? f1].
  destruct s as [? ? ? ? ? ? ? ? ? ? ? ? f2]. exact E.
Qed.

Lemma pdfinit_line (env : Env) s :
  line (state_of (pdfinit env s)) = line s
  /\ cfg (state_of (pdfinit env s)) = cfg s.
Proof.
  pose proof (pdfinit_frame env s) as E.
  split; [apply (f_equal line) in E|apply (f_equal cfg) in E];
    destruct (state_of (pdfinit env s)); destruct s; exact E.
Qed.

Lemma pdfinit_keeps_data (env : Env) s :
  frequire (cfg s) <> PDF_FILE_REPLACE ->
  fdata (pdf (state_of (pdfinit env s))) = fdata (pdf s).
Proof.
  intro Hr. unfold pdfinit, checkupdate, store_scan. cbv zeta.
  replace (cfg (set_sha1 [] s)) with (cfg s) by (destruct s; reflexivity).
  destruct (frequire (cfg s)) eqn:Ef; try contradiction;
    repeat match goal with
           | |- context [if ?c then _ else _] => destruct c
           | |- context [match sc_ret ?c with _ => _ end] => destruct (sc_ret c)
           end;
    cbn [state_of]; destruct s; reflexivity.
Qed.

Lemma wrhdr_flags s s1 :
  wrhdr s = Ok s1 -> flags s1 = flag_WRITTEN true (flags s).
Proof.
  unfold wrhdr. destruct (negb (UPDATING (flags s))).
  - intro H. apply Ok_inj in H. subst s1.
    destruct (checkpp s =? 0)%nat; destruct s; reflexivity.
  - destruct (getint (trail (ap s)) (str "/Count")) as [[n q]|]; [|discriminate].
    destruct (negb (prevpc (ap s) =? n)); [discriminate|].
    cbv zeta. intro H. apply Ok_inj in H. subst s1.
    rewrite !checkpp_anchor.
    destruct (negb (checkpp s =? 0)%nat); destruct s; reflexivity.
Qed.

Section FirstPrintFrame.

Variable env : Env.

(** What a first write that succeeds does to the flags. *)
Lemma first_write_flags s s' :
  INIT (flags s) = true -> first_write env s = Ok s' ->
  flags s' = flag_WRITTEN true (flags s).
Proof.
  intros Hi H. unfold first_write in H.
  destruct (wrhdr s) as [s1|e s1] eqn:Hw; [|discriminate]. cbn [bind] in H.
  pose proof (wrhdr_flags s s1 Hw) as Hf.
  destruct (nothing (formbuf s1)).
  - rewrite setform_eq in H
      by (rewrite Hf; destruct (flags s); exact Hi).
    apply Ok_inj in H. subst s'. rewrite <- Hf. destruct s1; reflexivity.
  - apply Ok_inj in H. subst s'. exact Hf.
Qed.

Lemma first_write_aborts s e s' :
  INIT (flags s) = true -> first_write env s = Abort e s' -> s' = s.
Proof.
  intros Hi H. unfold first_write in H.
  destruct (wrhdr s) as [s1|e1 s1] eqn:Hw; cbn [bind] in H.
  - pose proof (wrhdr_flags s s1 Hw) as Hf.
    destruct (nothing (formbuf s1)); [|discriminate].
    rewrite setform_eq in H by (rewrite Hf; destruct (flags s); exact Hi).
    discriminate.
  - apply Abort_inj in H. destruct H as [_ <-]. apply (wrhdr_abort _ _ _ Hw).
Qed.

Lemma print_parsed_flags s parsed :
  flags (state_of (fst (print_parsed s parsed))) = flags s.
Proof.
  rewrite fst_print_parsed.
  assert (E : flags (set_parsebuf [] s) = flags s) by (destruct s; reflexivity).
  destruct (negb (is_ok (errnum s))); [exact E|].
  destruct parsed as [|c rest]; [exact E|].
  pose proof (stays_print_loop (c :: rest) (set_parsebuf [] s) []) as [S _ _ _].
  destruct (sess_fields _ _ S) as (_&_&_&_&_&_&_&_&_&Hfl&_).
  rewrite Hfl. exact E.
Qed.


(** The context [print_init] leaves, whether it returns or jumps. *)
Lemma print_init_facts st :
  INIT (flags st) = false ->
  line (state_of (print_init env st)) = line st
  /\ (frequire (cfg st) <> PDF_FILE_REPLACE ->
      fdata (pdf (state_of (print_init env st))) = fdata (pdf st))
  /\ WRITTEN (flags (state_of (print_init env st))) = WRITTEN (flags st)
  /\ (geom_bad (cfg st) = false ->
      ACTIVE (flags (state_of (print_init env st))) = true)
  /\ (forall s3, print_init env st = Ok s3 -> INIT (flags s3) = true).
Proof.
  intro Hi. unfold print_init. rewrite geometry_eq.
  destruct (geom_bad (cfg st)) eqn:Hb.
  - cbn [state_of]. unfold geom_set.
    repeat split; try discriminate; intros; destruct st; reflexivity.
  - cbv zeta.
    set (s2 := set_flags (flag_ACTIVE true (flags (geom_set st))) (geom_set st)).
    assert (H2 : flags s2 = flag_ACTIVE true (flags st)
                 /\ line s2 = line st /\ fdata (pdf s2) = fdata (pdf st)
                 /\ frequire (cfg s2) = frequire (cfg st))
      by (unfold s2, geom_set; destruct st as [c0]; destruct c0; repeat split).
    destruct H2 as (Hf2 & Hl2 & Hd2 & Hr2).
    replace (INIT (flags s2)) with false
      by (rewrite Hf2; destruct (flags st); cbn in *; congruence).
    cbn [negb].
    pose proof (pdfinit_flags env s2) as Hfl.
    pose proof (pdfinit_keeps_data env s2) as Hkd.
    destruct (pdfinit_line env s2) as [Hln _].
    rewrite Hr2 in Hkd. rewrite Hf2 in Hfl.
    clearbody s2.
    assert (Hfa : forall f1 f2 : flagset,
              flag_UPDATING false f1 = flag_UPDATING false (flag_ACTIVE true f2) ->
              ACTIVE f1 = true /\ WRITTEN f1 = WRITTEN f2)
      by (intros [] [] E; cbn in E; injection E; intros; subst; split; reflexivity).
    destruct (pdfinit env s2) as [s3|e s3]; cbn [state_of bind] in *;
      destruct (Hfa _ _ Hfl) as [Hact Hwri];
      (split; [|split; [|split; [|split]]]).
    + replace (line (set_flags (flag_INIT true (flags s3)) s3)) with (line s3)
        by (destruct s3; reflexivity).
      congruence.
    + intro Hr. specialize (Hkd Hr).
      replace (pdf (set_flags (flag_INIT true (flags s3)) s3)) with (pdf s3)
        by (destruct s3; reflexivity).
      congruence.
    + replace (flags (set_flags (flag_INIT true (flags s3)) s3))
        with (flag_INIT true (flags s3)) by (destruct s3; reflexivity).
      rewrite <- Hwri. destruct (flags s3); reflexivity.
    + intros _.
      replace (flags (set_flags (flag_INIT true (flags s3)) s3))
        with (flag_INIT true (flags s3)) by (destruct s3; reflexivity).
      rewrite <- Hact. destruct (flags s3); reflexivity.
    + intros s3' H. apply Ok_inj in H. subst s3'.
      destruct s3 as [? ? ? ? ? ? ? ? ? ? ? ? f3]; destruct f3; reflexivity.
    + congruence.
    + intro Hr. specialize (Hkd Hr). congruence.
    + exact Hwri.
    + intros _. exact Hact.
    + intros s3' H. discriminate.
Qed.

(** The context [print_rest] leaves. *)
Lemma print_rest_facts s3 w :
  INIT (flags s3) = true ->
  ACTIVE (flags (state_of (fst (print_rest env s3 w)))) = ACTIVE (flags s3)
  /\ (WRITTEN (flags s3) = false ->
      WRITTEN (flags (state_of (fst (print_rest env s3 w)))) = false ->
      fdata (pdf (state_of (fst (print_rest env s3 w)))) = fdata (pdf s3)
      /\ line (state_of (fst (print_rest env s3 w))) = line s3).
Proof.
  intro Hi. unfold print_rest. rewrite parsestr_eq. cbv zeta.
  match goal with
  | |- context [first_write env ?x] => set (s5 := x) in *
  end.
  assert (H5 : ACTIVE (flags s5) = ACTIVE (flags s3)
               /\ INIT (flags s5) = true
               /\ WRITTEN (flags s5) = WRITTEN (flags s3)
               /\ fdata (pdf s5) = fdata (pdf s3) /\ line s5 = line s3).
  { unfold s5. destruct s3 as [? ? ? ? ? ? ? ? ? ? ? ? f3]; destruct f3.
    cbn in *. repeat split; assumption. }
  destruct H5 as (Ha5 & Hi5 & Hw5 & Hd5 & Hl5).
  destruct (nothing _ && _); cbn [fst state_of].
  - split; [exact Ha5|]. intros _ _. split; assumption.
  - destruct (first_write env s5) as [s6|e s6] eqn:Hf; cbn [fst state_of].
    + pose proof (first_write_flags _ _ Hi5 Hf) as Hf6.
      rewrite print_parsed_flags, Hf6. split.
      * rewrite <- Ha5. destruct (flags s5); reflexivity.
      * intros _ H. destruct (flags s5); discriminate.
    + rewrite (first_write_aborts _ _ _ Hi5 Hf). split; [exact Ha5|].
      intros _ _. split; assumption.
Qed.

Lemma print_first_facts st w :
  WRITTEN (flags st) = false -> INIT (flags st) = false ->
  (geom_bad (cfg st) = false ->
   ACTIVE (flags (settle (fst (print_body env st w)))) = true)
  /\ (WRITTEN (flags (settle (fst (print_body env st w)))) = false ->
      line (settle (fst (print_body env st w))) = line st
      /\ (frequire (cfg st) <> PDF_FILE_REPLACE ->
          fdata (pdf (settle (fst (print_body env st w)))) = fdata (pdf st))).
Proof.
  intros Hw Hi. rewrite (print_body_first env st w Hw).
  destruct (print_init_facts st Hi) as (Hl & Hd & Hwr & Ha & Hin).
  destruct (print_init env st) as [s3|e s3]; cbn [state_of] in *.
  - specialize (Hin s3 eq_refl).
    destruct (print_rest_facts s3 w Hin) as (Ha3 & Hrest).
    rewrite Hw in Hwr.
    assert (Es : forall r, flags (settle r) = flags (state_of r)
                           /\ line (settle r) = line (state_of r)
                           /\ pdf (settle r) = pdf (state_of r))
      by (intros [x|e x]; [repeat split|destruct x; repeat split]).
    destruct (Es (fst (print_rest env s3 w))) as (Ef & El & Ep).
    rewrite Ef, El, Ep. split.
    + intro Hb. rewrite Ha3. apply Ha, Hb.
    + intro Hnw. destruct (Hrest Hwr Hnw) as (Hd3 & Hl3). split; [congruence|].
      intro Hr. rewrite Hd3. apply Hd, Hr.
  - cbn [fst settle]. split.
    + intro Hb. replace (flags (set_errnum e s3)) with (flags s3)
        by (destruct s3; reflexivity). apply Ha, Hb.
    + intros _. split.
      * replace (line (set_errnum e s3)) with (line s3) by (destruct s3; reflexivity).
        exact Hl.
      * intro Hr. replace (pdf (set_errnum e s3)) with (pdf s3)
          by (destruct s3; reflexivity). apply Hd, Hr.
Qed.

End FirstPrintFrame.

Lemma session_fields c nolzw e ff content :
  WRITTEN (flags (session c nolzw e ff content)) = false
  /\ INIT (flags (session c nolzw e ff content)) = false
  /\ cfg (session c nolzw e ff content) = c
  /\ line (session c nolzw e ff content) = 0
  /\ pdf (session c nolzw e ff content) = mkFile content O.
Proof. repeat split. Qed.



(** A session that writes no header leaves the file alone.  Unless
    the file is to be replaced, when the first print of a session ends
    with the [WRITTEN] flag clear (the print was refused, or had
    nothing to print) the bytes of the file are what they were, and
    they still are after [pdf_close]. *)
Theorem unwritten_session_keeps_the_file (env : Env) (c : config) (nolzw : bool)
    (e : code) (ff : option string) (content s tbuf : list Z) :
  let h := snd (pdf_print env (Some (session c nolzw e ff content)) s) in
  frequire c <> PDF_FILE_REPLACE ->
  option_map (fun st => WRITTEN (flags st)) h = Some false ->
  output h = Some content
  /\ fst (pdf_close env tbuf h) = PDF_OK
  /\ output (snd (pdf_close env tbuf h)) = Some content.
Proof.
  cbv zeta. rewrite pdf_print_settle. cbn [option_map output].
  intros Hr Hnw. injection Hnw as Hnw.
  destruct (session_fields c nolzw e ff content) as (Hw & Hi & Hc & Hl & Hp).
  destruct (print_first_facts env _ s Hw Hi) as [_ Hf].
  destruct (Hf Hnw) as (Hl' & Hd). rewrite Hc in Hd. specialize (Hd Hr).
  rewrite Hp in Hd. cbn [fdata] in Hd. rewrite Hl in Hl'.
  set (st' := settle (fst (print_body env (session c nolzw e ff content) s))) in *.
  clearbody st'.
  assert (Ec : pdfclose env tbuf false st' = (PDF_OK, st')).
  { unfold pdfclose. rewrite Hl', Hnw. cbn [Z.eqb negb andb]. rewrite Hnw.
    reflexivity. }
  unfold pdf_close. rewrite Ec. cbn [fst snd output option_map].
  rewrite Hd. repeat split.
Qed.

Lemma unwritten_session_keeps_the_file_witness :
  frequire defaults <> PDF_FILE_REPLACE
  /\ option_map (fun st => WRITTEN (flags st))
       (snd (pdf_print sample_env (Some (session defaults false PDF_OK None [37; 33]))
               [65])) = Some false
  /\ output (snd (pdf_print sample_env
                    (Some (session defaults false PDF_OK None [37; 33])) [65]))
     = Some [37; 33]
  /\ fst (pdf_close sample_env sample_time
            (snd (pdf_print sample_env
                    (Some (session defaults false PDF_OK None [37; 33])) [65])))
     = PDF_OK
  /\ output (snd (pdf_close sample_env sample_time
                    (snd (pdf_print sample_env
                            (Some (session defaults false PDF_OK None [37; 33]))
                            [65]))))
     = Some [37; 33].
Proof.
  assert (H1 : frequire defaults <> PDF_FILE_REPLACE) by discriminate.
  assert (H2 : option_map (fun st => WRITTEN (flags st))
                 (snd (pdf_print sample_env
                         (Some (session defaults false PDF_OK None [37; 33]))
                         [65])) = Some false) by (vm_compute; reflexivity).
  split; [exact H1|]. split; [exact H2|].
  apply (unwritten_session_keeps_the_file sample_env defaults false PDF_OK None
           [37; 33] [65] sample_time H1 H2).
Defined.



(** ** Checkpoints *)

Section CheckpointFile.

Variable env : Env.






End CheckpointFile.




(** ** The closed file *)





Section ClosedFile.

Variable env : Env.




End ClosedFile.

(** ** What a session leaves in its file *)




Section SessionFile.

Variable env : Env.








End SessionFile.



(** ** The header check *)

Lemma fgets_bytes_line l r : forall n,
  Forall (fun c => c <> 10) l -> (List.length l < n)%nat ->
  fgets_bytes n (l ++ 10 :: r) = l ++ [10].
Proof.
  induction l as [|c l IH]; intros n Hl Hn.
  - destruct n; [cbn in Hn; lia|]. reflexivity.
  - destruct n; [cbn in Hn; lia|]. cbn [app fgets_bytes].
    inversion Hl as [|? ? Hc Hl']; subst.
    destruct (Z.eqb_spec c 10); [contradiction|].
    rewrite IH by (auto; cbn in Hn; lia). reflexivity.
Qed.

Lemma c_str_id l : Forall (fun c => c <> 0) l -> c_str l = l.
Proof.
  induction 1 as [|c l Hc _ IH]; [reflexivity|]. cbn [c_str].
  destruct (Z.eqb_spec c 0); [contradiction|]. rewrite IH. reflexivity.
Qed.

Lemma prefix_of_app p s : prefix_of p (p ++ s) = true.
Proof.
  induction p as [|a p IH]; [reflexivity|]. cbn [app prefix_of].
  rewrite Z.eqb_refl, IH. reflexivity.
Qed.

Lemma prefix_of_true p : forall s,
  prefix_of p s = true -> exists m, s = p ++ m.
Proof.
  induction p as [|a p IH]; intros s H; [exists s; reflexivity|].
  destruct s as [|b s]; [discriminate|]. cbn [prefix_of] in H.
  apply andb_prop in H. destruct H as [Hab Hp].
  apply Z.eqb_eq in Hab. subst b.
  destruct (IH s Hp) as (m & ->). exists m. reflexivity.
Qed.

Lemma skip_digits_app ds x r :
  Forall (fun c => isdigit c = true) ds -> isdigit x = false ->
  skip_digits (ds ++ x :: r) = x :: r.
Proof.
  intros H Hx. induction H as [|c ds Hc _ IH]; cbn [app skip_digits].
  - rewrite Hx. reflexivity.
  - rewrite Hc. exact IH.
Qed.

Lemma skip_digits_split l :
  exists ds, l = ds ++ skip_digits l /\ Forall (fun c => isdigit c = true) ds.
Proof.
  induction l as [|c l (ds & E & F)]; [exists []; split; [reflexivity|constructor]|].
  cbn [skip_digits]. destruct (isdigit c) eqn:Hc.
  - exists (c :: ds). split; [cbn [app]; rewrite <- E; reflexivity|].
    constructor; assumption.
  - exists []. split; [reflexivity|constructor].
Qed.

(** What [fgets] reads is the start of the file, and a line feed can
    only be its last byte. *)
Lemma fgets_bytes_prefix n : forall d,
  exists rest, d = fgets_bytes n d ++ rest.
Proof.
  induction n as [|n IH]; intro d; [exists d; reflexivity|].
  destruct d as [|c d]; [exists []; reflexivity|]. cbn [fgets_bytes].
  destruct (c =? 10); [exists d; reflexivity|].
  destruct (IH d) as (rest & E). exists rest. cbn [app]. rewrite <- E. reflexivity.
Qed.

Lemma length_fgets_bytes n : forall d, (List.length (fgets_bytes n d) <= n)%nat.
Proof.
  induction n as [|n IH]; intro d; [cbn; lia|].
  destruct d as [|c d]; [cbn; lia|]. cbn [fgets_bytes List.length].
  destruct (c =? 10); [cbn; lia|]. specialize (IH d). lia.
Qed.

Lemma fgets_bytes_stops n : forall d a b,
  fgets_bytes n d = a ++ 10 :: b -> b = [].
Proof.
  induction n as [|n IH]; intros d a b H.
  - destruct a; discriminate.
  - destruct d as [|c d]; [destruct a; discriminate|]. cbn [fgets_bytes] in H.
    destruct (Z.eqb_spec c 10) as [Ec|Ec].
    + destruct a as [|x a]; [injection H; auto|].
      injection H. intros H' _. destruct a; discriminate.
    + destruct a as [|x a]; [injection H; intros; subst; contradiction|].
      injection H. intros H' _. apply (IH d a b H').
Qed.

Lemma c_str_prefix l : exists z, l = c_str l ++ z.
Proof.
  induction l as [|c l (z & E)]; [exists []; reflexivity|]. cbn [c_str].
  destruct (c =? 0); [exists (c :: l); reflexivity|].
  exists z. cbn [app]. rewrite <- E. reflexivity.
Qed.

Lemma isdigit_bounds c : isdigit c = true -> 48 <= c <= 57.
Proof. unfold isdigit. intro H. apply andb_prop in H. lia. Qed.

(** A file whose first line is [%PDF-1.] and digits passes. *)
Lemma pdf_file_version_line digits rest e :
  Forall (fun c => isdigit c = true) digits -> (List.length digits <= 91)%nat ->
  pdf_file (inr (str "%PDF-1." ++ digits ++ 10 :: rest)) e = PDF_OK.
Proof.
  intros Hd Hl. unfold pdf_file, fgets.
  change (100 - 1)%nat with 99%nat.
  assert (Hne : Forall (fun c => c <> 10) (str "%PDF-1." ++ digits)).
  { apply Forall_app. split.
    - repeat constructor; discriminate.
    - eapply Forall_impl; [|exact Hd]. intros c Hc.
      apply isdigit_bounds in Hc. lia. }
  rewrite app_assoc, (fgets_bytes_line _ rest 99 Hne)
    by (rewrite length_app; cbn; lia).
  assert (Hnz : Forall (fun c => c <> 0) ((str "%PDF-1." ++ digits) ++ [10])).
  { apply Forall_app. split; [apply Forall_app; split|].
    - repeat constructor; discriminate.
    - eapply Forall_impl; [|exact Hd]. intros c Hc.
      apply isdigit_bounds in Hc. lia.
    - repeat constructor. discriminate. }
  change (str "%PDF-1.") with [37; 80; 68; 70; 45; 49; 46] in *.
  cbn [app] in *. rewrite (c_str_id _ Hnz).
  cbn [prefix_of Z.eqb Pos.eqb andb negb skipn].
  rewrite skip_digits_app by (auto; reflexivity). reflexivity.
Qed.

(** [pdf_file] accepts exactly the files that start with [%PDF-1.],
    digits if any, and a line feed, all within the 99 bytes that
    [fgets] reads.  (For an empty file [fgets] reads nothing and the
    value returned is whatever [errno] holds.) *)
Theorem pdf_file_accepts_a_version_line (d : list Z) (e : Z) :
  d <> [] ->
  pdf_file (inr d) e = PDF_OK
  <-> exists digits rest,
        d = str "%PDF-1." ++ digits ++ 10 :: rest
        /\ Forall (fun c => isdigit c = true) digits
        /\ (List.length digits <= 91)%nat.
Proof.
  intro Hd. split.
  - unfold pdf_file, fgets. change (100 - 1)%nat with 99%nat.
    destruct (fgets_bytes_prefix 99 d) as (rest & Ed).
    pose proof (length_fgets_bytes 99 d) as Hl.
    pose proof (fgets_bytes_stops 99 d) as Hs.
    destruct (fgets_bytes 99 d) as [|c0 l0] eqn:El; [discriminate|].
    set (line := c0 :: l0) in *. clearbody line.
    destruct (c_str_prefix line) as (z & Ez).
    destruct (prefix_of (str "%PDF-1.") (c_str line)) eqn:Hp;
      cbn [negb]; [|discriminate].
    destruct (prefix_of_true _ _ Hp) as (m & Em). rewrite Em.
    replace (skipn 7 (str "%PDF-1." ++ m)) with m by reflexivity.
    destruct (skip_digits_split m) as (ds & Eds & Fds).
    destruct (skip_digits m) as [|x r] eqn:Esk; cbn [hd]; [discriminate|].
    destruct (Z.eqb_spec x 10) as [Ex|Ex]; [|discriminate]. subst x.
    intros _.
    assert (E1 : line = (str "%PDF-1." ++ ds) ++ 10 :: (r ++ z)).
    { rewrite Ez, Em, Eds, <- !app_assoc. reflexivity. }
    pose proof (Hs _ _ E1) as Hr. rewrite Hr in E1.
    exists ds, rest. split; [|split; [exact Fds|]].
    + rewrite Ed, E1, <- !app_assoc. reflexivity.
    + rewrite E1, !length_app in Hl. cbn in Hl. lia.
  - intros (digits & rest & -> & F & L). apply pdf_file_version_line; assumption.
Qed.

Lemma pdf_file_accepts_a_version_line_witness :
  [37; 80; 68; 70; 45; 49; 46; 52; 10; 37] <> []
  /\ (pdf_file (inr [37; 80; 68; 70; 45; 49; 46; 52; 10; 37]) 0 = PDF_OK
      <-> exists digits rest,
            [37; 80; 68; 70; 45; 49; 46; 52; 10; 37]
            = str "%PDF-1." ++ digits ++ 10 :: rest
            /\ Forall (fun c => isdigit c = true) digits
            /\ (List.length digits <= 91)%nat).
Proof.
  assert (H : [37; 80; 68; 70; 45; 49; 46; 52; 10; 37] <> []) by discriminate.
  split; [exact H|].
  apply (pdf_file_accepts_a_version_line _ 0 H).
Defined.



(** ** Printing on a context that has written *)

Lemma parse_byte_page p b :
  page_byte b -> escstate (p_esc p) = ESC_IDLE -> p_initial p = false ->
  parse_byte p b
  = mkParse (p_esc p) (p_newlpi p) false (p_ffseen p) (p_buf p ++ [b]).
Proof.
  intros Hb He Hi.
  destruct Hb as [Hb|[Hb|[Hb|Hb]]];
    [apply parse_byte_stored; [left; exact Hb|exact He]
    |apply parse_byte_stored; [right; exact Hb|exact He]| |];
    subst b; destruct p as [e nl i f buf];
    cbn [p_esc p_newlpi p_initial p_ffseen p_buf] in *; subst i;
    unfold parse_byte; cbn [p_esc p_newlpi p_initial p_ffseen p_buf];
    rewrite He; reflexivity.
Qed.

Lemma parse_bytes_page s : forall p,
  Forall page_byte s -> escstate (p_esc p) = ESC_IDLE -> p_initial p = false ->
  parse_bytes p s
  = mkParse (p_esc p) (p_newlpi p) false (p_ffseen p) (p_buf p ++ s).
Proof.
  unfold parse_bytes.
  induction s as [|b s IH]; intros p Hs He Hi.
  - cbn. rewrite app_nil_r. destruct p; cbn in *; subst; reflexivity.
  - inversion Hs as [|? ? Hb Hs']; subst. cbn [fold_left].
    rewrite (parse_byte_page p b Hb He Hi).
    rewrite IH by (cbn; auto). cbn [p_esc p_newlpi p_initial p_ffseen p_buf].
    rewrite <- app_assoc. reflexivity.
Qed.

(** The parse of such a text on a context that has written. *)
Lemma parsestr_page st s :
  Forall page_byte s -> escstate (prs st) = ESC_IDLE ->
  snd (parsestr st s false)
  = set_parsebuf (parsebuf st ++ s) (set_sha1 (sha1 st ++ s) st).
Proof.
  intros Hs He. rewrite parsestr_eq. cbv zeta. cbn [snd].
  rewrite (parse_bytes_page s
             (mkParse (prs st) (newlpi (cfg st)) false 0 (parsebuf st)) Hs He eq_refl).
  cbn [p_buf p_esc]. destruct st; reflexivity.
Qed.

(** *** The lines and pages of the print loop *)

Lemma cfg_tof_swap n : forall l st, cfg (tof_swap n l st) = cfg st.
Proof.
  intros l st. destruct (tof_swap_lines n l st) as (L & LS & ->).
  destruct st; reflexivity.
Qed.

Lemma line_tof_swap n : forall l st,
  line (tof_swap n l st) = line st
  \/ line (tof_swap n l st) = u32 (tof (cfg st) + 1).
Proof.
  induction n as [|n IH]; intros l st; cbn [tof_swap]; [left; reflexivity|].
  destruct (Z.of_nat (List.length (lines st)) <=? u32 (lpp st + l));
    [left; reflexivity|].
  destruct (aget None (lines st) (u32 (lpp st + l))) as [d|]; [|apply IH].
  match goal with
  | |- context [tof_swap n (l + 1) ?s] =>
    destruct (IH (l + 1) s) as [E|E]; rewrite E;
      assert (Ec : cfg s = cfg st) by (destruct d; destruct st; reflexivity);
      assert (El : line s = line st \/ line s = u32 (tof (cfg st) + 1))
        by (destruct d; destruct st; auto)
  end.
  - exact El.
  - right. rewrite Ec. reflexivity.
Qed.

Lemma line_advance_page s :
  line (advance_page s) = 0 \/ line (advance_page s) = u32 (tof (cfg s) + 1).
Proof.
  unfold advance_page.
  match goal with
  | |- context [if ?c then _ else _] => destruct c
  end.
  - match goal with
    | |- context [tof_swap ?n ?l ?x] => destruct (line_tof_swap n l x) as [E|E]
    end; rewrite E; [left|right]; destruct s; reflexivity.
  - left. destruct s; reflexivity.
Qed.

Lemma line_emit_page o s : line (emit_page o s) = line s.
Proof.
  unfold emit_page. destruct (UNCOMPRESSED (flags s)); [destruct s; reflexivity|].
  destruct (LZW.encstm (pagebuf s)) as [z fail]. destruct s; reflexivity.
Qed.

Lemma cfg_clamp_line s : cfg (clamp_line s) = cfg s.
Proof. destruct (clamp_line_frame s) as (L & ->). destruct s; reflexivity. Qed.

Lemma line_wrpage s :
  line (wrpage s) = 0 \/ line (wrpage s) = u32 (tof (cfg s) + 1).
Proof.
  unfold wrpage. rewrite line_emit_page.
  replace (cfg s) with (cfg (render_page (addobj (clamp_line s))))
    by (rewrite <- (cfg_clamp_line s); destruct (clamp_line s); reflexivity).
  apply line_advance_page.
Qed.

Lemma page_clamp_line s : page (clamp_line s) = page s.
Proof. destruct (clamp_line_frame s) as (L & ->). destruct s; reflexivity. Qed.

Lemma page_wrpage s : page (wrpage s) = u32 (page s + 1).
Proof.
  unfold wrpage. rewrite page_emit_page.
  match goal with
  | |- context [advance_page ?x] =>
    destruct (advance_page_shape x) as (L & LS & ->)
  end.
  rewrite <- (page_clamp_line s). destruct (clamp_line s); reflexivity.
Qed.

(** What the steps of the loop keep: the settings, the lines per page
    and the error number. *)
Lemma stays_fields s s' :
  stays s s' -> cfg s' = cfg s /\ lpp s' = lpp s /\ errnum s' = errnum s.
Proof.
  intros [S _ _ _].
  destruct (sess_fields _ _ S) as (Hc & He & _ & _ & _ & _ & _ & _ & _ & _ & Hl & _).
  auto.
Qed.

(** A flush with the line number set succeeds and moves neither the
    line nor the page. *)
Lemma FLUSH_LBUF_ok s lbuf :
  (lbuf <> [] -> 0 < line s) ->
  exists s', FLUSH_LBUF s lbuf = Ok s'
             /\ line s' = line s /\ page s' = page s /\ cfg s' = cfg s
             /\ lpp s' = lpp s /\ errnum s' = errnum s.
Proof.
  intro H. destruct lbuf as [|c t]; [exists s; repeat split|].
  cbn [FLUSH_LBUF]. unfold add2line.
  destruct (Z.leb_spec (line s) 0) as [Hl|Hl];
    [specialize (H ltac:(discriminate)); lia|].
  eexists. split; [reflexivity|]. destruct s; repeat split.
Qed.

Lemma at_tof_fields s :
  page (at_tof s) = page s /\ cfg (at_tof s) = cfg s /\ lpp (at_tof s) = lpp s
  /\ errnum (at_tof s) = errnum s
  /\ line (at_tof s) = (if line s =? 0 then u32 (tof (cfg s) + 1) else line s).
Proof. unfold at_tof. destruct (line s =? 0); destruct s; repeat split. Qed.

Lemma wrpage_fields s :
  cfg (wrpage s) = cfg s /\ lpp (wrpage s) = lpp s /\ errnum (wrpage s) = errnum s.
Proof. apply stays_fields, stays_wrpage. Qed.

(** *** The line buffer *)

Lemma run_fits_le l : forall n m,
  (m <= n)%nat -> run_fits n l = true -> run_fits m l = true.
Proof.
  induction l as [|c r IH]; intros n m Hm H; cbn [run_fits] in *; [reflexivity|].
  destruct ((c =? 10) || (c =? 12)); [exact H|].
  apply andb_true_iff in H. destruct H as [H1 H2].
  apply andb_true_iff. split.
  - apply Z.ltb_lt. apply Z.ltb_lt in H1. lia.
  - apply (IH (S n)); [lia|exact H2].
Qed.

Lemma run_fits_break n c r :
  c = 10 \/ c = 12 -> run_fits n (c :: r) = true -> run_fits 0 r = true.
Proof.
  intros Hc H. cbn [run_fits] in H.
  replace ((c =? 10) || (c =? 12)) with true in H; [exact H|].
  symmetry. apply orb_true_iff. destruct Hc as [->| ->]; auto.
Qed.

Lemma run_fits_char n c r :
  c <> 10 -> c <> 12 -> run_fits n (c :: r) = true ->
  Z.of_nat n < DIM_lbuf /\ run_fits (S n) r = true.
Proof.
  intros H10 H12 H. cbn [run_fits] in H.
  replace ((c =? 10) || (c =? 12)) with false in H.
  - apply andb_true_iff in H. destruct H as [H1 H2].
    split; [apply Z.ltb_lt, H1|exact H2].
  - symmetry. apply orb_false_iff. split; apply Z.eqb_neq; assumption.
Qed.

(** With room in the buffer the character is stored in it, and the
    test that would empty it, at 299 characters, does not fire. *)
Lemma lbuf_room (lbuf : list Z) (c : Z) :
  Z.of_nat (List.length lbuf) < DIM_lbuf ->
  (DIM_lbuf <=? Z.of_nat (List.length lbuf)) = false
  /\ (299 <=? Z.of_nat (List.length (lbuf ++ [c]))) = false.
Proof.
  intro H. unfold DIM_lbuf in *. split; apply Z.leb_gt; [lia|].
  rewrite length_app. cbn [List.length]. lia.
Qed.

(** With the top-of-form offset below its sentinel the loop never
    finds the line number unset when it flushes, and with the runs
    of characters within the buffer it runs to its end. *)
Lemma print_loop_ok parsed : forall st lbuf,
  run_fits (List.length lbuf) parsed = true ->
  0 <= line st -> (lbuf <> [] -> 0 < line st) ->
  0 <= tof (cfg st) -> tof (cfg st) + 1 < 2 ^ 32 ->
  exists st', print_loop st lbuf parsed = Ok st'.
Proof.
  induction parsed as [|c rest IH]; intros st lbuf Hf Hl Hb Ht0 Ht1;
    cbn [print_loop].
  - destruct (FLUSH_LBUF_ok st lbuf Hb) as (s' & E & _). exists s'. exact E.
  - assert (Hu : u32 (tof (cfg st) + 1) = tof (cfg st) + 1)
      by (unfold u32; apply Z.mod_small; lia).
    assert (Hat : forall s, 0 <= line s -> cfg s = cfg st -> 0 < line (at_tof s)).
    { intros s Hs Hc. destruct (at_tof_fields s) as (_ & _ & _ & _ & E).
      rewrite E, Hc, Hu. destruct (Z.eqb_spec (line s) 0); lia. }
    assert (Hwr : forall s, cfg s = cfg st ->
              0 <= line (wrpage s) /\ cfg (wrpage s) = cfg st).
    { intros s Hc. destruct (wrpage_fields s) as (Ec & _).
      split; [|congruence].
      destruct (line_wrpage s) as [E|E]; rewrite E; [lia|apply u32_nonneg]. }
    assert (Hset : forall s2, cfg s2 = cfg st ->
              run_fits 0 rest = true ->
              exists st', print_loop (set_line (u32 (line s2 + 1)) s2) [] rest
                          = Ok st').
    { intros s2 C2 F0. apply IH.
      - exact F0.
      - replace (line (set_line (u32 (line s2 + 1)) s2))
          with (u32 (line s2 + 1)) by (destruct s2; reflexivity).
        apply u32_nonneg.
      - intro H; contradiction.
      - replace (cfg (set_line (u32 (line s2 + 1)) s2)) with (cfg s2)
          by (destruct s2; reflexivity). congruence.
      - replace (cfg (set_line (u32 (line s2 + 1)) s2)) with (cfg s2)
          by (destruct s2; reflexivity). congruence. }
    destruct (Z.eqb_spec c 12) as [E12|E12].
    + pose proof (run_fits_break _ _ _ (or_intror E12) Hf) as F0.
      destruct (FLUSH_LBUF_ok (at_tof st) lbuf) as (s1 & E1 & L1 & _ & C1 & _).
      { intros _. apply Hat; auto. }
      rewrite E1. cbn [bind].
      destruct (at_tof_fields st) as (_ & Ca & _).
      destruct (Hwr s1 ltac:(congruence)) as (Lw & Cw).
      apply IH; try rewrite Cw; auto. intro H; contradiction.
    + destruct (u32 (lpp st + tof (cfg st)) <? line st).
      * destruct (FLUSH_LBUF_ok st lbuf Hb) as (s1 & E1 & L1 & _ & C1 & _).
        rewrite E1. cbn [bind].
        destruct (Hwr s1 C1) as (Lw & Cw).
        destruct (at_tof_fields (wrpage s1)) as (_ & Ca & _).
        destruct (Z.eqb_spec c 10) as [E10|E10].
        -- pose proof (run_fits_break _ _ _ (or_introl E10) Hf) as F0.
           destruct (FLUSH_LBUF_ok (at_tof (wrpage s1)) [])
             as (s2 & E2 & L2 & _ & C2 & _); [intro H; contradiction|].
           rewrite E2. cbn [bind]. apply Hset; [congruence|exact F0].
        -- destruct (run_fits_char _ _ _ E10 E12 Hf) as (_ & F1).
           destruct (lbuf_room [] c) as (R1 & R2); [unfold DIM_lbuf; cbn; lia|].
           rewrite R1, R2.
           assert (L2 : 0 < line (at_tof (wrpage s1))) by (apply Hat; auto).
           apply IH; try lia; try congruence; auto.
           apply (run_fits_le rest (S (List.length lbuf))); [cbn; lia|exact F1].
      * cbn [bind].
        destruct (at_tof_fields st) as (_ & Ca & _).
        destruct (Z.eqb_spec c 10) as [E10|E10].
        -- pose proof (run_fits_break _ _ _ (or_introl E10) Hf) as F0.
           destruct (FLUSH_LBUF_ok (at_tof st) lbuf)
             as (s2 & E2 & L2 & _ & C2 & _); [intros _; apply Hat; auto|].
           rewrite E2. cbn [bind]. apply Hset; [congruence|exact F0].
        -- destruct (run_fits_char _ _ _ E10 E12 Hf) as (F0 & F1).
           destruct (lbuf_room lbuf c F0) as (R1 & R2). rewrite R1, R2.
           assert (L2 : 0 < line (at_tof st)) by (apply Hat; auto).
           apply IH; try lia; try congruence; auto.
           rewrite length_app. cbn [List.length].
           replace (List.length lbuf + 1)%nat with (S (List.length lbuf)) by lia.
           exact F1.
Qed.

Lemma form_feeds_cons c rest :
  form_feeds (c :: rest) = (if c =? 12 then 1 else 0) + form_feeds rest.
Proof.
  unfold form_feeds. cbn [filter]. rewrite (Z.eqb_sym 12 c).
  destruct (c =? 12); [cbn [List.length]; lia|lia].
Qed.

Lemma u32_add_l a b : u32 (u32 a + b) = u32 (a + b).
Proof. unfold u32. apply Zplus_mod_idemp_l. Qed.

Lemma u32_range x : 0 <= u32 x < 2 ^ 32.
Proof. unfold u32. apply Z.mod_pos_bound. reflexivity. Qed.

Lemma u32_small x : 0 <= x < 2 ^ 32 -> u32 x = x.
Proof. intro H. unfold u32. apply Z.mod_small. exact H. Qed.

(** Without line feeds the loop writes a page at each form feed and
    nowhere else. *)
Lemma print_loop_pages parsed : forall st lbuf,
  run_fits (List.length lbuf) parsed = true ->
  Forall line_byte parsed ->
  0 <= line st <= lpp st + tof (cfg st) -> (lbuf <> [] -> 0 < line st) ->
  0 <= tof (cfg st) -> 1 <= lpp st -> lpp st + tof (cfg st) + 1 < 2 ^ 32 ->
  0 <= page st < 2 ^ 32 ->
  exists st', print_loop st lbuf parsed = Ok st'
              /\ page st' = u32 (page st + form_feeds parsed)
              /\ errnum st' = errnum st.
Proof.
  induction parsed as [|c rest IH]; intros st lbuf Hfit Hp Hl Hb Ht0 Hp1 Hbd Hpg;
    cbn [print_loop].
  - destruct (FLUSH_LBUF_ok st lbuf Hb) as (s' & E & _ & Pg & _ & _ & Er).
    exists s'. split; [exact E|]. split; [|exact Er].
    rewrite Pg. unfold form_feeds. cbn [filter List.length Z.of_nat].
    rewrite Z.add_0_r, u32_small; [reflexivity|exact Hpg].
  - inversion Hp as [|? ? Hc Hrest]; subst.
    rewrite form_feeds_cons.
    assert (Hu : u32 (tof (cfg st) + 1) = tof (cfg st) + 1)
      by (apply u32_small; lia).
    assert (Hu2 : u32 (lpp st + tof (cfg st)) = lpp st + tof (cfg st))
      by (apply u32_small; lia).
    destruct (at_tof_fields st) as (Pa & Ca & La & Ea & Lna).
    assert (Lat : 0 < line (at_tof st) <= lpp st + tof (cfg st)).
    { rewrite Lna, Hu. destruct (Z.eqb_spec (line st) 0); lia. }
    destruct (Z.eqb_spec c 12) as [Ec|Ec].
    + destruct (FLUSH_LBUF_ok (at_tof st) lbuf)
        as (s1 & E1 & L1 & P1 & C1 & Lp1 & Er1); [intros _; lia|].
      rewrite E1. cbn [bind].
      destruct (wrpage_fields s1) as (Cw & Lw & Ew).
      destruct (IH (wrpage s1) []) as (st' & E' & Pg' & Er'); auto.
      * apply (run_fits_break _ _ _ (or_intror Ec) Hfit).
      * rewrite Cw, Lw, C1, Lp1, Ca, La.
        destruct (line_wrpage s1) as [E|E]; rewrite E; [lia|].
        rewrite C1, Ca, Hu. lia.
      * intro H; contradiction.
      * rewrite Cw, C1, Ca. exact Ht0.
      * rewrite Lw, Lp1, La. exact Hp1.
      * rewrite Cw, Lw, C1, Lp1, Ca, La. exact Hbd.
      * rewrite page_wrpage. apply u32_range.
      * exists st'. split; [exact E'|]. split.
        -- rewrite Pg', page_wrpage, P1, Pa, u32_add_l. f_equal. lia.
        -- rewrite Er', Ew, Er1, Ea. reflexivity.
    + rewrite Hu2.
      destruct (Z.ltb_spec (lpp st + tof (cfg st)) (line st)) as [Hf|Hf]; [lia|].
      cbn [bind].
      assert (Hc10 : c <> 10) by (destruct Hc as [Hc|[Hc|Hc]]; lia).
      destruct (Z.eqb_spec c 10) as [E10|_]; [contradiction|].
      destruct (run_fits_char _ _ _ Hc10 Ec Hfit) as (F0 & F1).
      destruct (lbuf_room lbuf c F0) as (R1 & R2). rewrite R1, R2.
      destruct (IH (at_tof st) (lbuf ++ [c])) as (st' & E' & Pg' & Er'); auto.
      * rewrite length_app. cbn [List.length].
        replace (List.length lbuf + 1)%nat with (S (List.length lbuf)) by lia.
        exact F1.
      * rewrite Ca, La. lia.
      * intros _. lia.
      * rewrite Ca. exact Ht0.
      * rewrite La. exact Hp1.
      * rewrite Ca, La. exact Hbd.
      * rewrite Pa. exact Hpg.
      * exists st'. split; [exact E'|]. split.
        -- rewrite Pg', Pa. reflexivity.
        -- rewrite Er', Ea. reflexivity.
Qed.

(** Line feeds from the top of the page or below it, as long as the
    page has room: each moves the line down by one. *)
Lemma print_loop_lfs rest m : forall st,
  line st = 0 \/ tof (cfg st) + 1 <= line st ->
  0 <= tof (cfg st) ->
  (if line st =? 0 then tof (cfg st) + 1 else line st) + Z.of_nat (S m)
    <= lpp st + tof (cfg st) + 1 ->
  lpp st + tof (cfg st) + 1 < 2 ^ 32 ->
  print_loop st [] (repeat 10 (S m) ++ rest)
  = print_loop
      (set_line ((if line st =? 0 then tof (cfg st) + 1 else line st)
                 + Z.of_nat (S m)) st) [] rest.
Proof.
  induction m as [|m IH]; intros st Hl Ht0 Hroom Hbd;
    assert (HL : tof (cfg st) + 1
                 <= (if line st =? 0 then tof (cfg st) + 1 else line st)
                 /\ line st
                    <= (if line st =? 0 then tof (cfg st) + 1 else line st))
      by (destruct (Z.eqb_spec (line st) 0); lia);
    set (L := if line st =? 0 then tof (cfg st) + 1 else line st) in *;
    assert (E : (let s := if line st =? 0
                          then set_line (tof (cfg st) + 1) st else st in
                 set_line (u32 (line s + 1)) s) = set_line (L + 1) st)
      by (cbv zeta; unfold L; destruct (Z.eqb_spec (line st) 0) as [E0|E0];
          [replace (line (set_line (tof (cfg st) + 1) st)) with (tof (cfg st) + 1)
             by (destruct st; reflexivity);
           rewrite u32_small by lia; destruct st; reflexivity
          |rewrite u32_small by lia; reflexivity]);
    cbv zeta in E.
  - cbn [repeat app print_loop]. change (10 =? 12) with false.
    change (10 =? 10) with true. cbv iota.
    rewrite (u32_small (lpp st + tof (cfg st))) by lia.
    destruct (Z.ltb_spec (lpp st + tof (cfg st)) (line st)) as [Hf|Hf]; [lia|].
    cbn [bind FLUSH_LBUF]. unfold at_tof.
    rewrite (u32_small (tof (cfg st) + 1)) by lia.
    rewrite E. reflexivity.
  - replace (repeat 10 (S (S m)) ++ rest) with (10 :: (repeat 10 (S m) ++ rest))
      by reflexivity.
    cbn [print_loop]. change (10 =? 12) with false.
    change (10 =? 10) with true. cbv iota.
    rewrite (u32_small (lpp st + tof (cfg st))) by lia.
    assert (Hm : Z.of_nat (S (S m)) = Z.of_nat (S m) + 1) by lia.
    destruct (Z.ltb_spec (lpp st + tof (cfg st)) (line st)) as [Hf|Hf]; [lia|].
    cbn [bind FLUSH_LBUF]. unfold at_tof.
    rewrite (u32_small (tof (cfg st) + 1)) by lia.
    rewrite E.
    assert (F : line (set_line (L + 1) st) = L + 1
                /\ cfg (set_line (L + 1) st) = cfg st
                /\ lpp (set_line (L + 1) st) = lpp st)
      by (destruct st; repeat split).
    destruct F as (F1 & F2 & F3).
    assert (N0 : (L + 1 =? 0) = false) by (apply Z.eqb_neq; lia).
    rewrite IH; rewrite ?F1, ?F2, ?F3, ?N0; try lia.
    f_equal. rewrite Hm.
    replace (L + 1 + Z.of_nat (S m)) with (L + (Z.of_nat (S m) + 1)) by lia.
    destruct st; reflexivity.
Qed.

Lemma parsestr_fields b s i :
  errnum (snd (parsestr b s i)) = errnum b
  /\ line (snd (parsestr b s i)) = line b
  /\ cfg (snd (parsestr b s i)) = cfg b
  /\ lpp (snd (parsestr b s i)) = lpp b
  /\ page (snd (parsestr b s i)) = page b.
Proof.
  rewrite parsestr_eq. cbv zeta. cbn [snd].
  generalize (parse_bytes (mkParse (prs b) (newlpi (cfg b)) i 0 (parsebuf b)) s).
  intro p. destruct b; repeat split.
Qed.

(** *** The parser and the runs of characters *)

(** One byte: the parser stores one character or none.  A byte it
    drops is no line feed, and a form feed only where it is the one at
    the head of the input; a character it stores is a line feed or a
    form feed exactly when the byte is. *)
Lemma parse_byte_run p b :
  (p_buf (parse_byte p b) = p_buf p
   /\ p_initial (parse_byte p b) = p_initial p
   /\ Z.land 255 b <> 10
   /\ (Z.land 255 b = 12 -> p_initial p = true))
  \/ (exists ch,
        p_buf (parse_byte p b) = p_buf p ++ [ch]
        /\ p_initial (parse_byte p b) = false
        /\ (ch = 10 <-> Z.land 255 b = 10)
        /\ (ch = 12 <-> Z.land 255 b = 12)).
Proof.
  unfold parse_byte. cbv zeta.
  set (m := Z.land 255 b).
  set (ext := match escstate (p_esc p) with
              | ESC_ESCSEQ => (64 <=? m) && (m <=? 95)
              | _ => false
              end).
  assert (Hch : (if ext then m + 64 else m) = m
                \/ (64 <= m <= 95 /\ (if ext then m + 64 else m) = m + 64)).
  { destruct ext eqn:E; [right|left; reflexivity].
    unfold ext in E. destruct (escstate (p_esc p)); try discriminate.
    apply andb_true_iff in E. destruct E as [E1 E2].
    apply Z.leb_le in E1. apply Z.leb_le in E2. split; [lia|reflexivity]. }
  set (ch := if ext then m + 64 else m) in *. clearbody ch.
  generalize (if ext then set_escstate ESC_IDLE (p_esc p) else p_esc p).
  intro e. clearbody ext m.
  assert (Hst : forall e' nl' ff',
            exists c, p_buf (finish p e' nl' ff' STORE ch) = p_buf p ++ [c]
                      /\ p_initial (finish p e' nl' ff' STORE ch) = false
                      /\ (c = 10 <-> m = 10) /\ (c = 12 <-> m = 12)).
  { intros e' nl' ff'. exists ch. cbn [finish p_buf p_initial].
    repeat split; intros; lia. }
  assert (Hds : forall e' nl' ff',
            ch <> 10 -> (ch = 12 -> p_initial p = true) ->
            p_buf (finish p e' nl' ff' DISCARD ch) = p_buf p
            /\ p_initial (finish p e' nl' ff' DISCARD ch) = p_initial p
            /\ m <> 10 /\ (m = 12 -> p_initial p = true)).
  { intros e' nl' ff' H10 H12. cbn [finish p_buf p_initial].
    repeat split; [lia|]. intro Hm. apply H12. lia. }
  destruct (Z.eqb_spec ch 10) as [E10|E10]; [right; apply Hst|].
  destruct (Z.eqb_spec ch 13) as [E13|E13].
  { destruct (p_initial p && (p_ffseen p =? 0));
      [left; apply Hds; [exact E10|intro; lia]|right; apply Hst]. }
  destruct (Z.eqb_spec ch 12) as [E12|E12].
  { destruct (p_initial p) eqn:Ei; [|right; apply Hst].
    destruct (p_ffseen p =? 0); [left; apply Hds; auto|right; apply Hst]. }
  assert (Hd : forall e' nl' ff',
            p_buf (finish p e' nl' ff' DISCARD ch) = p_buf p
            /\ p_initial (finish p e' nl' ff' DISCARD ch) = p_initial p
            /\ m <> 10 /\ (m = 12 -> p_initial p = true))
    by (intros; apply Hds; [exact E10|intro; contradiction]).
  repeat match goal with
         | |- context [if ?c then _ else _] => destruct c
         end; try (left; apply Hd).
  destruct (sequences e (p_newlpi p) ch) as [[e' nl'] []];
    first [left; apply Hd|right; apply Hst].
Qed.

(** The characters the parser stores run no longer between line
    feeds and form feeds than the bytes do. *)
Lemma parse_bytes_run s : forall p n m,
  run_fits n (map (Z.land 255) s) = true ->
  (m <= n)%nat -> (p_initial p = true -> m = O) ->
  exists out, p_buf (parse_bytes p s) = p_buf p ++ out
              /\ run_fits m out = true.
Proof.
  unfold parse_bytes.
  induction s as [|b s IH]; intros p n m Hf Hm Hi.
  - exists []. cbn. rewrite app_nil_r. split; reflexivity.
  - cbn [fold_left]. cbn [map] in Hf.
    destruct (parse_byte_run p b) as [(Eb & Ei & N10 & N12)|(ch & Eb & Ei & C10 & C12)].
    + assert (Hn : exists n', (m <= n')%nat
                        /\ run_fits n' (map (Z.land 255) s) = true).
      { destruct (Z.eq_dec (Z.land 255 b) 12) as [E12|E12].
        - exists O. split; [rewrite (Hi (N12 E12)); lia|].
          apply (run_fits_break n _ _ (or_intror E12) Hf).
        - exists (S n). split; [lia|].
          apply (run_fits_char n _ _ N10 E12 Hf). }
      destruct Hn as (n' & Hm' & Hf').
      destruct (IH (parse_byte p b) n' m Hf' Hm') as (out & Eo & Fo).
      { rewrite Ei. exact Hi. }
      exists out. rewrite Eo, Eb. split; [reflexivity|exact Fo].
    + destruct (Z.eq_dec (Z.land 255 b) 10) as [E10|E10];
        [|destruct (Z.eq_dec (Z.land 255 b) 12) as [E12|E12]].
      * destruct (IH (parse_byte p b) O O) as (out & Eo & Fo);
          [apply (run_fits_break n _ _ (or_introl E10) Hf)|lia|reflexivity|].
        exists (ch :: out). rewrite Eo, Eb, <- app_assoc.
        split; [reflexivity|].
        cbn [run_fits]. replace ch with 10 by (symmetry; apply C10, E10).
        exact Fo.
      * destruct (IH (parse_byte p b) O O) as (out & Eo & Fo);
          [apply (run_fits_break n _ _ (or_intror E12) Hf)|lia|reflexivity|].
        exists (ch :: out). rewrite Eo, Eb, <- app_assoc.
        split; [reflexivity|].
        cbn [run_fits]. replace ch with 12 by (symmetry; apply C12, E12).
        exact Fo.
      * destruct (run_fits_char n _ _ E10 E12 Hf) as (F0 & F1).
        destruct (IH (parse_byte p b) (S n) (S m)) as (out & Eo & Fo);
          [exact F1|lia|rewrite Ei; discriminate|].
        exists (ch :: out). rewrite Eo, Eb, <- app_assoc.
        split; [reflexivity|].
        cbn [run_fits].
        replace ((ch =? 10) || (ch =? 12)) with false.
        -- apply andb_true_iff. split; [apply Z.ltb_lt; lia|exact Fo].
        -- symmetry. apply orb_false_iff. split; apply Z.eqb_neq; intro H.
           ++ apply E10, C10, H.
           ++ apply E12, C12, H.
Qed.

(** What [parsestr] adds to the parse buffer, for a string of short
    runs. *)
Lemma parsestr_run st s i :
  short_runs s ->
  exists out, parsebuf (snd (parsestr st s i)) = parsebuf st ++ out
              /\ run_fits 0 out = true.
Proof.
  intro Hs. rewrite parsestr_eq. cbv zeta. cbn [snd].
  destruct (parse_bytes_run s (mkParse (prs st) (newlpi (cfg st)) i 0 (parsebuf st))
              O O Hs) as (out & Eo & Fo); [lia|reflexivity|].
  exists out. split; [|exact Fo].
  cbn [p_buf] in Eo. rewrite <- Eo.
  generalize (parse_bytes (mkParse (prs st) (newlpi (cfg st)) i 0 (parsebuf st)) s).
  intro p. destruct st; reflexivity.
Qed.

(** Printable characters and the controls the idle parser stores are
    stored as they are: the bound on the bytes is the bound on the
    characters. *)
Lemma short_runs_page s :
  Forall page_byte s -> short_runs s -> run_fits 0 s = true.
Proof.
  unfold short_runs. intros Hs H.
  replace (map (Z.land 255) s) with s in H; [exact H|]. clear H.
  induction Hs as [|b s Hb Hs IH]; [reflexivity|]. cbn [map].
  f_equal; [|exact IH].
  symmetry. apply land_255_byte. unfold page_byte in Hb. lia.
Qed.

Lemma print_parsed_run st parsed :
  run_fits 0 parsed = true ->
  errnum st = PDF_OK -> 0 <= line st ->
  0 <= tof (cfg st) -> tof (cfg st) + 1 < 2 ^ 32 ->
  exists st', print_parsed st parsed = (Ok st', PDF_OK).
Proof.
  intros Hf He Hl Ht0 Ht1. unfold print_parsed. cbv zeta.
  replace (errnum (set_parsebuf [] st)) with (errnum st) by (destruct st; reflexivity).
  rewrite He. cbn [is_ok negb].
  destruct parsed as [|c rest]; [eexists; reflexivity|].
  destruct (print_loop_ok (c :: rest) (set_parsebuf [] st) []) as (st' & E).
  - exact Hf.
  - destruct st; exact Hl.
  - intro H; contradiction.
  - destruct st; exact Ht0.
  - destruct st; exact Ht1.
  - pose proof (stays_print_loop (c :: rest) (set_parsebuf [] st) []) as S.
    rewrite E in S. cbn [state_of] in S.
    destruct (stays_fields _ _ S) as (_ & _ & Er).
    rewrite E. exists st'. rewrite Er.
    replace (errnum (set_parsebuf [] st)) with (errnum st) by (destruct st; reflexivity).
    rewrite He. reflexivity.
Qed.

Section PrintWritten.

Variable env : Env.

Lemma pdf_print_written b s :
  WRITTEN (flags b) = true ->
  pdf_print env (Some b) s
  = match print_parsed (snd (parsestr b s false))
                       (parsebuf (snd (parsestr b s false))) with
    | (Ok st', r) => (r, Some st')
    | (Abort e st', _) => (e, Some (set_errnum e st'))
    end.
Proof.
  intro Hw. unfold pdf_print, print_body. rewrite Hw. cbn [negb].
  destruct (parsestr b s false). reflexivity.
Qed.

End PrintWritten.

(** Once the header is out, printing does not fail.  On a context
    that has written and holds no error, with the parse buffer empty
    as each [pdf_print] leaves it and the top-of-form offset below
    its sentinel, [pdf_print] returns [PDF_OK] for every string
    whose runs of bytes between line feeds and form feeds fit the
    line buffer: the print loop never finds itself without a line to
    add to. *)
Theorem printing_after_the_header_succeeds (env : Env) (b : PDF) (s : list Z) :
  WRITTEN (flags b) = true -> errnum b = PDF_OK -> 0 <= line b ->
  0 <= tof (cfg b) -> tof (cfg b) + 1 < 2 ^ 32 ->
  parsebuf b = [] -> short_runs s ->
  fst (pdf_print env (Some b) s) = PDF_OK.
Proof.
  intros Hw He Hl Ht0 Ht1 Hpb Hs. rewrite (pdf_print_written env b s Hw).
  destruct (parsestr_fields b s false) as (Fe & Fl & Fc & _).
  destruct (parsestr_run b s false Hs) as (out & Eo & Fo).
  rewrite Hpb in Eo. cbn [app] in Eo.
  rewrite Eo.
  destruct (print_parsed_run (snd (parsestr b s false)) out) as (st' & E);
    rewrite ?Fe, ?Fl, ?Fc; auto.
  rewrite E. reflexivity.
Qed.

Lemma printing_after_the_header_succeeds_witness :
  WRITTEN (flags sample_written) = true /\ errnum sample_written = PDF_OK
  /\ 0 <= line sample_written /\ 0 <= tof (cfg sample_written)
  /\ tof (cfg sample_written) + 1 < 2 ^ 32
  /\ parsebuf sample_written = []
  /\ short_runs [27; 91; 50; 122; 66; 12]
  /\ fst (pdf_print sample_env (Some sample_written) [27; 91; 50; 122; 66; 12])
     = PDF_OK.
Proof.
  assert (H1 : WRITTEN (flags sample_written) = true) by (vm_compute; reflexivity).
  assert (H2 : errnum sample_written = PDF_OK) by (vm_compute; reflexivity).
  assert (H3 : 0 <= line sample_written) by (vm_compute; discriminate).
  assert (H4 : 0 <= tof (cfg sample_written)) by (vm_compute; discriminate).
  assert (H5 : tof (cfg sample_written) + 1 < 2 ^ 32) by (vm_compute; reflexivity).
  assert (H6 : parsebuf sample_written = []) by (vm_compute; reflexivity).
  assert (H7 : short_runs [27; 91; 50; 122; 66; 12]) by reflexivity.
  repeat (split; [assumption|]).
  apply (printing_after_the_header_succeeds sample_env sample_written
           [27; 91; 50; 122; 66; 12] H1 H2 H3 H4 H5 H6 H7).
Defined.

(** An error is sticky.  On a context that has written and holds an
    error, [pdf_print] returns that error and prints nothing: the
    input is hashed and parsed and then dropped, and the file, the
    lines and the page are what they were. *)
Theorem errors_are_sticky (env : Env) (b : PDF) (s : list Z) :
  WRITTEN (flags b) = true -> errnum b <> PDF_OK ->
  fst (pdf_print env (Some b) s) = errnum b
  /\ exists fe,
       snd (pdf_print env (Some b) s)
       = Some (set_parsebuf [] (set_prs fe (set_sha1 (sha1 b ++ s) b))).
Proof.
  intros Hw He. rewrite (pdf_print_written env b s Hw).
  unfold print_parsed. cbv zeta.
  destruct (parsestr_parsed b s false) as (fe & E). rewrite E.
  replace (errnum (set_parsebuf [] (aux (fun c => c) (fun h => h ++ s)
                                       (fun _ => fe) b)))
    with (errnum b) by (destruct b; reflexivity).
  destruct (errnum b) eqn:Eb; [contradiction| ..]; cbn [is_ok negb fst snd];
    (split; [reflexivity|]); exists fe; destruct b; reflexivity.
Qed.

Lemma errors_are_sticky_witness :
  WRITTEN (flags (set_errnum PDF_E_ACTIVE sample_written)) = true
  /\ errnum (set_errnum PDF_E_ACTIVE sample_written) <> PDF_OK
  /\ fst (pdf_print sample_env (Some (set_errnum PDF_E_ACTIVE sample_written))
            [66; 10])
     = errnum (set_errnum PDF_E_ACTIVE sample_written)
  /\ exists fe,
       snd (pdf_print sample_env (Some (set_errnum PDF_E_ACTIVE sample_written))
              [66; 10])
       = Some (set_parsebuf []
                 (set_prs fe
                    (set_sha1
                       (sha1 (set_errnum PDF_E_ACTIVE sample_written) ++ [66; 10])
                       (set_errnum PDF_E_ACTIVE sample_written)))).
Proof.
  assert (H1 : WRITTEN (flags (set_errnum PDF_E_ACTIVE sample_written)) = true)
    by (vm_compute; reflexivity).
  assert (H2 : errnum (set_errnum PDF_E_ACTIVE sample_written) <> PDF_OK)
    by (vm_compute; discriminate).
  split; [exact H1|]. split; [exact H2|].
  apply (errors_are_sticky sample_env _ [66; 10] H1 H2).
Defined.

(** Text without line feeds: one page for each form feed.  On a
    context that has written, with an idle parser and no error, a
    text of printable characters, carriage returns and form feeds
    with no more of them between two form feeds than the line buffer
    holds writes as many pages as it has form feeds, and [pdf_print]
    returns [PDF_OK]. *)
Theorem form_feeds_write_the_pages (env : Env) (b : PDF) (s : list Z) :
  WRITTEN (flags b) = true -> errnum b = PDF_OK ->
  escstate (prs b) = ESC_IDLE -> parsebuf b = [] ->
  Forall line_byte s -> short_runs s ->
  0 <= line b <= lpp b + tof (cfg b) ->
  0 <= tof (cfg b) -> 1 <= lpp b -> lpp b + tof (cfg b) + 1 < 2 ^ 32 ->
  0 <= page b < 2 ^ 32 ->
  exists b',
    pdf_print env (Some b) s = (PDF_OK, Some b')
    /\ page b' = u32 (page b + form_feeds s).
Proof.
  intros Hw He Hi Hpb Hs Hsr Hl Ht0 Hp1 Hbd Hpg.
  rewrite (pdf_print_written env b s Hw).
  assert (Hs' : Forall page_byte s).
  { eapply Forall_impl; [|exact Hs]. intros c [H|[H|H]]; unfold page_byte; auto. }
  pose proof (short_runs_page s Hs' Hsr) as Hfit.
  rewrite (parsestr_page b s Hs' Hi), Hpb. cbn [app].
  set (b1 := set_sha1 (sha1 b ++ s) b).
  assert (F : errnum b1 = errnum b /\ line b1 = line b /\ cfg b1 = cfg b
              /\ lpp b1 = lpp b /\ page b1 = page b)
    by (unfold b1; destruct b; repeat split).
  destruct F as (F1 & F2 & F3 & F4 & F5). clearbody b1.
  replace (parsebuf (set_parsebuf s b1)) with s by (destruct b1; reflexivity).
  unfold print_parsed. cbv zeta.
  replace (set_parsebuf [] (set_parsebuf s b1)) with (set_parsebuf [] b1)
    by (destruct b1; reflexivity).
  set (b2 := set_parsebuf [] b1).
  assert (G : errnum b2 = errnum b /\ line b2 = line b /\ cfg b2 = cfg b
              /\ lpp b2 = lpp b /\ page b2 = page b)
    by (unfold b2; destruct b1; cbn in *; repeat split; assumption).
  destruct G as (G1 & G2 & G3 & G4 & G5). clearbody b2.
  rewrite G1, He. cbn [is_ok negb].
  destruct s as [|c rest].
  - exists b2. split; [reflexivity|]. rewrite G5. unfold form_feeds. cbn.
    rewrite Z.add_0_r, u32_small; [reflexivity|exact Hpg].
  - destruct (print_loop_pages (c :: rest) b2 []) as (st' & E & Pg & Er);
      rewrite ?G2, ?G3, ?G4, ?G5; auto.
    + intro H; contradiction.
    + rewrite E. exists st'. rewrite Er, G1, He. split; [reflexivity|].
      rewrite Pg, G5. reflexivity.
Qed.

(** The loop on one printable character. *)
Lemma print_loop_last st c :
  c <> 12 -> c <> 10 ->
  print_loop st [] [c]
  = if u32 (lpp st + tof (cfg st)) <? line st
    then FLUSH_LBUF (at_tof (wrpage st)) [c]
    else FLUSH_LBUF (at_tof st) [c].
Proof.
  intros H12 H10. cbn [print_loop].
  destruct (Z.eqb_spec c 12); [contradiction|].
  destruct (Z.eqb_spec c 10); [contradiction|].
  destruct (u32 (lpp st + tof (cfg st)) <? line st); reflexivity.
Qed.

(** Line feeds from the top of a page, then one printable
    character. *)
Lemma print_loop_lines_char st (m : nat) c :
  line st = 0 -> 0 <= tof (cfg st) -> 1 <= lpp st ->
  lpp st + tof (cfg st) + 1 < 2 ^ 32 ->
  Z.of_nat m <= lpp st -> 32 <= c <= 126 ->
  exists st',
    print_loop st [] (repeat 10 m ++ [c]) = Ok st'
    /\ errnum st' = errnum st
    /\ page st' = (if Z.of_nat m <? lpp st then page st else u32 (page st + 1))
    /\ line st' = (if Z.of_nat m <? lpp st then tof (cfg st) + 1 + Z.of_nat m
                   else tof (cfg st) + 1).
Proof.
  intros Hl Ht0 Hp1 Hbd Hm Hc.
  assert (Hu : u32 (tof (cfg st) + 1) = tof (cfg st) + 1) by (apply u32_small; lia).
  assert (Hu2 : u32 (lpp st + tof (cfg st)) = lpp st + tof (cfg st))
    by (apply u32_small; lia).
  assert (Hrun : exists b3,
            print_loop st [] (repeat 10 m ++ [c]) = print_loop b3 [] [c]
            /\ line b3 = (if (m =? 0)%nat then 0 else tof (cfg st) + 1 + Z.of_nat m)
            /\ cfg b3 = cfg st /\ lpp b3 = lpp st /\ page b3 = page st
            /\ errnum b3 = errnum st).
  { destruct m as [|m].
    - exists st. split; [reflexivity|]. cbn [Nat.eqb]. repeat split. exact Hl.
    - exists (set_line (tof (cfg st) + 1 + Z.of_nat (S m)) st). split.
      + assert (E0 : (if line st =? 0 then tof (cfg st) + 1 else line st)
                     = tof (cfg st) + 1) by (rewrite Hl; reflexivity).
        rewrite (print_loop_lfs [c] m st); rewrite ?E0; try lia.
        reflexivity.
      + cbn [Nat.eqb]. destruct st; repeat split. }
  destruct Hrun as (b3 & Erun & L3 & C3 & P3 & Pg3 & Er3). rewrite Erun.
  rewrite (print_loop_last b3 c) by lia. rewrite C3, P3, Hu2.
  destruct (Z.ltb_spec (Z.of_nat m) (lpp st)) as [Hlt|Hge].
  - (* room left on the page *)
    assert (Hf : (lpp st + tof (cfg st) <? line b3) = false).
    { apply Z.ltb_ge. rewrite L3. destruct (m =? 0)%nat; lia. }
    rewrite Hf.
    destruct (at_tof_fields b3) as (Pa & Ca & La & Ea & Lna).
    destruct (FLUSH_LBUF_ok (at_tof b3) [c])
      as (s' & E & Ls & Ps & Cs & Lps & Ers).
    { intros _. rewrite Lna, L3, C3, Hu.
      destruct (Nat.eqb_spec m 0); [change (0 =? 0) with true; lia|].
      destruct (Z.eqb_spec (tof (cfg st) + 1 + Z.of_nat m) 0); lia. }
    rewrite E.
    exists s'. split; [reflexivity|]. split; [rewrite Ers, Ea, Er3; reflexivity|].
    split; [rewrite Ps, Pa, Pg3; reflexivity|].
    rewrite Ls, Lna, L3, C3, Hu.
    destruct (Nat.eqb_spec m 0) as [E0|E0];
      [subst m; change (0 =? 0) with true; cbn [Z.of_nat]; lia|].
    destruct (Z.eqb_spec (tof (cfg st) + 1 + Z.of_nat m) 0); lia.
  - (* the page is full *)
    assert (Em : Z.of_nat m = lpp st) by lia.
    assert (Hf : (lpp st + tof (cfg st) <? line b3) = true).
    { apply Z.ltb_lt. rewrite L3.
      destruct (Nat.eqb_spec m 0) as [E0|E0]; [subst m; cbn in Em; lia|lia]. }
    rewrite Hf.
    destruct (wrpage_fields b3) as (Cw & Lw & Ew).
    destruct (at_tof_fields (wrpage b3)) as (Pa & Ca & La & Ea & Lna).
    assert (Lat : line (at_tof (wrpage b3)) = tof (cfg st) + 1).
    { rewrite Lna, Cw, C3, Hu.
      destruct (line_wrpage b3) as [E|E]; rewrite E.
      - reflexivity.
      - rewrite C3, Hu. destruct (Z.eqb_spec (tof (cfg st) + 1) 0); [lia|reflexivity]. }
    destruct (FLUSH_LBUF_ok (at_tof (wrpage b3)) [c])
      as (s' & E & Ls & Ps & Cs & Lps & Ers); [intros _; lia|].
    rewrite E.
    exists s'. split; [reflexivity|].
    split; [rewrite Ers, Ea, Ew, Er3; reflexivity|].
    split; [rewrite Ps, Pa, page_wrpage, Pg3; reflexivity|].
    rewrite Ls, Lat. reflexivity.
Qed.

(** A page takes [lpp] lines.  On a context that has written, at the
    top of a page, up to [lpp] line feeds move the line down and write
    nothing; a character printed after fewer than [lpp] line feeds is
    on the same page, and a character printed after [lpp] of them
    makes [pdf_print] write the page first. *)
Theorem a_page_takes_lpp_lines (env : Env) (b : PDF) (m : nat) (c : Z) :
  WRITTEN (flags b) = true -> errnum b = PDF_OK ->
  escstate (prs b) = ESC_IDLE -> parsebuf b = [] ->
  line b = 0 -> 0 <= tof (cfg b) -> 1 <= lpp b ->
  lpp b + tof (cfg b) + 1 < 2 ^ 32 ->
  Z.of_nat m <= lpp b -> 32 <= c <= 126 ->
  exists b',
    pdf_print env (Some b) (repeat 10 m ++ [c]) = (PDF_OK, Some b')
    /\ page b' = (if Z.of_nat m <? lpp b then page b else u32 (page b + 1))
    /\ line b' = (if Z.of_nat m <? lpp b then tof (cfg b) + 1 + Z.of_nat m
                  else tof (cfg b) + 1).
Proof.
  intros Hw He Hi Hpb Hl Ht0 Hp1 Hbd Hm Hc.
  rewrite (pdf_print_written env b _ Hw).
  assert (Hs' : Forall page_byte (repeat 10 m ++ [c])).
  { apply Forall_app. split.
    - apply Forall_forall. intros x Hx. apply repeat_spec in Hx. subst.
      unfold page_byte. auto.
    - constructor; [left; exact Hc|constructor]. }
  rewrite (parsestr_page b _ Hs' Hi), Hpb. cbn [app].
  set (b1 := set_sha1 (sha1 b ++ repeat 10 m ++ [c]) b).
  assert (F : errnum b1 = errnum b /\ line b1 = line b /\ cfg b1 = cfg b
              /\ lpp b1 = lpp b /\ page b1 = page b)
    by (unfold b1; destruct b; repeat split).
  destruct F as (F1 & F2 & F3 & F4 & F5). clearbody b1.
  replace (parsebuf (set_parsebuf (repeat 10 m ++ [c]) b1)) with (repeat 10 m ++ [c])
    by (destruct b1; reflexivity).
  unfold print_parsed. cbv zeta.
  replace (set_parsebuf [] (set_parsebuf (repeat 10 m ++ [c]) b1))
    with (set_parsebuf [] b1) by (destruct b1; reflexivity).
  set (b2 := set_parsebuf [] b1).
  assert (G : errnum b2 = errnum b /\ line b2 = line b /\ cfg b2 = cfg b
              /\ lpp b2 = lpp b /\ page b2 = page b)
    by (unfold b2; destruct b1; cbn in *; repeat split; assumption).
  destruct G as (G1 & G2 & G3 & G4 & G5). clearbody b2.
  rewrite G1, He. cbn [is_ok negb].
  destruct (print_loop_lines_char b2 m c) as (st' & E & Er & Pg & Ln);
    rewrite ?G2, ?G3, ?G4; auto.
  destruct (repeat 10 m ++ [c]) as [|x xs] eqn:Ene; [destruct m; discriminate|].
  rewrite E. exists st'. rewrite Er, G1, He. split; [reflexivity|].
  rewrite Pg, Ln, G3, G4, G5. split; reflexivity.
Qed.

Lemma form_feeds_write_the_pages_witness :
  WRITTEN (flags sample_written) = true /\ errnum sample_written = PDF_OK
  /\ escstate (prs sample_written) = ESC_IDLE /\ parsebuf sample_written = []
  /\ Forall line_byte [66; 12; 67; 12; 12]
  /\ short_runs [66; 12; 67; 12; 12]
  /\ 0 <= line sample_written <= lpp sample_written + tof (cfg sample_written)
  /\ 0 <= tof (cfg sample_written) /\ 1 <= lpp sample_written
  /\ lpp sample_written + tof (cfg sample_written) + 1 < 2 ^ 32
  /\ 0 <= page sample_written < 2 ^ 32
  /\ exists b',
       pdf_print sample_env (Some sample_written) [66; 12; 67; 12; 12]
       = (PDF_OK, Some b')
       /\ page b' = u32 (page sample_written + form_feeds [66; 12; 67; 12; 12]).
Proof.
  assert (H1 : WRITTEN (flags sample_written) = true) by (vm_compute; reflexivity).
  assert (H2 : errnum sample_written = PDF_OK) by (vm_compute; reflexivity).
  assert (H3 : escstate (prs sample_written) = ESC_IDLE) by (vm_compute; reflexivity).
  assert (H4 : parsebuf sample_written = []) by (vm_compute; reflexivity).
  assert (H5 : Forall line_byte [66; 12; 67; 12; 12])
    by (repeat constructor; unfold line_byte; lia).
  assert (H5' : short_runs [66; 12; 67; 12; 12]) by reflexivity.
  assert (H6 : 0 <= line sample_written
               <= lpp sample_written + tof (cfg sample_written))
    by (vm_compute; split; discriminate).
  assert (H7 : 0 <= tof (cfg sample_written)) by (vm_compute; discriminate).
  assert (H8 : 1 <= lpp sample_written) by (vm_compute; discriminate).
  assert (H9 : lpp sample_written + tof (cfg sample_written) + 1 < 2 ^ 32)
    by (vm_compute; reflexivity).
  assert (H10 : 0 <= page sample_written < 2 ^ 32)
    by (vm_compute; split; [discriminate|reflexivity]).
  repeat (split; [assumption|]).
  apply (form_feeds_write_the_pages sample_env sample_written [66; 12; 67; 12; 12]
           H1 H2 H3 H4 H5 H5' H6 H7 H8 H9 H10).
Defined.

Lemma a_page_takes_lpp_lines_witness :
  WRITTEN (flags sample_written) = true /\ errnum sample_written = PDF_OK
  /\ escstate (prs sample_written) = ESC_IDLE /\ parsebuf sample_written = []
  /\ line sample_written = 0
  /\ 0 <= tof (cfg sample_written) /\ 1 <= lpp sample_written
  /\ lpp sample_written + tof (cfg sample_written) + 1 < 2 ^ 32
  /\ Z.of_nat 3 <= lpp sample_written /\ 32 <= 66 <= 126
  /\ exists b',
       pdf_print sample_env (Some sample_written) (repeat 10 3 ++ [66])
       = (PDF_OK, Some b')
       /\ page b' = (if Z.of_nat 3 <? lpp sample_written then page sample_written
                     else u32 (page sample_written + 1))
       /\ line b' = (if Z.of_nat 3 <? lpp sample_written
                     then tof (cfg sample_written) + 1 + Z.of_nat 3
                     else tof (cfg sample_written) + 1).
Proof.
  assert (H1 : WRITTEN (flags sample_written) = true) by (vm_compute; reflexivity).
  assert (H2 : errnum sample_written = PDF_OK) by (vm_compute; reflexivity).
  assert (H3 : escstate (prs sample_written) = ESC_IDLE) by (vm_compute; reflexivity).
  assert (H4 : parsebuf sample_written = []) by (vm_compute; reflexivity).
  assert (H5 : line sample_written = 0) by (vm_compute; reflexivity).
  assert (H6 : 0 <= tof (cfg sample_written)) by (vm_compute; discriminate).
  assert (H7 : 1 <= lpp sample_written) by (vm_compute; discriminate).
  assert (H8 : lpp sample_written + tof (cfg sample_written) + 1 < 2 ^ 32)
    by (vm_compute; reflexivity).
  assert (H9 : Z.of_nat 3 <= lpp sample_written) by (vm_compute; discriminate).
  assert (H10 : 32 <= 66 <= 126) by lia.
  repeat (split; [assumption|]).
  apply (a_page_takes_lpp_lines sample_env sample_written 3 66
           H1 H2 H3 H4 H5 H6 H7 H8 H9 H10).
Defined.

(** ** The cross-reference table *)























Section IndexedFile.

Variable env : Env.




End IndexedFile.






Section NewFileTable.

Variable env : Env.






End NewFileTable.



(** The rows of the table have the width the format asks for.  As
    long as the offsets have at most ten digits, the table is its two
    heading lines followed by one row of exactly twenty bytes for the
    free entry and for each object. *)
Theorem xref_rows_are_twenty_bytes (st : PDF) :
  0 <= obj st ->
  Forall (fun off => Z.of_nat off < 10 ^ 10) (xref st) ->
  exists rows,
    xref_table st
    = str "xref" ++ nl ++ str "0 " ++ fmt_u (u32 (1 + obj st)) ++ nl
        ++ List.concat rows
    /\ Z.of_nat (List.length rows) = obj st + 1
    /\ Forall (fun r => List.length r = 20%nat) rows.
Proof.
  intros Ho Hx.
  exists ((fmt_u0 10 0 ++ str " " ++ fmt_u0 5 65535 ++ str " f " ++ nl)
          :: map (fun p => fmt_u0 10 (Z.of_nat (nth p (xref st) O)) ++ str " "
                             ++ fmt_u0 5 0 ++ str " n " ++ nl)
                 (seq 0 (Z.to_nat (obj st)))).
  split; [|split].
  - unfold xref_table. cbn [List.concat]. rewrite flat_map_concat_map, <- !app_assoc.
    reflexivity.
  - cbn [List.length]. rewrite length_map, length_seq. lia.
  - constructor; [reflexivity|].
    apply Forall_forall. intros r Hr. apply in_map_iff in Hr.
    destruct Hr as (p & <- & _).
    rewrite !length_app, length_fmt_u0.
    + reflexivity.
    + lia.
    + split; [lia|].
      destruct (Nat.lt_ge_cases p (List.length (xref st))) as [Hp|Hp].
      * rewrite Forall_forall in Hx. apply Hx. apply nth_In. exact Hp.
      * rewrite nth_overflow by exact Hp. reflexivity.
Qed.

Lemma xref_rows_are_twenty_bytes_witness :
  0 <= obj sample_written
  /\ Forall (fun off => Z.of_nat off < 10 ^ 10) (xref sample_written)
  /\ exists rows,
       xref_table sample_written
       = str "xref" ++ nl ++ str "0 " ++ fmt_u (u32 (1 + obj sample_written)) ++ nl
           ++ List.concat rows
       /\ Z.of_nat (List.length rows) = obj sample_written + 1
       /\ Forall (fun r => List.length r = 20%nat) rows.
Proof.
  assert (H1 : 0 <= obj sample_written) by (vm_compute; discriminate).
  assert (H2 : Forall (fun off => Z.of_nat off < 10 ^ 10) (xref sample_written)).
  { replace (xref sample_written) with [23%nat] by (vm_compute; reflexivity).
    repeat constructor. }
  split; [exact H1|]. split; [exact H2|].
  apply (xref_rows_are_twenty_bytes sample_written H1 H2).
Defined.

(** ** Errors and their clearing *)

(** A print on a context that has written and holds an error. *)
Lemma print_with_error env b s :
  WRITTEN (flags b) = true -> errnum b <> PDF_OK ->
  exists fe,
    pdf_print env (Some b) s
    = (errnum b, Some (set_parsebuf [] (set_prs fe (set_sha1 (sha1 b ++ s) b)))).
Proof.
  intros Hw He. rewrite (pdf_print_written env b s Hw).
  unfold print_parsed. cbv zeta.
  destruct (parsestr_parsed b s false) as (fe & E). rewrite E.
  replace (errnum (set_parsebuf [] (aux (fun c => c) (fun h => h ++ s)
                                       (fun _ => fe) b)))
    with (errnum b) by (destruct b; reflexivity).
  exists fe.
  destruct (errnum b) eqn:Eb; [contradiction| ..]; cbn [is_ok negb];
    destruct b; cbn in *; subst; reflexivity.
Qed.

(** A setting changed too late blocks the session until the error is
    cleared.  Once a session has written, [pdf_set] returns [ACTIVE]
    and leaves that error in the context; from then on every
    [pdf_print] returns [ACTIVE] and prints nothing, and after
    [pdf_clearerr] printing returns [PDF_OK] again, for a string
    whose runs of bytes between line feeds and form feeds fit the
    line buffer. *)
Theorem late_pdf_set_blocks_printing (env : Env) (b : PDF) (k : setkey)
    (svalue : option string) (dvalue : Q) (s1 s2 : list Z) :
  WRITTEN (flags b) = true -> ACTIVE (flags b) = true ->
  0 <= line b -> 0 <= tof (cfg b) -> tof (cfg b) + 1 < 2 ^ 32 ->
  short_runs s2 ->
  let h1 := snd (pdf_set env (Some b) k svalue dvalue) in
  let h2 := snd (pdf_print env h1 s1) in
  fst (pdf_set env (Some b) k svalue dvalue) = PDF_E_ACTIVE
  /\ fst (pdf_print env h1 s1) = PDF_E_ACTIVE
  /\ output h2 = output (Some b)
  /\ fst (pdf_print env (pdf_clearerr h2) s2) = PDF_OK.
Proof.
  intros Hw Ha Hl Ht0 Ht1 Hs2. cbv zeta.
  unfold pdf_set, pdfset. rewrite Ha. cbn [is_ok fst snd].
  split; [reflexivity|].
  assert (Hw1 : WRITTEN (flags (set_errnum PDF_E_ACTIVE b)) = true)
    by (destruct b; exact Hw).
  assert (He1 : errnum (set_errnum PDF_E_ACTIVE b) <> PDF_OK)
    by (destruct b; discriminate).
  destruct (print_with_error env _ s1 Hw1 He1) as (fe & E). rewrite E.
  cbn [fst snd]. split; [destruct b; reflexivity|].
  split; [destruct b; reflexivity|].
  unfold pdf_clearerr. cbn [option_map].
  set (b3 := set_errnum PDF_OK _).
  assert (F : WRITTEN (flags b3) = true /\ errnum b3 = PDF_OK /\ line b3 = line b
              /\ cfg b3 = cfg b /\ parsebuf b3 = [])
    by (unfold b3; destruct b; cbn in *; repeat split; assumption).
  destruct F as (F1 & F2 & F3 & F4 & F5). clearbody b3.
  rewrite (pdf_print_written env b3 s2 F1).
  destruct (parsestr_fields b3 s2 false) as (Fe & Fl & Fc & _).
  destruct (parsestr_run b3 s2 false Hs2) as (out & Eo & Fo).
  rewrite F5 in Eo. cbn [app] in Eo. rewrite Eo.
  destruct (print_parsed_run (snd (parsestr b3 s2 false)) out) as (st' & E');
    rewrite ?Fe, ?Fl, ?Fc, ?F2, ?F3, ?F4; auto.
  rewrite E'. reflexivity.
Qed.

Lemma late_pdf_set_blocks_printing_witness :
  WRITTEN (flags sample_written) = true /\ ACTIVE (flags sample_written) = true
  /\ 0 <= line sample_written /\ 0 <= tof (cfg sample_written)
  /\ tof (cfg sample_written) + 1 < 2 ^ 32
  /\ short_runs [67; 10]
  /\ fst (pdf_set sample_env (Some sample_written) PDF_CPI None (12 # 1))
     = PDF_E_ACTIVE
  /\ fst (pdf_print sample_env
            (snd (pdf_set sample_env (Some sample_written) PDF_CPI None (12 # 1)))
            [66; 10]) = PDF_E_ACTIVE
  /\ output (snd (pdf_print sample_env
                    (snd (pdf_set sample_env (Some sample_written) PDF_CPI None
                            (12 # 1)))
                    [66; 10]))
     = output (Some sample_written)
  /\ fst (pdf_print sample_env
            (pdf_clearerr
               (snd (pdf_print sample_env
                       (snd (pdf_set sample_env (Some sample_written) PDF_CPI None
                               (12 # 1)))
                       [66; 10])))
            [67; 10]) = PDF_OK.
Proof.
  assert (H1 : WRITTEN (flags sample_written) = true) by (vm_compute; reflexivity).
  assert (H2 : ACTIVE (flags sample_written) = true) by (vm_compute; reflexivity).
  assert (H3 : 0 <= line sample_written) by (vm_compute; discriminate).
  assert (H4 : 0 <= tof (cfg sample_written)) by (vm_compute; discriminate).
  assert (H5 : tof (cfg sample_written) + 1 < 2 ^ 32) by (vm_compute; reflexivity).
  assert (H6 : short_runs [67; 10]) by reflexivity.
  repeat (split; [assumption|]).
  apply (late_pdf_set_blocks_printing sample_env sample_written PDF_CPI None
           (12 # 1) [66; 10] [67; 10] H1 H2 H3 H4 H5 H6).
Defined.

(** ** The settings *)






Section Settings.

Variable env : Env.



End Settings.


(** ** The current location *)

(** Without line feeds the line stays at the top of the form. *)
Lemma print_loop_line_top parsed : forall st lbuf,
  Forall line_byte parsed ->
  line st = 0 \/ line st = tof (cfg st) + 1 ->
  0 <= tof (cfg st) -> 1 <= lpp st -> lpp st + tof (cfg st) + 1 < 2 ^ 32 ->
  line (state_of (print_loop st lbuf parsed)) = 0
  \/ line (state_of (print_loop st lbuf parsed)) = tof (cfg st) + 1.
Proof.
  induction parsed as [|c rest IH]; intros st lbuf Hp Hl Ht0 Hp1 Hbd;
    cbn [print_loop].
  - destruct lbuf as [|x t]; [exact Hl|]. cbn [FLUSH_LBUF]. unfold add2line.
    destruct (line st <=? 0); [exact Hl|]. cbn [state_of].
    replace (line (set_lines _ st)) with (line st) by (destruct st; reflexivity).
    exact Hl.
  - inversion Hp as [|? ? Hc Hrest]; subst.
    assert (Hu : u32 (tof (cfg st) + 1) = tof (cfg st) + 1)
      by (apply u32_small; lia).
    assert (Hu2 : u32 (lpp st + tof (cfg st)) = lpp st + tof (cfg st))
      by (apply u32_small; lia).
    destruct (at_tof_fields st) as (Pa & Ca & La & Ea & Lna).
    assert (Lat : line (at_tof st) = tof (cfg st) + 1).
    { rewrite Lna, Hu. destruct Hl as [E|E]; rewrite E.
      - reflexivity.
      - destruct (Z.eqb_spec (tof (cfg st) + 1) 0); [lia|reflexivity]. }
    assert (Hflush : forall s t, line s = tof (cfg st) + 1 -> cfg s = cfg st ->
              lpp s = lpp st ->
              exists s', FLUSH_LBUF s t = Ok s' /\ line s' = tof (cfg st) + 1
                         /\ cfg s' = cfg st /\ lpp s' = lpp st).
    { intros s t Es Ec Ep.
      destruct (FLUSH_LBUF_ok s t) as (s' & E & Ls & _ & Cs & Lps & _);
        [intros _; lia|].
      exists s'. repeat split; congruence. }
    destruct (Z.eqb_spec c 12) as [Ec|Ec].
    + destruct (Hflush (at_tof st) lbuf Lat Ca La) as (s1 & E1 & L1 & C1 & Lp1).
      rewrite E1. cbn [bind].
      destruct (wrpage_fields s1) as (Cw & Lw & Ew).
      rewrite <- C1, <- Cw. apply IH; auto.
      * destruct (line_wrpage s1) as [E|E]; rewrite E; [left; reflexivity|].
        right. rewrite Cw, C1, Hu. reflexivity.
      * rewrite Cw, C1. exact Ht0.
      * rewrite Lw, Lp1. exact Hp1.
      * rewrite Cw, Lw, C1, Lp1. exact Hbd.
    + rewrite Hu2.
      destruct (Z.ltb_spec (lpp st + tof (cfg st)) (line st)) as [Hf|Hf];
        [destruct Hl; lia|].
      cbn [bind].
      assert (Hc10 : c <> 10) by (destruct Hc as [Hc|[Hc|Hc]]; lia).
      destruct (Z.eqb_spec c 10) as [E10|_]; [contradiction|].
      destruct (DIM_lbuf <=? Z.of_nat (List.length lbuf));
        [cbn [state_of]; right; exact Lat|].
      destruct (299 <=? Z.of_nat (List.length (lbuf ++ [c]))).
      * destruct (Hflush (at_tof st) (lbuf ++ [c]) Lat Ca La)
          as (s3 & E3 & L3 & C3 & Lp3).
        rewrite E3. cbn [bind]. rewrite <- C3. apply IH; auto.
        -- right. rewrite C3. exact L3.
        -- rewrite C3. exact Ht0.
        -- rewrite Lp3. exact Hp1.
        -- rewrite C3, Lp3. exact Hbd.
      * rewrite <- Ca. apply IH; auto.
        -- right. rewrite Ca. exact Lat.
        -- rewrite Ca. exact Ht0.
        -- rewrite La. exact Hp1.
        -- rewrite Ca, La. exact Hbd.
Qed.

(** After text without line feeds, [pdf_where] names the top of the
    form on the page after the form feeds.  On a context that has
    written and stands at the top of a form, after a print of
    printable characters, carriage returns and form feeds, with no
    more of them between two form feeds than the line buffer holds,
    [pdf_where] gives the line of the top of form, and as the page
    the pages of the earlier sessions, the pages written before, one
    for each form feed of the text, and one. *)
Theorem pdf_where_after_form_feeds (env : Env) (w : Z) (b : PDF) (s : list Z) :
  WRITTEN (flags b) = true -> errnum b = PDF_OK ->
  escstate (prs b) = ESC_IDLE -> parsebuf b = [] ->
  Forall line_byte s -> short_runs s ->
  line b = 0 \/ line b = tof (cfg b) + 1 ->
  0 <= tof (cfg b) -> tof (cfg b) + 1 <= lpp b ->
  lpp b + tof (cfg b) + 1 < 2 ^ 32 ->
  0 <= page b -> 0 <= prevpc (ap b) ->
  page b + form_feeds s + 1 + prevpc (ap b) < 2 ^ 32 -> 32 <= w ->
  pdf_where w (snd (pdf_print env (Some b) s))
  = (PDF_OK,
     Some (prevpc (ap b) + page b + form_feeds s + 1, tof (cfg b) + 1)).
Proof.
  intros Hw He Hi Hpb Hs Hsr Hl Ht0 Htl Hbd Hpg Hpv Hsum Hw32.
  assert (Hff : 0 <= form_feeds s) by (unfold form_feeds; lia).
  rewrite (pdf_print_written env b s Hw).
  assert (Hs' : Forall page_byte s).
  { eapply Forall_impl; [|exact Hs]. intros c [H|[H|H]]; unfold page_byte; auto. }
  pose proof (short_runs_page s Hs' Hsr) as Hfit.
  rewrite (parsestr_page b s Hs' Hi), Hpb. cbn [app].
  set (b1 := set_sha1 (sha1 b ++ s) b).
  assert (F : errnum b1 = errnum b /\ line b1 = line b /\ cfg b1 = cfg b
              /\ lpp b1 = lpp b /\ page b1 = page b /\ ap b1 = ap b)
    by (unfold b1; destruct b; repeat split).
  destruct F as (F1 & F2 & F3 & F4 & F5 & F6). clearbody b1.
  replace (parsebuf (set_parsebuf s b1)) with s by (destruct b1; reflexivity).
  unfold print_parsed. cbv zeta.
  replace (set_parsebuf [] (set_parsebuf s b1)) with (set_parsebuf [] b1)
    by (destruct b1; reflexivity).
  set (b2 := set_parsebuf [] b1).
  assert (G : errnum b2 = errnum b /\ line b2 = line b /\ cfg b2 = cfg b
              /\ lpp b2 = lpp b /\ page b2 = page b /\ ap b2 = ap b)
    by (unfold b2; destruct b1; cbn in *; repeat split; assumption).
  destruct G as (G1 & G2 & G3 & G4 & G5 & G6). clearbody b2.
  rewrite G1, He. cbn [is_ok negb].
  assert (Hfin : forall b',
            page b' = u32 (page b + form_feeds s) ->
            line b' = 0 \/ line b' = tof (cfg b) + 1 ->
            cfg b' = cfg b -> lpp b' = lpp b -> ap b' = ap b ->
            pdf_where w (Some b')
            = (PDF_OK,
               Some (prevpc (ap b) + page b + form_feeds s + 1, tof (cfg b) + 1))).
  { intros b' Pg Ln Cf Lp Ap. unfold pdf_where. cbv zeta.
    rewrite Pg, Cf, Lp, Ap.
    rewrite (u32_small (page b + form_feeds s)) by lia.
    rewrite (u32_small (page b + form_feeds s + 1)) by lia.
    rewrite (u32_small (tof (cfg b) + 1)) by lia.
    assert (El : (if line b' =? 0 then tof (cfg b) + 1 else line b')
                 = tof (cfg b) + 1).
    { destruct Ln as [E|E]; rewrite E; [reflexivity|].
      destruct (Z.eqb_spec (tof (cfg b) + 1) 0); [lia|reflexivity]. }
    rewrite El.
    destruct (Z.ltb_spec (lpp b) (tof (cfg b) + 1)) as [Hlt|_]; [lia|].
    unfold usize. rewrite Z.mod_small.
    - do 3 f_equal. lia.
    - split; [lia|].
      apply Z.lt_le_trans with (2 ^ 32); [lia|].
      apply Z.pow_le_mono_r; lia. }
  destruct s as [|c rest].
  - cbn [snd]. apply Hfin.
    + rewrite G5. unfold form_feeds. cbn. rewrite Z.add_0_r, u32_small; lia.
    + rewrite G2. exact Hl.
    + exact G3.
    + exact G4.
    + exact G6.
  - assert (Q1 : 0 <= line b2 <= lpp b2 + tof (cfg b2))
      by (rewrite G2, G3, G4; destruct Hl; lia).
    assert (Q2 : ([] : list Z) <> [] -> 0 < line b2) by (intro H; contradiction).
    assert (Q3 : 0 <= tof (cfg b2)) by (rewrite G3; exact Ht0).
    assert (Q4 : 1 <= lpp b2) by (rewrite G4; lia).
    assert (Q5 : lpp b2 + tof (cfg b2) + 1 < 2 ^ 32) by (rewrite G3, G4; exact Hbd).
    assert (Q6 : 0 <= page b2 < 2 ^ 32) by (rewrite G5; lia).
    destruct (print_loop_pages (c :: rest) b2 [] Hfit Hs Q1 Q2 Q3 Q4 Q5 Q6)
      as (st' & E & Pg & Er).
    {
      pose proof (print_loop_line_top (c :: rest) b2 [] Hs) as Ln.
      pose proof (stays_print_loop (c :: rest) b2 []) as St.
      rewrite E in Ln, St. cbn [state_of] in Ln, St.
      destruct (stays_fields _ _ St) as (Cf & Lp & _).
      destruct St as [Ss _ _ _].
      destruct (sess_fields _ _ Ss) as (_&_&_&_&_&_&Ap&_).
      rewrite E. cbn [snd]. apply Hfin.
      * rewrite Pg, G5. reflexivity.
      * rewrite <- G3. apply Ln; auto. rewrite G2, G3. exact Hl.
      * rewrite Cf. exact G3.
      * rewrite Lp. exact G4.
      * rewrite Ap. exact G6. }
Qed.

Lemma pdf_where_after_form_feeds_witness :
  WRITTEN (flags sample_written) = true /\ errnum sample_written = PDF_OK
  /\ escstate (prs sample_written) = ESC_IDLE /\ parsebuf sample_written = []
  /\ Forall line_byte [66; 12; 67; 12; 12]
  /\ short_runs [66; 12; 67; 12; 12]
  /\ (line sample_written = 0
      \/ line sample_written = tof (cfg sample_written) + 1)
  /\ 0 <= tof (cfg sample_written)
  /\ tof (cfg sample_written) + 1 <= lpp sample_written
  /\ lpp sample_written + tof (cfg sample_written) + 1 < 2 ^ 32
  /\ 0 <= page sample_written /\ 0 <= prevpc (ap sample_written)
  /\ page sample_written + form_feeds [66; 12; 67; 12; 12] + 1
       + prevpc (ap sample_written) < 2 ^ 32
  /\ 32 <= 64
  /\ pdf_where 64 (snd (pdf_print sample_env (Some sample_written)
                          [66; 12; 67; 12; 12]))
     = (PDF_OK,
        Some (prevpc (ap sample_written) + page sample_written
                + form_feeds [66; 12; 67; 12; 12] + 1,
              tof (cfg sample_written) + 1)).
Proof.
  assert (H1 : WRITTEN (flags sample_written) = true) by (vm_compute; reflexivity).
  assert (H2 : errnum sample_written = PDF_OK) by (vm_compute; reflexivity).
  assert (H3 : escstate (prs sample_written) = ESC_IDLE) by (vm_compute; reflexivity).
  assert (H4 : parsebuf sample_written = []) by (vm_compute; reflexivity).
  assert (H5 : Forall line_byte [66; 12; 67; 12; 12])
    by (repeat constructor; unfold line_byte; lia).
  assert (H5' : short_runs [66; 12; 67; 12; 12]) by reflexivity.
  assert (H6 : line sample_written = 0
               \/ line sample_written = tof (cfg sample_written) + 1)
    by (left; vm_compute; reflexivity).
  assert (H7 : 0 <= tof (cfg sample_written)) by (vm_compute; discriminate).
  assert (H8 : tof (cfg sample_written) + 1 <= lpp sample_written)
    by (vm_compute; discriminate).
  assert (H9 : lpp sample_written + tof (cfg sample_written) + 1 < 2 ^ 32)
    by (vm_compute; reflexivity).
  assert (H10 : 0 <= page sample_written) by (vm_compute; discriminate).
  assert (H11 : 0 <= prevpc (ap sample_written)) by (vm_compute; discriminate).
  assert (H12 : page sample_written + form_feeds [66; 12; 67; 12; 12] + 1
                  + prevpc (ap sample_written) < 2 ^ 32)
    by (vm_compute; reflexivity).
  assert (H13 : 32 <= 64) by lia.
  repeat (split; [assumption|]).
  apply (pdf_where_after_form_feeds sample_env 64 sample_written
           [66; 12; 67; 12; 12] H1 H2 H3 H4 H5 H5' H6 H7 H8 H9 H10 H11 H12 H13).
Defined.

(** ** The line buffer is not overrun *)

Lemma FLUSH_LBUF_code s t e s' :
  FLUSH_LBUF s t = Abort e s' -> e = PDF_E_BUGCHECK.
Proof.
  destruct t as [|c t]; cbn [FLUSH_LBUF]; [discriminate|].
  unfold add2line. destruct (line s <=? 0); [|discriminate].
  intro H. inversion H. reflexivity.
Qed.

Lemma bind_abort r (k : PDF -> result) e s' :
  bind r k = Abort e s' ->
  r = Abort e s' \/ exists s1, r = Ok s1 /\ k s1 = Abort e s'.
Proof.
  destruct r as [s1|e1 s1]; cbn [bind]; intro H; [right|left; exact H].
  exists s1. split; [reflexivity|exact H].
Qed.

(** With the runs of characters within the buffer, the loop stops
    early only where [add2line] finds no line to add to. *)
Lemma print_loop_fits parsed : forall st lbuf e st',
  run_fits (List.length lbuf) parsed = true ->
  print_loop st lbuf parsed = Abort e st' -> e = PDF_E_BUGCHECK.
Proof.
  induction parsed as [|c rest IH]; intros st lbuf e st' Hfit;
    cbn [print_loop].
  - apply FLUSH_LBUF_code.
  - destruct (Z.eqb_spec c 12) as [E12|E12].
    + pose proof (run_fits_break _ _ _ (or_intror E12) Hfit) as F0.
      intro H. apply bind_abort in H.
      destruct H as [H|(s1 & _ & H)]; [exact (FLUSH_LBUF_code _ _ _ _ H)|].
      exact (IH _ [] _ _ F0 H).
    + destruct (u32 (lpp st + tof (cfg st)) <? line st).
      * intro H. apply bind_abort in H.
        destruct H as [H|(s1 & _ & H)].
        { apply bind_abort in H.
          destruct H as [H|(s0 & _ & H)];
            [exact (FLUSH_LBUF_code _ _ _ _ H)|discriminate]. }
        destruct (Z.eqb_spec c 10) as [E10|E10].
        -- pose proof (run_fits_break _ _ _ (or_introl E10) Hfit) as F0.
           apply bind_abort in H.
           destruct H as [H|(s2 & _ & H)]; [exact (FLUSH_LBUF_code _ _ _ _ H)|].
           exact (IH _ [] _ _ F0 H).
        -- destruct (run_fits_char _ _ _ E10 E12 Hfit) as (_ & F1).
           destruct (lbuf_room [] c) as (R1 & R2); [unfold DIM_lbuf; cbn; lia|].
           rewrite R1, R2 in H.
           apply (IH (at_tof s1) ([] ++ [c]) e st'); [|exact H].
           apply (run_fits_le rest (S (List.length lbuf))); [cbn; lia|exact F1].
      * cbn [bind].
        destruct (Z.eqb_spec c 10) as [E10|E10].
        -- pose proof (run_fits_break _ _ _ (or_introl E10) Hfit) as F0.
           intro H. apply bind_abort in H.
           destruct H as [H|(s2 & _ & H)]; [exact (FLUSH_LBUF_code _ _ _ _ H)|].
           exact (IH _ [] _ _ F0 H).
        -- destruct (run_fits_char _ _ _ E10 E12 Hfit) as (F0 & F1).
           destruct (lbuf_room lbuf c F0) as (R1 & R2). rewrite R1, R2.
           apply IH. rewrite length_app. cbn [List.length].
           replace (List.length lbuf + 1)%nat with (S (List.length lbuf)) by lia.
           exact F1.
Qed.

(** A string of short runs stays within the line buffer.  On a
    context with the parse buffer empty, as each [pdf_print] leaves
    it, a string with no more than 150 bytes in a row without a line
    feed or a form feed never makes the loop of [pdf_print] store a
    character past the end of [lbuf]: where the loop stops early, it
    is [add2line] that has found no line to add to.  And 151
    characters in a row do run past the end. *)
Theorem short_runs_fit_the_line_buffer (st st0 : PDF) (s : list Z) (i : bool) :
  parsebuf st = [] -> short_runs s ->
  (forall e st',
     print_loop st0 [] (parsebuf (snd (parsestr st s i))) = Abort e st' ->
     e = PDF_E_BUGCHECK)
  /\ exists st1,
       print_loop sample_written [] (repeat 65 151) = Abort LBUF_OVERRUN st1.
Proof.
  intros Hpb Hs. split.
  - intros e st'. destruct (parsestr_run st s i Hs) as (out & Eo & Fo).
    rewrite Hpb in Eo. cbn [app] in Eo. rewrite Eo.
    apply print_loop_fits. exact Fo.
  - eexists. vm_compute. reflexivity.
Qed.

Lemma short_runs_fit_the_line_buffer_witness :
  parsebuf sample_written = [] /\ short_runs (repeat 65 150 ++ [10; 66])
  /\ (forall e st',
        print_loop sample_written []
          (parsebuf (snd (parsestr sample_written (repeat 65 150 ++ [10; 66])
                            false)))
        = Abort e st' -> e = PDF_E_BUGCHECK)
  /\ exists st1,
       print_loop sample_written [] (repeat 65 151) = Abort LBUF_OVERRUN st1.
Proof.
  assert (H1 : parsebuf sample_written = []) by (vm_compute; reflexivity).
  assert (H2 : short_runs (repeat 65 150 ++ [10; 66])) by (vm_compute; reflexivity).
  split; [exact H1|]. split; [exact H2|].
  apply (short_runs_fit_the_line_buffer sample_written sample_written
           (repeat 65 150 ++ [10; 66]) false H1 H2).
Defined.
